(** * plsql-performance-sample: benchmark harness, trend analyzer, backup cleanup

    A shallow embedding of three modules of the repository,

      - python/performance/benchmark.py      (module [Benchmark])
      - python/analysis/trend_analyzer.py    (module [Trend])
      - python/automation/backup_automation.py (module [Backup])

    together with the statistics routines they call (module [Stats]).

    Conventions.
      - Python floats are idealised as rationals [Q]; a NaN that pandas
        produces from an empty selection is [None].
      - A raised [Exception] is a value [Raise msg], [msg] being [str(e)].
      - The outside world (clock, database cursor, file system) is explicit:
        a read-only environment of replies and a state that is threaded
        through the calls. *)

From Stdlib Require Import ZArith QArith Qround Lqa Lia List Sorted Permutation.
From stdpp Require Import gmap strings list fin_maps.

Local Open Scope Q_scope.

(* ===================================================================== *)
(** ** Exceptions *)
(* ===================================================================== *)

Inductive outcome (A : Type) : Type :=
| Ok (a : A)
| Raise (msg : string).
Arguments Ok {A} a.
Arguments Raise {A} msg.

(* ===================================================================== *)
(** ** The [statistics] module and the builtins [sum], [min], [max] *)
(* ===================================================================== *)

Module Stats.

(** [sum(xs)]: a left fold from 0. *)
Definition sum (xs : list Q) : Q := fold_left Qplus xs 0.

Definition len (xs : list Q) : Q := inject_Z (Z.of_nat (length xs)).

(** [statistics.mean]: raises [StatisticsError] on empty data. *)
Definition mean (xs : list Q) : outcome Q :=
  match xs with
  | [] => Raise "mean requires at least one data point"
  | _ :: _ => Ok (sum xs / len xs)
  end.

(** [min(xs)], [max(xs)]: the first smallest (largest) element; [ValueError]
    on an empty sequence. *)
Definition min (xs : list Q) : outcome Q :=
  match xs with
  | [] => Raise "min() arg is an empty sequence"
  | x :: rest =>
      Ok (fold_left (fun m y => if QMicromega.Qlt_bool y m then y else m) rest x)
  end.

Definition max (xs : list Q) : outcome Q :=
  match xs with
  | [] => Raise "max() arg is an empty sequence"
  | x :: rest =>
      Ok (fold_left (fun m y => if QMicromega.Qlt_bool m y then y else m) rest x)
  end.

(** Sample variance, divisor [n - 1]. *)
Definition variance (xs : list Q) : Q :=
  let m := sum xs / len xs in
  sum (map (fun x => (x - m) * (x - m)) xs) / (len xs - 1).

(** [statistics.stdev]: needs two data points; the square root is the
    platform's, taken as a parameter. *)
Definition stdev (sqrt : Q -> Q) (xs : list Q) : outcome Q :=
  match xs with
  | [] | [_] => Raise "variance requires at least two data points"
  | _ => Ok (sqrt (variance xs))
  end.

Fixpoint insert_sorted (x : Q) (xs : list Q) : list Q :=
  match xs with
  | [] => [x]
  | y :: ys => if Qle_bool x y then x :: y :: ys else y :: insert_sorted x ys
  end.

Definition sort (xs : list Q) : list Q := fold_right insert_sorted [] xs.

(** [Series.quantile(q)] with the default linear interpolation: position
    [q * (n - 1)] in the sorted values, interpolating between neighbours. *)
Definition quantile (q : Q) (xs : list Q) : Q :=
  let s := sort xs in
  let pos := q * (len xs - 1) in
  let lo := Qfloor pos in
  let frac := pos - inject_Z lo in
  let a := nth (Z.to_nat lo) s 0 in
  let b := nth (Nat.min (S (Z.to_nat lo)) (length s - 1)) s 0 in
  a + (b - a) * frac.

(** A rational square root (a few Newton steps), for running examples. *)
Fixpoint newton_sqrt (steps : nat) (x guess : Q) : Q :=
  match steps with
  | O => guess
  | S steps' =>
      if Qeq_bool guess 0 then 0
      else newton_sqrt steps' x (Qred ((guess + x / guess) / 2))
  end.

End Stats.

(* ===================================================================== *)
(** ** benchmark.py *)
(* ===================================================================== *)

Module Benchmark.

(** What the clock and the database answer.  Replies are indexed by the
    number of earlier calls of the same kind. *)
Record Env : Type := {
  time_time : nat -> Q;                          (* k-th reading of time.time() *)
  connection_cursor : option string;             (* Some msg: cursor() raises *)
  cursor_execute : nat -> string -> option string; (* Some msg: execute raises *)
  cursor_fetchall : nat -> option string;        (* Some msg: fetchall raises *)
  cursor_close : option string;                  (* Some msg: close() raises *)
  math_sqrt : Q -> Q
}.

(** What has happened so far. *)
Record World : Type := {
  ticks : nat;              (* readings of the clock *)
  executed : list string;   (* queries passed to cursor.execute, oldest first *)
  fetched : nat;            (* calls of cursor.fetchall *)
  called : nat              (* calls of the transaction function *)
}.

Definition M (A : Type) : Type := World -> outcome A * World.

Definition ret {A} (a : A) : M A := fun w => (Ok a, w).

Definition bind {A B} (c : M A) (k : A -> M B) : M B :=
  fun w =>
    match c w with
    | (Ok a, w') => k a w'
    | (Raise msg, w') => (Raise msg, w')
    end.

Definition lift {A} (o : outcome A) : M A := fun w => (o, w).

Definition may_raise (r : option string) : outcome unit :=
  match r with
  | None => Ok tt
  | Some msg => Raise msg
  end.

Declare Scope bench_scope.
Delimit Scope bench_scope with bench.
Notation "'let*' x ':=' c1 'in' c2" := (bind c1 (fun x => c2))
  (at level 10, x name, c1 at level 100, c2 at level 200) : bench_scope.
Notation "c1 '>>' c2" := (bind c1 (fun _ => c2))
  (at level 100, c2 at level 200, right associativity) : bench_scope.
Local Open Scope bench_scope.

(** [try: body except Exception as e: handler(str(e))] *)
Definition try_except {A} (body : M A) (handler : string -> A) : World -> A * World :=
  fun w =>
    match body w with
    | (Ok a, w') => (a, w')
    | (Raise msg, w') => (handler msg, w')
    end.

(** [for i in range(n): s = body(s)] *)
Fixpoint for_range {S} (n : nat) (body : S -> M S) (s : S) : M S :=
  match n with
  | O => ret s
  | Datatypes.S n' => let* s' := body s in for_range n' body s'
  end.

(** [for x in xs: s = body(x, s)] *)
Fixpoint for_each {X S} (xs : list X) (body : X -> S -> M S) (s : S) : M S :=
  match xs with
  | [] => ret s
  | x :: xs' => let* s' := body x s in for_each xs' body s'
  end.

Section Operations.
Variable env : Env.

Definition time : M Q :=
  fun w => (Ok (time_time env (ticks w)),
            {| ticks := S (ticks w); executed := executed w;
               fetched := fetched w; called := called w |}).

Definition cursor : M unit := lift (may_raise (connection_cursor env)).

Definition execute (query : string) : M unit :=
  fun w => (may_raise (cursor_execute env (length (executed w)) query),
            {| ticks := ticks w; executed := executed w ++ [query];
               fetched := fetched w; called := called w |}).

Definition fetchall : M unit :=
  fun w => (may_raise (cursor_fetchall env (fetched w)),
            {| ticks := ticks w; executed := executed w;
               fetched := S (fetched w); called := called w |}).

Definition close : M unit := lift (may_raise (cursor_close env)).

(** [statistics.stdev(xs) if len(xs) > 1 else 0] *)
Definition stdev_or_zero (xs : list Q) : outcome Q :=
  if (1 <? length xs)%nat then Stats.stdev (math_sqrt env) xs else Ok 0.

(* --------------------------------------------------------------------- *)
(** *** run_single_query_test *)

Record QueryResult : Type := {
  query : string;
  error : option string;         (* None: no 'error' key *)
  iterations : Z;
  avg_time_ms : Q;
  min_time_ms : Q;
  max_time_ms : Q;
  std_dev_ms : Q;
  total_time_ms : Q
}.

Definition query_error (q : string) (msg : string) : QueryResult :=
  {| query := q; error := Some msg; iterations := 0;
     avg_time_ms := 0; min_time_ms := 0; max_time_ms := 0;
     std_dev_ms := 0; total_time_ms := 0 |}.

Definition timed_query (q : string) (execution_times : list Q) : M (list Q) :=
  let* start_time := time in
  execute q >>
  fetchall >>
  let* end_time := time in
  ret (execution_times ++ [(end_time - start_time) * 1000]).

Definition run_single_query_test (q : string) (n : Z) : World -> QueryResult * World :=
  try_except
    (cursor >>
     let* execution_times := for_range (Z.to_nat n) (timed_query q) [] in
     close >>
     let* avg := lift (Stats.mean execution_times) in
     let* mn := lift (Stats.min execution_times) in
     let* mx := lift (Stats.max execution_times) in
     let* sd := lift (stdev_or_zero execution_times) in
     ret {| query := q; error := None; iterations := n;
            avg_time_ms := avg; min_time_ms := mn; max_time_ms := mx;
            std_dev_ms := sd; total_time_ms := Stats.sum execution_times |})
    (query_error q).

(* --------------------------------------------------------------------- *)
(** *** run_transaction_test *)

Record TransactionResult : Type := {
  t_test_type : string;
  t_iterations : Z;
  t_error : option string;
  t_avg_time_ms : Q;
  t_min_time_ms : Q;
  t_max_time_ms : Q;
  t_std_dev_ms : Q;
  t_total_time_ms : Q
}.

Definition transaction_error (n : Z) (msg : string) : TransactionResult :=
  {| t_test_type := "custom_transaction"; t_iterations := n; t_error := Some msg;
     t_avg_time_ms := 0; t_min_time_ms := 0; t_max_time_ms := 0;
     t_std_dev_ms := 0; t_total_time_ms := 0 |}.

(** The caller's callable: its k-th call returns, or raises [msg]. *)
Definition call (transaction_func : nat -> option string) : M unit :=
  fun w => (may_raise (transaction_func (called w)),
            {| ticks := ticks w; executed := executed w;
               fetched := fetched w; called := S (called w) |}).

Definition timed_transaction (transaction_func : nat -> option string)
    (execution_times : list Q) : M (list Q) :=
  let* start_time := time in
  call transaction_func >>
  let* end_time := time in
  ret (execution_times ++ [(end_time - start_time) * 1000]).

Definition run_transaction_test (transaction_func : nat -> option string) (n : Z)
    : World -> TransactionResult * World :=
  try_except
    (let* execution_times :=
       for_range (Z.to_nat n) (timed_transaction transaction_func) [] in
     let* avg := lift (Stats.mean execution_times) in
     let* mn := lift (Stats.min execution_times) in
     let* mx := lift (Stats.max execution_times) in
     let* sd := lift (stdev_or_zero execution_times) in
     ret {| t_test_type := "custom_transaction"; t_iterations := n; t_error := None;
            t_avg_time_ms := avg; t_min_time_ms := mn; t_max_time_ms := mx;
            t_std_dev_ms := sd; t_total_time_ms := Stats.sum execution_times |})
    (transaction_error n).

(* --------------------------------------------------------------------- *)
(** *** run_load_test *)

Record LoadResult : Type := {
  l_test_type : string;
  l_duration_seconds : Z;
  l_error : option string;
  l_total_queries : Z;
  l_queries_per_second : Q;
  l_avg_time_ms : Q;
  l_min_time_ms : Q;
  l_max_time_ms : Q;
  l_std_dev_ms : Q;
  l_query_counts : gmap string Z
}.

Definition load_error (duration_seconds : Z) (msg : string) : LoadResult :=
  {| l_test_type := "load_test"; l_duration_seconds := duration_seconds;
     l_error := Some msg; l_total_queries := 0; l_queries_per_second := 0;
     l_avg_time_ms := 0; l_min_time_ms := 0; l_max_time_ms := 0;
     l_std_dev_ms := 0; l_query_counts := ∅ |}.

(** [{query: 0 for query in queries}] *)
Definition zero_counts (queries : list string) : gmap string Z :=
  fold_left (fun m q => <[q := 0%Z]> m) queries ∅.

(** [query_counts[query] += 1]; a missing key is a [KeyError]. *)
Definition increment (q : string) (query_counts : gmap string Z)
    : outcome (gmap string Z) :=
  match query_counts !! q with
  | Some c => Ok (<[q := (c + 1)%Z]> query_counts)
  | None => Raise ("'" ++ q ++ "'")
  end.

(** One pass of the body of [for query in queries]. *)
Definition load_query (q : string) (s : gmap string Z * list Q)
    : M (gmap string Z * list Q) :=
  let* start := time in
  cursor >>
  execute q >>
  fetchall >>
  close >>
  let* end_ := time in
  let* query_counts := lift (increment q (fst s)) in
  ret (query_counts, snd s ++ [(end_ - start) * 1000]).

(** [while time.time() < end_time: for query in queries: ...].  The loop
    need not terminate; [None] is "still running after [fuel] tests of the
    condition". *)
Fixpoint while_before (fuel : nat) (end_time : Q) (queries : list string)
    (s : gmap string Z * list Q) (w : World)
    : option (outcome (gmap string Z * list Q) * World) :=
  match fuel with
  | O => None
  | S fuel' =>
      match time w with
      | (Ok now, w1) =>
          if QMicromega.Qlt_bool now end_time then
            match for_each queries load_query s w1 with
            | (Ok s', w2) => while_before fuel' end_time queries s' w2
            | (Raise msg, w2) => Some (Raise msg, w2)
            end
          else Some (Ok s, w1)
      | (Raise msg, w1) => Some (Raise msg, w1)
      end
  end.

(** [sum(query_counts.values())] *)
Definition sum_values (query_counts : gmap string Z) : Z :=
  map_fold (fun _ c acc => (c + acc)%Z) 0%Z query_counts.

(** [total_queries / duration_seconds]: true division of two ints. *)
Definition true_div (a b : Z) : outcome Q :=
  if (b =? 0)%Z then Raise "division by zero" else Ok (inject_Z a / inject_Z b).

Definition load_summary (duration_seconds : Z) (s : gmap string Z * list Q)
    : M LoadResult :=
  let total_queries := sum_values (fst s) in
  let* queries_per_second := lift (true_div total_queries duration_seconds) in
  let* avg := lift (Stats.mean (snd s)) in
  let* mn := lift (Stats.min (snd s)) in
  let* mx := lift (Stats.max (snd s)) in
  let* sd := lift (stdev_or_zero (snd s)) in
  ret {| l_test_type := "load_test"; l_duration_seconds := duration_seconds;
         l_error := None; l_total_queries := total_queries;
         l_queries_per_second := queries_per_second;
         l_avg_time_ms := avg; l_min_time_ms := mn; l_max_time_ms := mx;
         l_std_dev_ms := sd; l_query_counts := fst s |}.

Definition run_load_test (fuel : nat) (queries : list string) (duration_seconds : Z)
    (w : World) : option (LoadResult * World) :=
  match time w with
  | (Ok start_time, w0) =>
      let end_time := start_time + inject_Z duration_seconds in
      match while_before fuel end_time queries (zero_counts queries, []) w0 with
      | None => None
      | Some (Ok s, w1) =>
          Some (try_except (load_summary duration_seconds s)
                           (load_error duration_seconds) w1)
      | Some (Raise msg, w1) => Some (load_error duration_seconds msg, w1)
      end
  | (Raise msg, w0) => Some (load_error duration_seconds msg, w0)
  end.

End Operations.

(* --------------------------------------------------------------------- *)
(** *** Describing a run *)

(** The [j]-th execution of the query after the state [w] returns. *)
Definition execution_returns (env : Env) (w : World) (q : string) (j : nat) : Prop :=
  cursor_execute env (length (executed w) + j) q = None
  /\ cursor_fetchall env (fetched w + j) = None.

(** The [k]-th execution of the query after the state [w] raises [msg],
    in [execute] or in [fetchall]. *)
Definition execution_raises (env : Env) (w : World) (q : string) (k : nat)
    (msg : string) : Prop :=
  cursor_execute env (length (executed w) + k) q = Some msg
  \/ (cursor_execute env (length (executed w) + k) q = None
      /\ cursor_fetchall env (fetched w + k) = Some msg).

(** Nothing the database is asked raises. *)
Definition database_healthy (env : Env) : Prop :=
  connection_cursor env = None
  /\ (forall k q, cursor_execute env k q = None)
  /\ (forall k, cursor_fetchall env k = None)
  /\ cursor_close env = None.

(** The tick at which the loop condition of [run_load_test] is tested for
    the [i]-th time, the call having begun in state [w] with [m] queries:
    one reading for [start_time], then one per test and two per query. *)
Definition check_tick (w : World) (m i : nat) : nat :=
  (ticks w + 1 + i * (1 + 2 * m))%nat.

(** [c] full cycles start before the deadline, and the deadline has been
    reached when the condition is tested after them. *)
Definition deadline_after (env : Env) (w : World) (m : nat) (duration_seconds : Z)
    (c : nat) : Prop :=
  let end_time := time_time env (ticks w) + inject_Z duration_seconds in
  (forall i, (i < c)%nat -> time_time env (check_tick w m i) < end_time)
  /\ end_time <= time_time env (check_tick w m c).

(** The number of times [q] occurs in a log of executed queries. *)
Definition occurrences (q : string) (log : list string) : Z :=
  Z.of_nat (count_occ String.string_dec log q).

(** The counts agree with a log of executed queries: a key for each
    query of the list, holding the number of its executions, and values
    that add up to the length of the log. *)
Definition tallied (queries : list string) (counts : gmap string Z)
    (log : list string) : Prop :=
  (forall q, In q queries -> counts !! q = Some (occurrences q log))
  /\ (forall q, ~ In q queries -> counts !! q = None)
  /\ sum_values counts = Z.of_nat (length log).

(** [xs] repeated [c] times. *)
Definition cycles (c : nat) (xs : list string) : list string :=
  concat (repeat xs c).

(** A database that answers everything and a clock that advances by a
    quarter of a second at each reading. *)
Definition steady : Env :=
  {| time_time := fun k => inject_Z (Z.of_nat k) / 4;
     connection_cursor := None;
     cursor_execute := fun _ _ => None;
     cursor_fetchall := fun _ => None;
     cursor_close := None;
     math_sqrt := fun x => Stats.newton_sqrt 6 x 1 |}.

(** As [steady], but the third execution fails. *)
Definition flaky : Env :=
  {| time_time := fun k => inject_Z (Z.of_nat k) / 4;
     connection_cursor := None;
     cursor_execute := fun k _ => if (k =? 2)%nat then Some "Table not found" else None;
     cursor_fetchall := fun _ => None;
     cursor_close := None;
     math_sqrt := fun x => Stats.newton_sqrt 6 x 1 |}.

Definition fresh : World :=
  {| ticks := 0; executed := []; fetched := 0; called := 0 |}.

(** A transaction function that fails at its second call. *)
Definition fails_second (k : nat) : option string :=
  if (k =? 1)%nat then Some "Transaction failed" else None.

End Benchmark.

(* ===================================================================== *)
(** ** trend_analyzer.py *)
(* ===================================================================== *)

Module Trend.

(** A row of the performance table.  Timestamps are already parsed
    (seconds since the epoch). *)
Record Sample : Type := {
  timestamp : Z;
  cpu_percent : Q;
  memory_percent : Q;
  disk_percent : Q
}.

(** A [DataFrame]: the names of the columns it has, and its rows.  A field
    of a row whose column is not listed is never read. *)
Record DataFrame : Type := {
  columns : list string;
  rows : list Sample
}.

Definition has_column (c : string) (df : DataFrame) : bool :=
  existsb (String.eqb c) (columns df).

(** [DataFrame.empty]: some axis has length 0. *)
Definition empty (df : DataFrame) : bool :=
  match rows df, columns df with
  | [], _ => true
  | _, [] => true
  | _, _ => false
  end.

Fixpoint insert_by_timestamp (x : Sample) (xs : list Sample) : list Sample :=
  match xs with
  | [] => [x]
  | y :: ys =>
      if (timestamp x <=? timestamp y)%Z then x :: y :: ys
      else y :: insert_by_timestamp x ys
  end.

(** [data.sort_values('timestamp')]: the rows in ascending order of
    timestamp.  Here rows with equal timestamps keep their order; pandas'
    default sort does not promise that, so a statement that depends on the
    order of the rows carries the hypothesis that the timestamps are
    distinct, under which the sorted table is unique. *)
Definition sort_values (xs : list Sample) : list Sample :=
  fold_right insert_by_timestamp [] xs.

(** [Series.mean()], [Series.max()]: NaN ([None]) on an empty series. *)
Definition series_mean (xs : list Q) : option Q :=
  match xs with
  | [] => None
  | _ :: _ => Some (Stats.sum xs / Stats.len xs)
  end.

Definition series_max (xs : list Q) : option Q :=
  match Stats.max xs with
  | Ok m => Some m
  | Raise _ => None
  end.

(** [Series.rolling(window).mean()]: at position [i] the mean of the
    [window] values ending at [i], NaN while fewer are available. *)
Definition rolling_mean (window : nat) (xs : list Q) : list (option Q) :=
  map (fun i =>
         if (S i <? window)%nat then None
         else series_mean (firstn window (skipn (S i - window) xs)))
      (seq 0 (length xs)).

Definition isna (x : option Q) : bool :=
  match x with
  | None => true
  | Some _ => false
  end.

(** [s.iloc[-1] if not s.isna().all() else 0] *)
Definition last_or_zero (s : list (option Q)) : option Q :=
  if forallb isna s then Some 0 else List.last s None.

(** Comparisons of a possibly-NaN float with a number: false on NaN. *)
Definition gt (x : option Q) (c : Q) : bool :=
  match x with
  | Some v => QMicromega.Qlt_bool c v
  | None => false
  end.

Definition lt (x : option Q) (c : Q) : bool :=
  match x with
  | Some v => QMicromega.Qlt_bool v c
  | None => false
  end.

(** [np.arange(a, b)] *)
Definition arange (a b : nat) : list Z := map Z.of_nat (seq a (b - a)).

(** A fitted [sklearn.linear_model.LinearRegression]. *)
Record Model : Type := {
  coef_0 : Q;                          (* model.coef_[0] *)
  predict : list Z -> list Q;
  score : list Z -> list Q -> Q
}.

(** The numeric libraries the analyzer calls.  [fit X y] is
    [LinearRegression().fit(X, y)]; it raises when the library is missing
    or rejects the data. *)
Record Libs : Type := {
  fit : list Z -> list Q -> outcome Model;
  np_sqrt : Q -> Q
}.

(* --------------------------------------------------------------------- *)
(** *** analyze_cpu_trends *)

Record CpuTrend : Type := {
  trend_slope : Q;
  r_squared : Q;
  current_avg : option Q;
  predicted_values : list Q;
  anomalies : nat;                     (* len(anomalies) *)
  anomaly_percentage : Q;
  ma_5 : option Q;
  ma_10 : option Q
}.

(** The rows selected by
    [data[(cpu < Q1 - 1.5 * IQR) | (cpu > Q3 + 1.5 * IQR)]], with the
    quantiles and the fences in exact arithmetic.  The code computes them
    in binary floating point, where a reading within rounding distance of
    a fence can fall on its other side; the selection is used below only
    where that cannot matter: a count between 0 and the number of rows,
    and readings far from both fences. *)
Definition anomaly_rows (data : list Sample) : list Sample :=
  let cpu := map cpu_percent data in
  let Q1 := Stats.quantile (1 # 4) cpu in
  let Q3 := Stats.quantile (3 # 4) cpu in
  let IQR := Q3 - Q1 in
  List.filter (fun s =>
            QMicromega.Qlt_bool (cpu_percent s) (Q1 - (3 # 2) * IQR)
            || QMicromega.Qlt_bool (Q3 + (3 # 2) * IQR) (cpu_percent s))
         data.

(** The result is [None] for the empty dict [{}]. *)
Definition analyze_cpu_trends (libs : Libs) (performance_data : DataFrame)
    : option CpuTrend :=
  if negb (has_column "cpu_percent" performance_data) || empty performance_data
  then None
  else if negb (has_column "timestamp" performance_data)
  then None                                          (* KeyError, caught *)
  else
    let data := sort_values (rows performance_data) in
    let cpu := map cpu_percent data in
    let cpu_ma_5 := rolling_mean 5 cpu in
    let cpu_ma_10 := rolling_mean 10 cpu in
    let X := arange 0 (length data) in
    match fit libs X cpu with
    | Raise _ => None
    | Ok model =>
        let future_points := arange (length data) (length data + 10) in
        let future_predictions := predict model future_points in
        let anomalies := anomaly_rows data in
        Some {| trend_slope := coef_0 model;
                r_squared := score model X cpu;
                current_avg := series_mean cpu;
                predicted_values := future_predictions;
                anomalies := length anomalies;
                anomaly_percentage :=
                  (inject_Z (Z.of_nat (length anomalies))
                   / inject_Z (Z.of_nat (length data))) * 100;
                ma_5 := last_or_zero cpu_ma_5;
                ma_10 := last_or_zero cpu_ma_10 |}
    end.

(* --------------------------------------------------------------------- *)
(** *** analyze_memory_trends, analyze_disk_trends *)

(** [(second_half - first_half) / first_half if first_half > 0 else 0] *)
Definition growth (first_half second_half : option Q) : option Q :=
  if gt first_half 0 then
    match first_half, second_half with
    | Some f, Some s => Some ((s - f) / f)
    | _, _ => None
    end
  else Some 0.

(** [None] initially; [remaining / growth_rate] when [growth_rate > 0]. *)
Definition time_to_threshold (growth_rate : option Q) (current : Q) : option Q :=
  if gt growth_rate 0 then
    let remaining := 100 - current in
    match growth_rate with
    | Some g => Some (remaining / g)
    | None => None
    end
  else None.

(** [Series.std()]: NaN below two values. *)
Definition series_std (sqrt : Q -> Q) (xs : list Q) : option Q :=
  match Stats.stdev sqrt xs with
  | Ok s => Some s
  | Raise _ => None
  end.

(** The entry ['peak_hours'] (a histogram of the hours of the day at which
    usage exceeded 80) is not carried: nothing below reads it and computing
    it cannot raise. *)
Record MemoryTrend : Type := {
  m_growth_rate : option Q;
  m_current_usage : Q;
  time_to_exhaustion : option Q;       (* None: Python's None *)
  m_avg_usage : option Q;
  m_max_usage : option Q;
  volatility : option Q
}.

Definition analyze_memory_trends (libs : Libs) (performance_data : DataFrame)
    : option MemoryTrend :=
  if negb (has_column "memory_percent" performance_data) || empty performance_data
  then None
  else if negb (has_column "timestamp" performance_data)
  then None
  else
    let data := sort_values (rows performance_data) in
    let memory := map memory_percent data in
    let first_half := series_mean (firstn (length data / 2) memory) in
    let second_half := series_mean (skipn (length data / 2) memory) in
    let growth_rate := growth first_half second_half in
    match List.last (map Some memory) None with
    | None => None                                   (* IndexError, caught *)
    | Some current_memory =>
        Some {| m_growth_rate := growth_rate;
                m_current_usage := current_memory;
                time_to_exhaustion := time_to_threshold growth_rate current_memory;
                m_avg_usage := series_mean memory;
                m_max_usage := series_max memory;
                volatility := series_std (np_sqrt libs) memory |}
    end.

Record DiskTrend : Type := {
  d_growth_rate : option Q;
  d_current_usage : Q;
  time_to_full : option Q;
  d_avg_usage : option Q;
  d_max_usage : option Q;
  trend_direction : string
}.

Definition analyze_disk_trends (performance_data : DataFrame) : option DiskTrend :=
  if negb (has_column "disk_percent" performance_data) || empty performance_data
  then None
  else if negb (has_column "timestamp" performance_data)
  then None
  else
    let data := sort_values (rows performance_data) in
    let disk := map disk_percent data in
    let first_half := series_mean (firstn (length data / 2) disk) in
    let second_half := series_mean (skipn (length data / 2) disk) in
    let growth_rate := growth first_half second_half in
    match List.last (map Some disk) None with
    | None => None
    | Some current_disk =>
        Some {| d_growth_rate := growth_rate;
                d_current_usage := current_disk;
                time_to_full := time_to_threshold growth_rate current_disk;
                d_avg_usage := series_mean disk;
                d_max_usage := series_max disk;
                trend_direction :=
                  if gt growth_rate 0 then "increasing"
                  else if lt growth_rate 0 then "decreasing"
                  else "stable" |}
    end.

(* --------------------------------------------------------------------- *)
(** *** risk levels *)

Definition _assess_cpu_risk (cpu_trend : CpuTrend) : string :=
  if gt (current_avg cpu_trend) 80 || QMicromega.Qlt_bool 2 (trend_slope cpu_trend)
  then "high"
  else if gt (current_avg cpu_trend) 60
          || QMicromega.Qlt_bool 1 (trend_slope cpu_trend)
  then "medium"
  else "low".

(** [(t and t < limit)]: [None] and [0.0] are falsy. *)
Definition truthy_and_below (t : option Q) (limit : Q) : bool :=
  match t with
  | None => false
  | Some v => negb (Qeq_bool v 0) && QMicromega.Qlt_bool v limit
  end.

Definition _assess_memory_risk (memory_trend : MemoryTrend) : string :=
  if QMicromega.Qlt_bool 85 (m_current_usage memory_trend)
     || truthy_and_below (time_to_exhaustion memory_trend) 24
  then "high"
  else if QMicromega.Qlt_bool 70 (m_current_usage memory_trend)
          || truthy_and_below (time_to_exhaustion memory_trend) 72
  then "medium"
  else "low".

Definition _assess_disk_risk (disk_trend : DiskTrend) : string :=
  if QMicromega.Qlt_bool 90 (d_current_usage disk_trend)
     || truthy_and_below (time_to_full disk_trend) 24
  then "high"
  else if QMicromega.Qlt_bool 75 (d_current_usage disk_trend)
          || truthy_and_below (time_to_full disk_trend) 72
  then "medium"
  else "low".

(* --------------------------------------------------------------------- *)
(** *** predict_future_performance *)

Record CpuPrediction : Type := {
  p_current_avg : option Q;
  predicted_avg : Q;
  p_trend_slope : Q;
  cpu_risk_level : string
}.

Record UsagePrediction : Type := {
  p_current_usage : Q;
  predicted_usage : option Q;
  time_to_limit : option Q;            (* time_to_exhaustion / time_to_full *)
  risk_level : string
}.

(** The dict [predictions]: each key present or not. *)
Record Predictions : Type := {
  cpu : option CpuPrediction;
  memory : option UsagePrediction;
  disk : option UsagePrediction
}.

Definition no_predictions : Predictions :=
  {| cpu := None; memory := None; disk := None |}.

(** [min(100, current + growth_rate * days_ahead)]; [min] keeps 100 when the
    comparison with a NaN is false. *)
Definition capped_usage (current : Q) (growth_rate : option Q) (days_ahead : Z)
    : option Q :=
  match growth_rate with
  | Some g =>
      let v := current + g * inject_Z days_ahead in
      Some (if QMicromega.Qlt_bool v 100 then v else 100)
  | None => Some 100
  end.

Definition predict_future_performance (libs : Libs) (performance_data : DataFrame)
    (days_ahead : Z) : Predictions :=
  if empty performance_data then no_predictions
  else
    {| cpu :=
         match analyze_cpu_trends libs performance_data with
         | Some cpu_trend =>
             Some {| p_current_avg := current_avg cpu_trend;
                     predicted_avg := List.last (predicted_values cpu_trend) 0;
                     p_trend_slope := trend_slope cpu_trend;
                     cpu_risk_level := _assess_cpu_risk cpu_trend |}
         | None => None
         end;
       memory :=
         match analyze_memory_trends libs performance_data with
         | Some memory_trend =>
             Some {| p_current_usage := m_current_usage memory_trend;
                     predicted_usage :=
                       capped_usage (m_current_usage memory_trend)
                                    (m_growth_rate memory_trend) days_ahead;
                     time_to_limit := time_to_exhaustion memory_trend;
                     risk_level := _assess_memory_risk memory_trend |}
         | None => None
         end;
       disk :=
         match analyze_disk_trends performance_data with
         | Some disk_trend =>
             Some {| p_current_usage := d_current_usage disk_trend;
                     predicted_usage :=
                       capped_usage (d_current_usage disk_trend)
                                    (d_growth_rate disk_trend) days_ahead;
                     time_to_limit := time_to_full disk_trend;
                     risk_level := _assess_disk_risk disk_trend |}
         | None => None
         end |}.

(* --------------------------------------------------------------------- *)
(** *** The growth rate as the specification words it *)

(** "(mean of second half - mean of first half) / mean of first half (zero
    if the first-half mean is zero)"; no value where a mean is undefined. *)
Definition spec_growth_rate (first_half second_half : option Q) : option Q :=
  match first_half, second_half with
  | Some f, Some s => if Qeq_bool f 0 then Some 0 else Some ((s - f) / f)
  | _, _ => None
  end.

(* --------------------------------------------------------------------- *)
(** *** Numeric libraries and tables for running the analyzer *)

(** Ordinary least squares in closed form: what [LinearRegression] fits
    for one feature. *)
Definition ols_fit (X : list Z) (y : list Q) : outcome Model :=
  let xs := map inject_Z X in
  let n := Stats.len y in
  let xbar := Qred (Stats.sum xs / n) in
  let ybar := Qred (Stats.sum y / n) in
  let sxx := Stats.sum (map (fun x => Qred ((x - xbar) * (x - xbar))) xs) in
  let sxy :=
    Stats.sum (map (fun p => Qred ((fst p - xbar) * (snd p - ybar))) (combine xs y)) in
  let slope := if Qeq_bool sxx 0 then 0 else Qred (sxy / sxx) in
  let intercept := Qred (ybar - slope * xbar) in
  let line := fun x : Z => Qred (intercept + slope * inject_Z x) in
  Ok {| coef_0 := slope;
        predict := map line;
        score := fun X' y' =>
          let m := Qred (Stats.sum y' / Stats.len y') in
          let ss_tot := Stats.sum (map (fun v => Qred ((v - m) * (v - m))) y') in
          let ss_res :=
            Stats.sum (map (fun p => Qred ((snd p - line (fst p)) * (snd p - line (fst p))))
                           (combine X' y')) in
          if Qeq_bool ss_tot 0 then (if Qeq_bool ss_res 0 then 1 else 0)
          else Qred (1 - ss_res / ss_tot) |}.

Definition reference_libs : Libs :=
  {| fit := ols_fit; np_sqrt := fun x => Stats.newton_sqrt 6 x 1 |}.

Definition row (t : Z) (c m d : Q) : Sample :=
  {| timestamp := t; cpu_percent := c; memory_percent := m; disk_percent := d |}.

(** Two samples a minute apart: too few for either moving average. *)
Definition insufficient_data : DataFrame :=
  {| columns := ["timestamp"; "cpu_percent"; "memory_percent"];
     rows := [row 1672567200 (452 # 10) (621 # 10) 0;
              row 1672567260 (523 # 10) (645 # 10) 0] |}.

(** Ten ordinary CPU readings with one reading of 95 among them. *)
Definition outlier : Sample := row 1672567440 95 (985 # 10) 0.

Definition typical : list Sample :=
  [row 1672567200 (452 # 10) (621 # 10) 0;
   row 1672567260 (523 # 10) (645 # 10) 0;
   row 1672567320 (487 # 10) (618 # 10) 0;
   row 1672567380 (551 # 10) (662 # 10) 0;
   row 1672567500 (583 # 10) (681 # 10) 0;
   row 1672567560 (512 # 10) (634 # 10) 0;
   row 1672567620 (478 # 10) (597 # 10) 0;
   row 1672567680 (536 # 10) (652 # 10) 0;
   row 1672567740 (491 # 10) (619 # 10) 0;
   row 1672567800 (504 # 10) (640 # 10) 0].

Definition outlier_series : DataFrame :=
  {| columns := ["timestamp"; "cpu_percent"; "memory_percent"];
     rows := firstn 4 typical ++ outlier :: skipn 4 typical |}.

(** One sample: its first half is empty. *)
Definition single_sample : DataFrame :=
  {| columns := ["timestamp"; "memory_percent"; "disk_percent"];
     rows := [row 1672567200 0 50 50] |}.

(** A first half whose mean is negative. *)
Definition negative_start : DataFrame :=
  {| columns := ["timestamp"; "memory_percent"; "disk_percent"];
     rows := [row 1672567200 0 (-10) (-10); row 1672567260 0 20 20] |}.

(** Usage rising from 40 to 60. *)
Definition rising : DataFrame :=
  {| columns := ["timestamp"; "memory_percent"; "disk_percent"];
     rows := [row 1672567200 0 40 40; row 1672567260 0 40 40;
              row 1672567320 0 50 50; row 1672567380 0 60 60] |}.

(** Rows, but no metric column. *)
Definition timestamps_only : DataFrame :=
  {| columns := ["timestamp"];
     rows := [row 1672567200 0 0 0] |}.

(* --------------------------------------------------------------------- *)
(** *** Statements about the growth rate *)

Definition halves (values : list Q) : option Q * option Q :=
  (series_mean (firstn (length values / 2) values),
   series_mean (skipn (length values / 2) values)).

(** The claim of the specification, for the memory analysis of one table:
    the reported growth rate is the specified one. *)
Definition growth_as_specified (libs : Libs) (df : DataFrame) : Prop :=
  forall r, analyze_memory_trends libs df = Some r ->
    let values := map memory_percent (sort_values (rows df)) in
    m_growth_rate r = spec_growth_rate (fst (halves values)) (snd (halves values)).

(** What the code reports for a series [values] (in time order): the
    relative growth between the halves when the first-half mean is
    positive, 0 when it is undefined, zero or negative; the last value as
    the current one; and a projection exactly when the growth rate is
    positive. *)
Definition growth_and_projection (values : list Q) (growth_rate : option Q)
    (current : Q) (projection : option Q) : Prop :=
  let first_half := fst (halves values) in
  let second_half := snd (halves values) in
  (forall f s, first_half = Some f -> second_half = Some s -> 0 < f ->
     growth_rate = Some ((s - f) / f))
  /\ ((first_half = None \/ exists f, first_half = Some f /\ f <= 0) ->
      growth_rate = Some 0)
  /\ List.last (map Some values) None = Some current
  /\ (forall g, growth_rate = Some g -> 0 < g ->
        projection = Some ((100 - current) / g))
  /\ (projection <> None <-> exists g, growth_rate = Some g /\ 0 < g).

End Trend.

(* ===================================================================== *)
(** ** backup_automation.py: the retention clean-up *)
(* ===================================================================== *)

Module Backup.

(** An entry of [backup_dir] as [os] reports it.  Times are microseconds
    since the epoch, the resolution of [datetime]. *)
Record Entry : Type := {
  name : string;
  is_dir : bool;                       (* os.path.isdir *)
  ctime : Z;                           (* os.path.getctime *)
  mtime : Z;                           (* os.path.getmtime *)
  rmtree : option string               (* Some msg: shutil.rmtree raises *)
}.

(** The directory's content, in [os.listdir] order, and what was printed. *)
Record State : Type := {
  entries : list Entry;
  stdout : list string
}.

Definition microseconds_per_day : Z := 86400000000.

Definition lookup (n : string) (es : list Entry) : option Entry :=
  List.find (fun e => String.eqb (name e) n) es.

Definition remove (n : string) (es : list Entry) : list Entry :=
  List.filter (fun e => negb (String.eqb (name e) n)) es.

Definition print (line : string) (st : State) : State :=
  {| entries := entries st; stdout := stdout st ++ [line] |}.

(** The body of [for backup_name in os.listdir(self.backup_dir)]. *)
Fixpoint cleanup_loop (cutoff_date : Z) (names : list string) (st : State)
    : outcome unit * State :=
  match names with
  | [] => (Ok tt, st)
  | backup_name :: rest =>
      match lookup backup_name (entries st) with
      | Some e =>
          if is_dir e then
            if (ctime e <? cutoff_date)%Z then
              match rmtree e with
              | None =>
                  cleanup_loop cutoff_date rest
                    (print ("Removed old backup: " ++ backup_name)
                       {| entries := remove backup_name (entries st);
                          stdout := stdout st |})
              | Some msg => (Raise msg, st)
              end
            else cleanup_loop cutoff_date rest st
          else cleanup_loop cutoff_date rest st
      | None => cleanup_loop cutoff_date rest st
      end
  end.

(** The method has no [return]: its value is [None], here [tt].  The
    cut-off is taken on unbounded integers: the definition covers the runs
    in which [timedelta(days=retention_days)] and the dates exist; outside,
    the date arithmetic raises inside the [try]. *)
Definition _cleanup_old_backups (now : Z) (retention_days : Z) (st : State)
    : unit * State :=
  let cutoff_date := (now - retention_days * microseconds_per_day)%Z in
  match cleanup_loop cutoff_date (map name (entries st)) st with
  | (Ok _, st') => (tt, st')
  | (Raise msg, st') => (tt, print ("Failed to cleanup old backups: " ++ msg) st')
  end.

(** An entry is removed by the clean-up when it is a directory whose
    [ctime] lies before the cut-off. *)
Definition expired (cutoff_date : Z) (e : Entry) : bool :=
  is_dir e && (ctime e <? cutoff_date)%Z.

Definition named_in (names : list string) (e : Entry) : bool :=
  existsb (String.eqb (name e)) names.

(** A backup written ten days ago whose inode was changed yesterday (a
    [chmod], a copy that preserved times), beside a fresh one. *)
Definition day (n : Z) : Z := (n * microseconds_per_day)%Z.

Definition touched_backup : State :=
  {| entries := [ {| name := "backup1"; is_dir := true; ctime := day 19; mtime := day 10;
                     rmtree := None |};
                  {| name := "backup2"; is_dir := true; ctime := day 18; mtime := day 18;
                     rmtree := None |} ];
     stdout := [] |}.

(** Three backups made 10, 5 and 2 days before day 20. *)
Definition three_backups : State :=
  {| entries := [ {| name := "backup1"; is_dir := true; ctime := day 10; mtime := day 10;
                     rmtree := None |};
                  {| name := "backup2"; is_dir := true; ctime := day 15; mtime := day 15;
                     rmtree := None |};
                  {| name := "backup3"; is_dir := true; ctime := day 18; mtime := day 18;
                     rmtree := None |} ];
     stdout := [] |}.

End Backup.

(* ===================================================================== *)
(** ** benchmark.py: what a run that succeeds measures *)
(* ===================================================================== *)

Module Runs.
Import Benchmark.

(** The durations, in milliseconds, that [n] timed operations measure
    when the first one starts at clock reading [t]: each takes two
    readings. *)
Fixpoint durations (env : Env) (t n : nat) : list Q :=
  match n with
  | O => []
  | S n' =>
      (time_time env (S t) - time_time env t) * 1000 :: durations env (S (S t)) n'
  end.

(** The clock never runs backwards. *)
Definition clock_monotone (env : Env) : Prop :=
  forall i j, (i <= j)%nat -> time_time env i <= time_time env j.

(** As [steady], but [cursor.close()] raises. *)
Definition close_fails : Env :=
  {| time_time := fun k => inject_Z (Z.of_nat k) / 4;
     connection_cursor := None;
     cursor_execute := fun _ _ => None;
     cursor_fetchall := fun _ => None;
     cursor_close := Some "connection lost";
     math_sqrt := fun x => Stats.newton_sqrt 6 x 1 |}.

End Runs.

(* ===================================================================== *)
(** ** trend_analyzer.py: further tables *)
(* ===================================================================== *)

Module TrendCases.
Import Trend.

(** Usage jumping from 10 to 90: the projected time to the limit is short
    although the current usage is what it is. *)
Definition surging : DataFrame :=
  {| columns := ["timestamp"; "memory_percent"; "disk_percent"];
     rows := [row 1672567200 0 10 10; row 1672567260 0 10 10;
              row 1672567320 0 80 80; row 1672567380 0 80 80] |}.

(** The rows of [rising] in another order. *)
Definition rising_shuffled : DataFrame :=
  {| columns := ["timestamp"; "memory_percent"; "disk_percent"];
     rows := [row 1672567380 0 60 60; row 1672567200 0 40 40;
              row 1672567320 0 50 50; row 1672567260 0 40 40] |}.

(** Rows in ascending order of timestamp. *)
Definition by_timestamp (a b : Sample) : Prop := (timestamp a <= timestamp b)%Z.

End TrendCases.

(* ===================================================================== *)
(** ** backup_automation.py: what the clean-up prints, further states *)
(* ===================================================================== *)

Module BackupCases.
Import Backup.

(** The lines printed for the entries of [es] that are removed. *)
Definition removed_lines (cutoff_date : Z) (es : list Entry) : list string :=
  map (fun e => ("Removed old backup: " ++ name e)%string)
      (List.filter (expired cutoff_date) es).

(** The cut-off of a clean-up run at [now]. *)
Definition cutoff (now retention_days : Z) : Z :=
  (now - retention_days * microseconds_per_day)%Z.

(** The dates a [datetime] can hold, years 1 to 9999, in microseconds
    since the epoch. *)
Definition datetime_min : Z := -62135596800000000.
Definition datetime_max : Z := 253402300799999999.

(** The dates of a clean-up exist: [timedelta(days=retention_days)] can be
    built, [now - timedelta(...)] is a date, and so is the ctime of every
    entry.  Outside, the date arithmetic raises inside the [try] and the
    clean-up removes nothing. *)
Definition dates_in_range (now retention_days : Z) (es : list Entry) : Prop :=
  (-999999999 <= retention_days <= 999999999)%Z
  /\ (datetime_min <= now <= datetime_max)%Z
  /\ (datetime_min <= cutoff now retention_days <= datetime_max)%Z
  /\ List.Forall (fun e => (datetime_min <= ctime e <= datetime_max)%Z) es.


End BackupCases.

(* ===================================================================== *)
(** ** benchmark.py: run_concurrent_test *)
(* ===================================================================== *)

Module Concurrent.
Import Benchmark.

(** The workers run in threads of a pool.  What each worker observes (its
    clock readings and the replies of its own cursor) is its view, an
    environment and a state of its own; the scheduler's part is the order
    in which the futures complete. *)
Record Pool : Type := {
  view : nat -> Env * World;          (* by user_id *)
  as_completed : list nat;            (* user_ids, first completed first *)
  sqrt : Q -> Q
}.

Record ConcurrentResult : Type := {
  c_query : string;
  c_concurrent_users : Z;
  c_iterations_per_user : Z;
  c_error : option string;
  c_total_iterations : Z;
  c_avg_time_ms : Q;
  c_min_time_ms : Q;
  c_max_time_ms : Q;
  c_std_dev_ms : Q;
  c_total_time_ms : Q
}.

Definition concurrent_error (q : string) (concurrent_users iterations_per_user : Z)
    (msg : string) : ConcurrentResult :=
  {| c_query := q; c_concurrent_users := concurrent_users;
     c_iterations_per_user := iterations_per_user;
     c_error := Some msg; c_total_iterations := 0;
     c_avg_time_ms := 0; c_min_time_ms := 0; c_max_time_ms := 0;
     c_std_dev_ms := 0; c_total_time_ms := 0 |}.

Local Open Scope bench_scope.

(** The worker: [execute_user_query(user_id)], run against its view. *)
Definition execute_user_query (v : Env * World) (q : string) (iterations_per_user : Z)
    : outcome (list Q) :=
  fst ((cursor (fst v) >>
        let* times := for_range (Z.to_nat iterations_per_user)
                                (timed_query (fst v) q) [] in
        close (fst v) >>
        ret times) (snd v)).

(** [for future in as_completed(futures): all_times.extend(future.result())];
    [future.result()] raises what the worker raised. *)
Fixpoint gather (results : list (outcome (list Q))) (all_times : list Q)
    : outcome (list Q) :=
  match results with
  | [] => Ok all_times
  | Ok user_times :: rest => gather rest (all_times ++ user_times)
  | Raise msg :: _ => Raise msg
  end.

Definition summarize (pool : Pool) (q : string) (concurrent_users iterations_per_user : Z)
    (all_times : list Q) : outcome ConcurrentResult :=
  match Stats.mean all_times with
  | Raise msg => Raise msg
  | Ok avg =>
      match Stats.min all_times with
      | Raise msg => Raise msg
      | Ok mn =>
          match Stats.max all_times with
          | Raise msg => Raise msg
          | Ok mx =>
              match (if (1 <? length all_times)%nat
                     then Stats.stdev (sqrt pool) all_times else Ok 0) with
              | Raise msg => Raise msg
              | Ok sd =>
                  Ok {| c_query := q; c_concurrent_users := concurrent_users;
                        c_iterations_per_user := iterations_per_user;
                        c_error := None;
                        c_total_iterations :=
                          (concurrent_users * iterations_per_user)%Z;
                        c_avg_time_ms := avg; c_min_time_ms := mn;
                        c_max_time_ms := mx; c_std_dev_ms := sd;
                        c_total_time_ms := Stats.sum all_times |}
              end
          end
      end
  end.

(** [ThreadPoolExecutor(max_workers=n)] raises [ValueError] unless
    [n > 0]. *)
Definition run_concurrent_test (pool : Pool) (q : string)
    (concurrent_users iterations_per_user : Z) : ConcurrentResult :=
  if (concurrent_users <=? 0)%Z then
    concurrent_error q concurrent_users iterations_per_user
      "max_workers must be greater than 0"
  else
    match gather (map (fun user_id =>
                         execute_user_query (view pool user_id) q iterations_per_user)
                      (as_completed pool)) [] with
    | Raise msg => concurrent_error q concurrent_users iterations_per_user msg
    | Ok all_times =>
        match summarize pool q concurrent_users iterations_per_user all_times with
        | Ok result => result
        | Raise msg => concurrent_error q concurrent_users iterations_per_user msg
        end
    end.

(** The scheduler completes each submitted future once. *)
Definition fair (pool : Pool) (concurrent_users : Z) : Prop :=
  Permutation (as_completed pool) (seq 0 (Z.to_nat concurrent_users)).

(** Worker [user_id] gets an answer to everything it asks. *)
Definition worker_unhindered (pool : Pool) (q : string) (iterations_per_user : Z)
    (user_id : nat) : Prop :=
  connection_cursor (fst (view pool user_id)) = None
  /\ cursor_close (fst (view pool user_id)) = None
  /\ forall j, (j < Z.to_nat iterations_per_user)%nat ->
               execution_returns (fst (view pool user_id)) (snd (view pool user_id)) q j.

(** What worker [user_id] measures when unhindered. *)
Definition measured (pool : Pool) (iterations_per_user : Z) (user_id : nat) : list Q :=
  Runs.durations (fst (view pool user_id)) (ticks (snd (view pool user_id)))
                 (Z.to_nat iterations_per_user).

(** Three workers on a steady database, each seeing the clock from its
    own starting tick, completing in the order 2, 0, 1. *)
Definition three_workers : Pool :=
  {| view := fun user_id =>
               (steady, {| ticks := 10 * user_id; executed := []; fetched := 0;
                           called := 0 |});
     as_completed := [2; 0; 1]%nat;
     sqrt := fun x => Stats.newton_sqrt 6 x 1 |}.

(** The same workers completing in the order 0, 1, 2. *)
Definition three_workers_in_turn : Pool :=
  {| view := view three_workers;
     as_completed := [0; 1; 2]%nat;
     sqrt := sqrt three_workers |}.

(** A database whose connection hands out no cursor. *)
Definition no_cursor : Env :=
  {| time_time := fun k => inject_Z (Z.of_nat k) / 4;
     connection_cursor := Some "Connection failed";
     cursor_execute := fun _ _ => None;
     cursor_fetchall := fun _ => None;
     cursor_close := None;
     math_sqrt := fun x => Stats.newton_sqrt 6 x 1 |}.

(** As [three_workers], but worker 0 cannot open a cursor. *)
Definition one_worker_down : Pool :=
  {| view := fun user_id =>
               (if (user_id =? 0)%nat then no_cursor else steady,
                {| ticks := 10 * user_id; executed := []; fetched := 0; called := 0 |});
     as_completed := [2; 0; 1]%nat;
     sqrt := fun x => Stats.newton_sqrt 6 x 1 |}.

End Concurrent.

(* ===================================================================== *)
(** ** backup_automation.py: _get_directory_size, get_backup_status *)
(* ===================================================================== *)

Module Status.

(** What lies under a path: a file, with its name and the size
    [os.path.getsize] reports or the error it raises, or a directory, with
    its name, the error [os.listdir] raises on it, if any, and its entries
    in listing order. *)
#[warnings="-register-all"] Inductive Node : Type :=
| File (name : string) (size : Z) (getsize_error : option string)
| Folder (name : string) (listdir_error : option string) (children : list Node).

Definition node_name (n : Node) : string :=
  match n with
  | File name _ _ => name
  | Folder name _ _ => name
  end.

(** The files of a directory: what [os.walk] yields as [filenames]. *)
Fixpoint own_files (children : list Node) : list (Z * option string) :=
  match children with
  | [] => []
  | File _ size e :: rest => (size, e) :: own_files rest
  | Folder _ _ _ :: rest => own_files rest
  end.

(** The files [os.walk(path)] leads to, in the order of the walk: the
    files of a directory, then, directory by directory, those below.  A
    directory that cannot be listed is skipped silently, and so is a
    [path] that is a file. *)
Fixpoint files_below (n : Node) : list (Z * option string) :=
  match n with
  | File _ _ _ => []
  | Folder _ (Some _) _ => []
  | Folder _ None children =>
      own_files children
      ++ (fix below (l : list Node) : list (Z * option string) :=
            match l with
            | [] => []
            | c :: l' => files_below c ++ below l'
            end) children
  end.

(** [total_size += os.path.getsize(file_path)], left at the first error:
    the value is what had been added up, and the message is printed. *)
Fixpoint add_sizes (files : list (Z * option string)) (total_size : Z)
    : Z * list string :=
  match files with
  | [] => (total_size, [])
  | (size, None) :: rest => add_sizes rest (total_size + size)%Z
  | (_, Some msg) :: _ =>
      (total_size, [("Failed to get directory size: " ++ msg)%string])
  end.

Definition _get_directory_size (path : Node) : Z * list string :=
  add_sizes (files_below path) 0.

(** The bytes of all files under a node. *)
Fixpoint bytes_under (n : Node) : Z :=
  match n with
  | File _ size _ => size
  | Folder _ _ children =>
      (fix sum (l : list Node) : Z :=
         match l with
         | [] => 0%Z
         | c :: l' => (bytes_under c + sum l')%Z
         end) children
  end.

(** Every directory under a node can be listed and every file sized. *)
Fixpoint readable (n : Node) : bool :=
  match n with
  | File _ _ None => true
  | File _ _ (Some _) => false
  | Folder _ (Some _) _ => false
  | Folder _ None children =>
      (fix all (l : list Node) : bool :=
         match l with
         | [] => true
         | c :: l' => readable c && all l'
         end) children
  end.

(** No size under a node is negative. *)
Fixpoint sizes_nonnegative (n : Node) : bool :=
  match n with
  | File _ size _ => (0 <=? size)%Z
  | Folder _ _ children =>
      (fix all (l : list Node) : bool :=
         match l with
         | [] => true
         | c :: l' => sizes_nonnegative c && all l'
         end) children
  end.

(** [s.endswith(suffix)] *)
Definition endswith (s suffix : string) : bool :=
  let n := String.length s in
  let m := String.length suffix in
  (m <=? n)%nat && String.eqb (String.substring (n - m) m s) suffix.

(** An entry of [backup_dir]: what is there, and its [ctime]. *)
Record Item : Type := {
  node : Node;
  ctime : Z
}.

Record BackupInfo : Type := {
  b_name : string;
  b_size : Z;
  b_created : Z;                       (* the ctime, before isoformat() *)
  b_type : string
}.

Record BackupStatus : Type := {
  total_backups : Z;
  backups : list BackupInfo;
  total_size : Z;
  backup_types : gmap string Z
}.

(** [os.listdir(backup_path)] *)
Definition listdir (n : Node) : outcome (list string) :=
  match n with
  | File _ _ _ => Raise "Not a directory"
  | Folder _ (Some msg) _ => Raise msg
  | Folder _ None children => Ok (map node_name children)
  end.

(** The chain of [any(f.endswith(ext) for f in os.listdir(backup_path))]. *)
Definition backup_type (n : Node) : outcome string :=
  match listdir n with
  | Raise msg => Raise msg
  | Ok names =>
      if existsb (fun f => endswith f ".dmp") names then Ok "oracle"
      else if existsb (fun f => endswith f ".bak") names then Ok "sqlserver"
      else if existsb (fun f => endswith f ".tar.gz") names then Ok "filesystem"
      else Ok "unknown"
  end.

(** [os.path.isdir] *)
Definition isdir (n : Node) : bool :=
  match n with
  | Folder _ _ _ => true
  | File _ _ _ => false
  end.

(** The loop over [os.listdir(self.backup_dir)]: the backups found so
    far, and the lines printed. *)
Fixpoint collect (items : list Item) (found : list BackupInfo) (out : list string)
    : outcome (list BackupInfo) * list string :=
  match items with
  | [] => (Ok found, out)
  | item :: rest =>
      if isdir (node item) then
        let (size, printed) := _get_directory_size (node item) in
        match backup_type (node item) with
        | Raise msg => (Raise msg, out ++ printed)
        | Ok type =>
            collect rest
              (found ++ [ {| b_name := node_name (node item); b_size := size;
                             b_created := ctime item; b_type := type |} ])
              (out ++ printed)
        end
      else collect rest found out
  end.

(** [{b['type']: len([x for x in backups if x['type'] == b['type']])
      for b in backups}] *)
Definition count_types (found : list BackupInfo) : gmap string Z :=
  fold_left
    (fun m b =>
       <[b_type b :=
           Z.of_nat (length (List.filter (fun x => String.eqb (b_type x) (b_type b))
                                         found))]> m)
    found ∅.

(** The result is [Raise msg] for the dict [{'error': msg}]. *)
Definition get_backup_status (items : list Item) : outcome BackupStatus * list string :=
  match collect items [] [] with
  | (Raise msg, out) => (Raise msg, out)
  | (Ok found, out) =>
      (Ok {| total_backups := Z.of_nat (length found);
             backups := found;
             total_size := fold_left Z.add (map b_size found) 0%Z;
             backup_types := count_types found |},
       out)
  end.

(** [sum(m.values())] *)
Definition sum_values (m : gmap string Z) : Z :=
  map_fold (fun _ c acc => (c + acc)%Z) 0%Z m.

(** An Oracle dump with its log, a tar archive beside a subdirectory, an
    empty directory, and a plain file. *)
Definition sample_dir : list Item :=
  [ {| node := Folder "oracle_backup_1" None
                 [File "oracle_backup_1.dmp" 4096 None;
                  File "oracle_backup_1.log" 120 None;
                  File "old.bak" 10 None];
       ctime := 100 |};
    {| node := Folder "filesystem_backup_1" None
                 [File "filesystem_backup_1.tar.gz" 2048 None;
                  Folder "extra" None [File "notes.txt" 5 None]];
       ctime := 200 |};
    {| node := Folder "empty" None []; ctime := 300 |};
    {| node := File "backups.log" 999 None; ctime := 50 |} ].

(** A directory one of whose files cannot be sized. *)
Definition damaged : Node :=
  Folder "sqlserver_backup_1" None
    [File "a.bak" 100 None;
     File "b.bak" 200 (Some "No such file or directory");
     File "c.bak" 400 None].

(** Induction on a tree, with the hypothesis for every entry of a
    directory. *)
Fixpoint Node_induction (P : Node -> Prop)
    (HFile : forall name size e, P (File name size e))
    (HFolder : forall name e children, List.Forall P children -> P (Folder name e children))
    (n : Node) : P n :=
  match n with
  | File name size e => HFile name size e
  | Folder name e children =>
      HFolder name e children
        ((fix all (l : list Node) : List.Forall P l :=
            match l with
            | [] => @List.Forall_nil Node P
            | c :: l' => @List.Forall_cons Node P c l' (Node_induction P HFile HFolder c) (all l')
            end) children)
  end.

(** The sizes of a list of files, added up. *)
Fixpoint sizes (files : list (Z * option string)) : Z :=
  match files with
  | [] => 0%Z
  | (size, _) :: rest => (size + sizes rest)%Z
  end.

(** The bookkeeping of a walk, entry by entry. *)
Definition below (l : list Node) : list (Z * option string) :=
  (fix below (l : list Node) : list (Z * option string) :=
     match l with
     | [] => []
     | c :: l' => files_below c ++ below l'
     end) l.

Definition bytes_in (l : list Node) : Z :=
  (fix sum (l : list Node) : Z :=
     match l with
     | [] => 0%Z
     | c :: l' => (bytes_under c + sum l')%Z
     end) l.

(** The entries of [backup_dir] that are directories, in listing order. *)
Definition directories (items : list Item) : list Item :=
  List.filter (fun i => isdir (node i)) items.

(** A record of the status describes an entry: its name, the size found
    for it, its ctime, and the type its content gives it. *)
Definition describes (i : Item) (b : BackupInfo) : Prop :=
  b_name b = node_name (node i)
  /\ b_size b = fst (_get_directory_size (node i))
  /\ b_created b = ctime i
  /\ backup_type (node i) = Ok (b_type b).

(** The backups of one type. *)
Definition of_type (t : string) (found : list BackupInfo) : list BackupInfo :=
  List.filter (fun x => String.eqb (b_type x) t) found.

(** Some backup has this type. *)
Definition has_type (t : string) (found : list BackupInfo) : bool :=
  existsb (fun b => String.eqb (b_type b) t) found.

(** The dict comprehension, after the backups [l], counting with
    [count]. *)
Definition tally (count : string -> Z) (l : list BackupInfo) : gmap string Z :=
  fold_left (fun m b => <[b_type b := count (b_type b)]> m) l ∅.

(** Two backups, and between them a directory that cannot be listed. *)
Definition locked_dir : list Item :=
  [ {| node := Folder "oracle_backup_1" None [File "oracle_backup_1.dmp" 4096 None];
       ctime := 100 |};
    {| node := Folder "lost+found" (Some "Permission denied") [];
       ctime := 10 |};
    {| node := Folder "sqlserver_backup_1" None [File "sqlserver_backup_1.bak" 512 None];
       ctime := 200 |} ].

End Status.

(* ===================================================================== *)
(** ** backup_automation.py: backup_oracle_database,
       restore_oracle_database, schedule_backup, _log_backup *)
(* ===================================================================== *)

Module Jobs.
Import Backup.

(** The attributes [__init__] sets. *)
Record Config : Type := {
  backup_dir : string;
  retention_days : Z;
  log_file : string
}.

(** A [subprocess.CompletedProcess]. *)
Record Completed : Type := {
  returncode : Z;
  r_stdout : string;
  r_stderr : string
}.

(** The dicts the methods return and log.  Times are the readings of
    [datetime.now()], before [isoformat()]; ['duration_seconds'] is their
    difference. *)
Inductive Info : Type :=
| BackupInfo (backup_name : string) (start_time end_time : Z) (backup_path : string)
             (success : bool) (output : string) (error : option string)
             (file_size : Z)
| ErrorInfo (backup_name : string) (error : string)
| RestoreInfo (backup_name : string) (start_time end_time : Z)
              (success : bool) (output : string) (error : option string)
| Failure (error : string)
| Scheduled (message : string) (cron_job : string).

(** [info['success']] *)
Definition success (info : Info) : bool :=
  match info with
  | BackupInfo _ _ _ _ s _ _ _ => s
  | RestoreInfo _ _ _ s _ _ => s
  | Scheduled _ _ => true
  | ErrorInfo _ _ => false
  | Failure _ => false
  end.

(** [info.get('error')] *)
Definition error (info : Info) : option string :=
  match info with
  | BackupInfo _ _ _ _ _ _ e _ => e
  | RestoreInfo _ _ _ _ _ e => e
  | Scheduled _ _ => None
  | ErrorInfo _ e => Some e
  | Failure e => Some e
  end.

(** The keys of [backup_config] that [schedule_backup] reads; [None] is a
    missing key. *)
Record BackupConfig : Type := {
  type : option string;
  schedule : option string;
  connection_string : option string;
  server : option string;
  database : option string;
  username : option string;
  password : option string;
  source_path : option string
}.

(** What the system answers.  A command and [os.makedirs] act on the
    content of [backup_dir], whatever they return. *)
Record Env : Type := {
  now : nat -> Z;                      (* k-th reading of datetime.now() *)
  strftime : Z -> string;              (* .strftime('%Y%m%d_%H%M%S') *)
  makedirs : string -> list Entry -> outcome (list Entry);
  run : list string -> list Entry -> outcome Completed * list Entry;
  exists_ : string -> bool;            (* os.path.exists *)
  tree : string -> Status.Node;        (* what os.walk finds at a path *)
  open_log : option string;            (* Some msg: appending to log_file raises *)
  open_cron : option string;           (* Some msg: writing the cron file raises *)
  os_remove : option string;           (* Some msg: os.remove raises *)
  dumps : Info -> string               (* json.dumps *)
}.

(** What has happened so far. *)
Record World : Type := {
  dir : State;                         (* backup_dir, and what was printed *)
  log : list string;                   (* what was appended to log_file *)
  commands : list (list string);       (* argv of the commands run, oldest first *)
  cron_file : option string;           (* content of /tmp/database_backup_cron *)
  clock : nat                          (* readings of datetime.now() *)
}.

Definition M (A : Type) : Type := World -> outcome A * World.

Definition ret {A} (a : A) : M A := fun w => (Ok a, w).

Definition bind {A B} (c : M A) (k : A -> M B) : M B :=
  fun w =>
    match c w with
    | (Ok a, w') => k a w'
    | (Raise msg, w') => (Raise msg, w')
    end.

Declare Scope job_scope.
Delimit Scope job_scope with job.
Notation "'let*' x ':=' c1 'in' c2" := (bind c1 (fun x => c2))
  (at level 10, x name, c1 at level 100, c2 at level 200) : job_scope.
Notation "c1 '>>' c2" := (bind c1 (fun _ => c2))
  (at level 100, c2 at level 200, right associativity) : job_scope.
Local Open Scope job_scope.
Local Open Scope string_scope.

(** [os.path.join(a, b)] *)
Definition path_join (a b : string) : string :=
  if String.prefix "/" b then b
  else if String.eqb a "" || Status.endswith a "/" then a ++ b
  else a ++ "/" ++ b.

(** [not s], for a string or [None]. *)
Definition not_ (s : option string) : bool :=
  match s with
  | None => true
  | Some v => String.eqb v ""
  end.

(** [d.get(key, '')] *)
Definition get (s : option string) : string :=
  match s with
  | None => ""
  | Some v => v
  end.

Definition cron_path : string := "/tmp/database_backup_cron".

(** ['\n'] *)
Definition newline : string := String (Ascii.ascii_of_nat 10) EmptyString.

Section Operations.
Variable env : Env.
Variable config : Config.

Definition datetime_now : M Z :=
  fun w => (Ok (now env (clock w)),
            {| dir := dir w; log := log w; commands := commands w;
               cron_file := cron_file w; clock := S (clock w) |}).

Definition os_makedirs (path : string) : M unit :=
  fun w =>
    match makedirs env path (entries (dir w)) with
    | Ok es => (Ok tt,
                {| dir := {| entries := es; stdout := stdout (dir w) |};
                   log := log w; commands := commands w;
                   cron_file := cron_file w; clock := clock w |})
    | Raise msg => (Raise msg, w)
    end.

Definition subprocess_run (argv : list string) : M Completed :=
  fun w =>
    let (result, es) := run env argv (entries (dir w)) in
    (result,
     {| dir := {| entries := es; stdout := stdout (dir w) |};
        log := log w; commands := commands w ++ [argv];
        cron_file := cron_file w; clock := clock w |}).

Definition os_path_exists (path : string) : M bool :=
  fun w => (Ok (exists_ env path), w).

Definition printed (lines : list string) (w : World) : World :=
  {| dir := {| entries := entries (dir w); stdout := stdout (dir w) ++ lines |};
     log := log w; commands := commands w;
     cron_file := cron_file w; clock := clock w |}.

(** [self._get_directory_size(path)] *)
Definition _get_directory_size (path : string) : M Z :=
  fun w =>
    let (size, lines) := Status._get_directory_size (tree env path) in
    (Ok size, printed lines w).

(** [_log_backup]: a line appended to the log, or a line printed. *)
Definition _log_backup (info : Info) : M unit :=
  fun w =>
    match open_log env with
    | None =>
        (Ok tt,
         {| dir := dir w; log := log w ++ [dumps env info ++ newline];
            commands := commands w; cron_file := cron_file w; clock := clock w |})
    | Some msg => (Ok tt, printed ["Failed to log backup: " ++ msg] w)
    end.

(** [self._cleanup_old_backups()], which reads the clock once. *)
Definition _cleanup_old_backups : M unit :=
  fun w =>
    let (_, st) := Backup._cleanup_old_backups (now env (clock w))
                     (retention_days config) (dir w) in
    (Ok tt,
     {| dir := st; log := log w; commands := commands w;
        cron_file := cron_file w; clock := S (clock w) |}).

Definition expdp_command (connection_string backup_path backup_name : string)
    : list string :=
  ["expdp"; connection_string;
   "DIRECTORY=" ++ backup_path;
   "DUMPFILE=" ++ backup_name ++ ".dmp";
   "LOGFILE=" ++ backup_name ++ ".log";
   "FULL=Y"; "COMPRESSION=YES"].

Definition impdp_command (connection_string backup_path backup_name : string)
    : list string :=
  ["impdp"; connection_string;
   "DIRECTORY=" ++ backup_path;
   "DUMPFILE=" ++ backup_name ++ ".dmp";
   "LOGFILE=" ++ backup_name ++ "_restore.log";
   "FULL=Y"; "REUSE_DATAFILES=YES"].

(** [if not backup_name: backup_name = f"oracle_backup_{...}"] *)
Definition default_name (backup_name : option string) : World -> string * World :=
  fun w =>
    if not_ backup_name then
      ("oracle_backup_" ++ strftime env (now env (clock w)),
       {| dir := dir w; log := log w; commands := commands w;
          cron_file := cron_file w; clock := S (clock w) |})
    else (get backup_name, w).

(* --------------------------------------------------------------------- *)
(** *** backup_oracle_database *)

Definition backup_oracle_database (connection_string : string)
    (backup_name : option string) : World -> Info * World :=
  fun w =>
    match default_name backup_name w with
    | (backup_name, w') =>
        match
          (let backup_path := path_join (backup_dir config) backup_name in
           os_makedirs backup_path >>
           let* start_time := datetime_now in
           let* result :=
             subprocess_run (expdp_command connection_string backup_path backup_name) in
           let* end_time := datetime_now in
           let* file_size := _get_directory_size backup_path in
           let backup_info :=
             BackupInfo backup_name start_time end_time backup_path
               (returncode result =? 0)%Z
               (r_stdout result)
               (if (returncode result =? 0)%Z then None else Some (r_stderr result))
               file_size in
           _log_backup backup_info >>
           _cleanup_old_backups >>
           ret backup_info) w'
        with
        | (Ok backup_info, w'') => (backup_info, w'')
        | (Raise msg, w'') =>
            let error_info := ErrorInfo backup_name msg in
            match _log_backup error_info w'' with
            | (_, w''') => (error_info, w''')
            end
        end
    end.

(* --------------------------------------------------------------------- *)
(** *** restore_oracle_database *)

Definition restore_oracle_database (backup_name connection_string : string)
    : World -> Info * World :=
  fun w =>
    match
      (let backup_path := path_join (backup_dir config) backup_name in
       let* found := os_path_exists backup_path in
       if negb found then
         ret (Failure ("Backup " ++ backup_name ++ " not found"))
       else
         let* start_time := datetime_now in
         let* result :=
           subprocess_run (impdp_command connection_string backup_path backup_name) in
         let* end_time := datetime_now in
         let restore_info :=
           RestoreInfo backup_name start_time end_time
             (returncode result =? 0)%Z
             (r_stdout result)
             (if (returncode result =? 0)%Z then None else Some (r_stderr result)) in
         _log_backup restore_info >>
         ret restore_info) w
    with
    | (Ok info, w') => (info, w')
    | (Raise msg, w') => (Failure msg, w')
    end.

(* --------------------------------------------------------------------- *)
(** *** schedule_backup *)

(** The line for [crontab]. *)
Definition cron_job (backup_config : BackupConfig) : string :=
  let backup_type := get (type backup_config) in
  let line :=
    get (schedule backup_config)
    ++ " cd /home/ymarkiv/git/pl_sql_sample/plsql-performance-sample && python backup_automation.py --backup-type "
    ++ backup_type in
  if String.eqb backup_type "oracle" then
    line ++ " --connection-string " ++ get (connection_string backup_config)
  else if String.eqb backup_type "sqlserver" then
    line ++ " --server " ++ get (server backup_config)
         ++ " --database " ++ get (database backup_config)
         ++ " --username " ++ get (username backup_config)
         ++ " --password " ++ get (password backup_config)
  else if String.eqb backup_type "filesystem" then
    line ++ " --source-path " ++ get (source_path backup_config)
  else line.

(** [with open(cron_file, 'w') as f: f.write(text)] *)
Definition write_cron (text : string) : M unit :=
  fun w =>
    match open_cron env with
    | Some msg => (Raise msg, w)
    | None => (Ok tt,
               {| dir := dir w; log := log w; commands := commands w;
                  cron_file := Some text; clock := clock w |})
    end.

(** [os.remove(cron_file)] *)
Definition remove_cron : M unit :=
  fun w =>
    match os_remove env with
    | Some msg => (Raise msg, w)
    | None => (Ok tt,
               {| dir := dir w; log := log w; commands := commands w;
                  cron_file := None; clock := clock w |})
    end.

Definition schedule_backup (backup_config : BackupConfig) : World -> Info * World :=
  fun w =>
    match
      (if not_ (type backup_config) || not_ (schedule backup_config) then
         ret (Failure "Backup type and schedule are required")
       else
         let job := cron_job backup_config in
         write_cron (job ++ newline) >>
         subprocess_run ["crontab"; cron_path] >>
         remove_cron >>
         ret (Scheduled ("Backup scheduled with cron: " ++ get (schedule backup_config))
                        job)) w
    with
    | (Ok info, w') => (info, w')
    | (Raise msg, w') => (Failure msg, w')
    end.

End Operations.

(** A machine on which everything works; [expdp] leaves the directory it
    was told to fill and exits with the code given. *)
Definition host (code : Z) : Env :=
  {| now := fun k => (day 20 + Z.of_nat k)%Z;
     strftime := fun _ => "20240101_000000";
     makedirs := fun path es =>
       Ok (es ++ [ {| name := "nightly"; is_dir := true;
                      ctime := day 20; mtime := day 20; rmtree := None |} ])%list;
     run := fun argv es =>
       (Ok {| returncode := code; r_stdout := "Export"; r_stderr := "ORA-39002" |}, es);
     exists_ := fun path => String.eqb path "/var/backups/nightly";
     tree := fun _ => Status.Folder "nightly" None [Status.File "nightly.dmp" 4096 None];
     open_log := None;
     open_cron := None;
     os_remove := None;
     dumps := fun info => if success info then "{success: true}" else "{success: false}" |}.

(** The same machine without the command: [subprocess.run] raises. *)
Definition no_command : Env :=
  {| now := now (host 0);
     strftime := strftime (host 0);
     makedirs := makedirs (host 0);
     run := fun argv es => (Raise "No such file or directory", es);
     exists_ := exists_ (host 0);
     tree := tree (host 0);
     open_log := None;
     open_cron := None;
     os_remove := None;
     dumps := dumps (host 0) |}.

Definition settings : Config :=
  {| backup_dir := "/var/backups"; retention_days := 7;
     log_file := "/var/log/database_backups.log" |}.

Definition start (st : State) : World :=
  {| dir := st; log := []; commands := []; cron_file := None; clock := 0 |}.

Definition nightly_sqlserver : BackupConfig :=
  {| type := Some "sqlserver"; schedule := Some "0 2 * * *";
     connection_string := None;
     server := Some "db1"; database := Some "sales";
     username := Some "sa"; password := Some "hunter2";
     source_path := None |}.

End Jobs.

(* ===================================================================== *)
(** * Properties of the benchmark harness *)
(* ===================================================================== *)

Module BenchmarkProofs.
Import Benchmark.

Ltac run_step :=
  unfold bind, ret, lift, time, cursor, execute, fetchall, close, call,
    may_raise; simpl.

(** The loop over a query stops at the first execution that raises, and
    the exception leaves the loop. *)
Lemma for_range_query_raises env q msg :
  forall k n acc w,
    (k < n)%nat ->
    (forall j, (j < k)%nat -> execution_returns env w q j) ->
    execution_raises env w q k msg ->
    exists w',
      for_range n (timed_query env q) acc w = (Raise msg, w')
      /\ executed w' = executed w ++ repeat q (S k).
Proof.
  induction k as [|k IH]; intros n acc w Hlt Hok Hbad.
  - destruct n as [|n]; [lia|].
    unfold execution_raises in Hbad. rewrite !Nat.add_0_r in Hbad.
    simpl. unfold timed_query. run_step.
    destruct Hbad as [He | [He Hf]]; rewrite He; simpl.
    + eexists; split; reflexivity.
    + rewrite Hf. eexists; split; reflexivity.
  - destruct n as [|n]; [lia|].
    pose proof (Hok 0%nat ltac:(lia)) as [He Hf].
    rewrite !Nat.add_0_r in He, Hf.
    simpl. unfold timed_query at 1. run_step. rewrite He. simpl. rewrite Hf.
    set (w1 := {| ticks := _; executed := _; fetched := _; called := _ |}).
    destruct (IH n (acc ++ [(time_time env (S (ticks w)) - time_time env (ticks w)) * 1000])
                w1) as (w' & Hrun & Hex).
    + lia.
    + intros j Hj. destruct (Hok (S j) ltac:(lia)) as [He' Hf'].
      split; subst w1; simpl.
      * rewrite <- He'. f_equal. rewrite length_app; simpl. lia.
      * rewrite <- Hf'. f_equal. lia.
    + unfold execution_raises in *. subst w1; cbn [executed fetched].
      replace (length (executed w ++ [q]) + k)%nat
        with (length (executed w) + S k)%nat by (rewrite length_app; simpl; lia).
      replace (S (fetched w) + k)%nat with (fetched w + S k)%nat by lia.
      exact Hbad.
    + exists w'. split; [exact Hrun|].
      rewrite Hex. subst w1; simpl. rewrite <- app_assoc. reflexivity.
Qed.

(** C3. With [iterations = 0], [run_single_query_test] returns a result
    whose iterations field and five summary fields are all zero, and no
    query is passed to [cursor.execute]: the log of executed queries is
    what it was before the call. *)
Theorem single_query_zero_iterations (env : Env) (q : string) (w : World) :
  let r := fst (run_single_query_test env q 0 w) in
  let w' := snd (run_single_query_test env q 0 w) in
  iterations r = 0%Z
  /\ avg_time_ms r = 0 /\ min_time_ms r = 0 /\ max_time_ms r = 0
  /\ std_dev_ms r = 0 /\ total_time_ms r = 0
  /\ executed w' = executed w.
Proof.
  unfold run_single_query_test, try_except. run_step.
  destruct (connection_cursor env); simpl; [tauto|].
  destruct (cursor_close env); simpl; tauto.
Qed.

(** C4. When the [k]-th execution of the query is the first to raise, with
    message [msg], [run_single_query_test] returns the error result:
    iterations 0, error [msg], all summary fields zero; and the loop was
    left there, after [k + 1] calls of [cursor.execute]. *)
Theorem single_query_exception (env : Env) (q : string) (n : Z) (w : World)
    (k : nat) (msg : string) :
  connection_cursor env = None ->
  (k < Z.to_nat n)%nat ->
  (forall j, (j < k)%nat -> execution_returns env w q j) ->
  execution_raises env w q k msg ->
  let r := fst (run_single_query_test env q n w) in
  let w' := snd (run_single_query_test env q n w) in
  iterations r = 0%Z
  /\ error r = Some msg
  /\ avg_time_ms r = 0 /\ min_time_ms r = 0 /\ max_time_ms r = 0
  /\ std_dev_ms r = 0 /\ total_time_ms r = 0
  /\ executed w' = executed w ++ repeat q (S k).
Proof.
  intros Hc Hk Hok Hbad.
  destruct (for_range_query_raises env q msg k (Z.to_nat n) [] w Hk Hok Hbad)
    as (w1 & Hrun & Hex).
  assert (Heq : run_single_query_test env q n w = (query_error q msg, w1)).
  { unfold run_single_query_test, try_except, bind at 1, cursor, lift.
    rewrite Hc. simpl. unfold bind at 1. rewrite Hrun. reflexivity. }
  rewrite Heq. simpl. repeat split; try reflexivity. exact Hex.
Qed.

Lemma single_query_exception_witness :
  let r := fst (run_single_query_test flaky "SELECT 1" 5 fresh) in
  let w' := snd (run_single_query_test flaky "SELECT 1" 5 fresh) in
  iterations r = 0%Z
  /\ error r = Some "Table not found"
  /\ avg_time_ms r = 0 /\ min_time_ms r = 0 /\ max_time_ms r = 0
  /\ std_dev_ms r = 0 /\ total_time_ms r = 0
  /\ executed w' = executed fresh ++ repeat "SELECT 1" 3.
Proof.
  apply (single_query_exception flaky "SELECT 1" 5 fresh 2 "Table not found").
  - reflexivity.
  - simpl; lia.
  - intros j Hj. destruct j as [|[|j]]; [split; reflexivity | split; reflexivity | lia].
  - left; reflexivity.
Defined.

(** C9. With [iterations = 1] and no failure, the result has no error, its
    average, minimum and maximum are the one measured duration, and its
    standard deviation is 0. *)
Theorem single_query_one_iteration (env : Env) (q : string) (w : World) :
  connection_cursor env = None ->
  execution_returns env w q 0 ->
  cursor_close env = None ->
  let r := fst (run_single_query_test env q 1 w) in
  error r = None
  /\ iterations r = 1%Z
  /\ avg_time_ms r == min_time_ms r
  /\ min_time_ms r = max_time_ms r
  /\ std_dev_ms r = 0.
Proof.
  intros Hc [He Hf] Hcl. rewrite Nat.add_0_r in He, Hf.
  set (d := (time_time env (S (ticks w)) - time_time env (ticks w)) * 1000).
  assert (Heq : fst (run_single_query_test env q 1 w) =
                {| query := q; error := None; iterations := 1;
                   avg_time_ms := Stats.sum [d] / Stats.len [d];
                   min_time_ms := d; max_time_ms := d;
                   std_dev_ms := 0; total_time_ms := Stats.sum [d] |}).
  { unfold run_single_query_test, try_except, timed_query. run_step.
    rewrite Hc. simpl. run_step. rewrite He. simpl. rewrite Hf. simpl.
    rewrite Hcl. reflexivity. }
  rewrite Heq. simpl. repeat split; try reflexivity.
  unfold Stats.sum, Stats.len. simpl. field.
Qed.

Lemma single_query_one_iteration_witness :
  let r := fst (run_single_query_test steady "SELECT 1" 1 fresh) in
  error r = None
  /\ iterations r = 1%Z
  /\ avg_time_ms r == min_time_ms r
  /\ min_time_ms r = max_time_ms r
  /\ std_dev_ms r = 0.
Proof.
  apply (single_query_one_iteration steady "SELECT 1" fresh).
  - reflexivity.
  - split; reflexivity.
  - reflexivity.
Defined.

(** The loop over a transaction function stops at the first call that
    raises. *)
Lemma for_range_transaction_raises env tf msg :
  forall k n acc w,
    (k < n)%nat ->
    (forall j, (j < k)%nat -> tf (called w + j)%nat = None) ->
    tf (called w + k)%nat = Some msg ->
    exists w',
      for_range n (timed_transaction env tf) acc w = (Raise msg, w')
      /\ called w' = (called w + S k)%nat.
Proof.
  induction k as [|k IH]; intros n acc w Hlt Hok Hbad.
  - destruct n as [|n]; [lia|].
    rewrite Nat.add_0_r in Hbad.
    simpl. unfold timed_transaction. run_step. rewrite Hbad. simpl.
    eexists; split; [reflexivity|]. simpl. lia.
  - destruct n as [|n]; [lia|].
    pose proof (Hok 0%nat ltac:(lia)) as H0. rewrite Nat.add_0_r in H0.
    simpl. unfold timed_transaction at 1. run_step. rewrite H0. simpl.
    set (w1 := {| ticks := _; executed := _; fetched := _; called := _ |}).
    destruct (IH n (acc ++ [(time_time env (S (ticks w)) - time_time env (ticks w)) * 1000])
                w1) as (w' & Hrun & Hcalled).
    + lia.
    + intros j Hj. rewrite <- (Hok (S j) ltac:(lia)). f_equal. subst w1; simpl. lia.
    + rewrite <- Hbad. f_equal. subst w1; simpl. lia.
    + exists w'. split; [exact Hrun|]. rewrite Hcalled. subst w1; simpl. lia.
Qed.

(** C10. When the [k]-th call of the transaction function is the first to
    raise, with message [msg], [run_transaction_test] returns a result
    whose iterations field is the requested count [n] (which is not zero,
    a call having been made), whose error is [msg] and whose summary
    fields are zero.  [run_single_query_test] in the same situation
    reports iterations 0, by [query_error]. *)
Theorem transaction_exception_keeps_iterations (env : Env)
    (tf : nat -> option string) (n : Z) (w : World) (k : nat) (msg : string) :
  (k < Z.to_nat n)%nat ->
  (forall j, (j < k)%nat -> tf (called w + j)%nat = None) ->
  tf (called w + k)%nat = Some msg ->
  let r := fst (run_transaction_test env tf n w) in
  t_iterations r = n /\ n <> 0%Z
  /\ t_error r = Some msg
  /\ t_avg_time_ms r = 0 /\ t_min_time_ms r = 0 /\ t_max_time_ms r = 0
  /\ t_std_dev_ms r = 0 /\ t_total_time_ms r = 0.
Proof.
  intros Hk Hok Hbad.
  destruct (for_range_transaction_raises env tf msg k (Z.to_nat n) [] w Hk Hok Hbad)
    as (w1 & Hrun & _).
  assert (Heq : run_transaction_test env tf n w = (transaction_error n msg, w1)).
  { unfold run_transaction_test, try_except, bind at 1. rewrite Hrun. reflexivity. }
  rewrite Heq. simpl. repeat split; try reflexivity. lia.
Qed.

Lemma transaction_exception_keeps_iterations_witness :
  let r := fst (run_transaction_test steady fails_second 2 fresh) in
  t_iterations r = 2%Z /\ 2%Z <> 0%Z
  /\ t_error r = Some "Transaction failed"
  /\ t_avg_time_ms r = 0 /\ t_min_time_ms r = 0 /\ t_max_time_ms r = 0
  /\ t_std_dev_ms r = 0 /\ t_total_time_ms r = 0.
Proof.
  apply (transaction_exception_keeps_iterations steady fails_second 2 fresh 1
           "Transaction failed").
  - simpl; lia.
  - intros j Hj. destruct j as [|j]; [reflexivity | lia].
  - reflexivity.
Defined.

End BenchmarkProofs.

(* ===================================================================== *)
(** * Properties of the load test *)
(* ===================================================================== *)

Module LoadProofs.
Import Benchmark.

Section Tally.
Variable env : Env.
Hypothesis healthy : database_healthy env.
Variable queries : list string.

Lemma sum_values_insert (counts : gmap string Z) (q : string) (c v : Z) :
  counts !! q = Some c ->
  sum_values (<[q := v]> counts) = (sum_values counts - c + v)%Z.
Proof.
  intros Hq. unfold sum_values.
  rewrite <- (insert_delete_id counts q c Hq) at 2.
  rewrite <- (insert_delete_eq counts q v).
  rewrite !map_fold_insert_L; try apply lookup_delete_eq; intros; lia.
Qed.

Lemma sum_values_zero (counts : gmap string Z) :
  (forall q v, counts !! q = Some v -> v = 0%Z) -> sum_values counts = 0%Z.
Proof.
  unfold sum_values.
  apply (map_fold_weak_ind
           (fun r (m : gmap string Z) =>
              (forall q v, m !! q = Some v -> v = 0%Z) -> r = 0%Z)).
  - reflexivity.
  - intros i x m r Hi IH Hall.
    rewrite (Hall i x) by apply lookup_insert_eq.
    rewrite IH; [reflexivity|].
    intros q v Hq. apply (Hall q v).
    rewrite lookup_insert_ne; [exact Hq|]. intros ->. congruence.
Qed.

Lemma zero_counts_lookup (qs : list string) (q : string) :
  forall m : gmap string Z,
    fold_left (fun m q => <[q := 0%Z]> m) qs m !! q =
    if in_dec String.string_dec q qs then Some 0%Z else m !! q.
Proof.
  induction qs as [|x qs IH]; intros m; simpl; [reflexivity|].
  rewrite IH.
  destruct (in_dec String.string_dec q qs) as [Hin|Hnin].
  - destruct (String.string_dec x q); reflexivity.
  - destruct (String.string_dec x q) as [->|Hne].
    + apply lookup_insert_eq.
    + rewrite lookup_insert_ne by exact Hne. reflexivity.
Qed.

Lemma tallied_zero_counts : tallied queries (zero_counts queries) [].
Proof.
  unfold tallied, zero_counts. repeat split.
  - intros q Hq. rewrite zero_counts_lookup.
    destruct (in_dec String.string_dec q queries); [reflexivity | contradiction].
  - intros q Hq. rewrite zero_counts_lookup.
    destruct (in_dec String.string_dec q queries); [contradiction | apply lookup_empty].
  - apply sum_values_zero. intros q v. rewrite zero_counts_lookup.
    destruct (in_dec String.string_dec q queries).
    + congruence.
    + rewrite lookup_empty. discriminate.
Qed.

Lemma occurrences_snoc (q x : string) (log : list string) :
  occurrences q (log ++ [x]) =
  (occurrences q log + if String.string_dec x q then 1 else 0)%Z.
Proof.
  unfold occurrences. rewrite count_occ_app. simpl.
  destruct (String.string_dec x q); lia.
Qed.

Lemma tallied_increment (counts : gmap string Z) (log : list string) (q : string) :
  In q queries ->
  tallied queries counts log ->
  increment q counts = Ok (<[q := (occurrences q log + 1)%Z]> counts)
  /\ tallied queries (<[q := (occurrences q log + 1)%Z]> counts) (log ++ [q]).
Proof.
  intros Hin (Hk & Hn & Hs). pose proof (Hk q Hin) as Hq.
  split; [unfold increment; rewrite Hq; reflexivity|].
  repeat split.
  - intros q' Hq'. rewrite occurrences_snoc.
    destruct (String.string_dec q q') as [<-|Hne].
    + rewrite lookup_insert_eq. reflexivity.
    + rewrite lookup_insert_ne by exact Hne. rewrite (Hk q' Hq'). f_equal. lia.
  - intros q' Hq'. rewrite lookup_insert_ne; [apply Hn; exact Hq'|].
    intros ->. contradiction.
  - rewrite (sum_values_insert counts q _ _ Hq), Hs, length_app. simpl. lia.
Qed.

Lemma load_query_returns (q : string) (counts : gmap string Z) (times : list Q)
    (log : list string) (w : World) :
  In q queries ->
  tallied queries counts log ->
  exists counts',
    load_query env q (counts, times) w =
      (Ok (counts',
           times ++ [(time_time env (S (ticks w)) - time_time env (ticks w)) * 1000]),
       {| ticks := S (S (ticks w)); executed := executed w ++ [q];
          fetched := S (fetched w); called := called w |})
    /\ tallied queries counts' (log ++ [q]).
Proof.
  intros Hin Ht.
  destruct healthy as (Hc & He & Hf & Hcl).
  destruct (tallied_increment counts log q Hin Ht) as [Hinc Ht'].
  eexists. split; [|exact Ht'].
  unfold load_query, bind, ret, lift, time, cursor, execute, fetchall, close.
  simpl. rewrite Hc, He, Hf, Hcl. simpl. rewrite Hinc. reflexivity.
Qed.

Lemma for_each_returns (qs : list string) :
  forall counts times log w,
    incl qs queries ->
    tallied queries counts log ->
    exists counts' times' w',
      for_each qs (load_query env) (counts, times) w = (Ok (counts', times'), w')
      /\ tallied queries counts' (log ++ qs)
      /\ ticks w' = (ticks w + 2 * length qs)%nat
      /\ executed w' = executed w ++ qs
      /\ length times' = (length times + length qs)%nat.
Proof.
  induction qs as [|q qs IH]; intros counts times log w Hincl Ht.
  - exists counts, times, w. simpl. rewrite !app_nil_r.
    split_and!; try reflexivity; try lia. exact Ht.
  - destruct (load_query_returns q counts times log w) as (counts1 & Hrun & Ht1).
    { apply Hincl. left. reflexivity. }
    { exact Ht. }
    set (times1 := times ++ _) in Hrun. set (w1 := Build_World _ _ _ _) in Hrun.
    destruct (IH counts1 times1 (log ++ [q]) w1) as (counts' & times' & w' & Hrest & Ht' & Hticks & Hex & Hlen).
    { intros x Hx. apply Hincl. right. exact Hx. }
    { exact Ht1. }
    exists counts', times', w'.
    split_and!.
    + simpl. unfold bind at 1. rewrite Hrun. exact Hrest.
    + rewrite <- app_assoc in Ht'. exact Ht'.
    + rewrite Hticks. subst w1. simpl. lia.
    + rewrite Hex. subst w1. simpl. rewrite <- app_assoc. reflexivity.
    + rewrite Hlen. subst times1. rewrite length_app. simpl. lia.
Qed.

Lemma while_before_returns (end_time : Q) :
  forall c fuel counts times log w,
    (c < fuel)%nat ->
    tallied queries counts log ->
    (forall i, (i < c)%nat ->
       time_time env (ticks w + i * (1 + 2 * length queries)) < end_time) ->
    end_time <= time_time env (ticks w + c * (1 + 2 * length queries)) ->
    exists counts' times' w',
      while_before env fuel end_time queries (counts, times) w
        = Some (Ok (counts', times'), w')
      /\ tallied queries counts' (log ++ cycles c queries)
      /\ executed w' = executed w ++ cycles c queries
      /\ length times' = (length times + c * length queries)%nat.
Proof.
  induction c as [|c IH]; intros fuel counts times log w Hfuel Ht Hbefore Hafter.
  - destruct fuel as [|fuel]; [lia|].
    simpl in Hafter. rewrite Nat.add_0_r in Hafter.
    exists counts, times. eexists. simpl.
    destruct (QMicromega.Qlt_bool (time_time env (ticks w)) end_time) eqn:Hlt.
    { apply QMicromega.Qlt_bool_iff in Hlt. lra. }
    unfold cycles. simpl. rewrite !app_nil_r.
    split_and!; try reflexivity; try lia. exact Ht.
  - destruct fuel as [|fuel]; [lia|].
    pose proof (Hbefore 0%nat ltac:(lia)) as H0. simpl in H0. rewrite Nat.add_0_r in H0.
    apply QMicromega.Qlt_bool_iff in H0.
    set (w1 := {| ticks := S (ticks w); executed := executed w;
                  fetched := fetched w; called := called w |}).
    destruct (for_each_returns queries counts times log w1 (incl_refl _) Ht)
      as (counts1 & times1 & w2 & Hcycle & Ht1 & Hticks & Hex & Hlen).
    assert (Hshift : forall i,
               (ticks w2 + i * (1 + 2 * length queries))%nat
               = (ticks w + S i * (1 + 2 * length queries))%nat).
    { intros i. rewrite Hticks. subst w1. simpl. lia. }
    destruct (IH fuel counts1 times1 (log ++ queries) w2)
      as (counts' & times' & w' & Hrest & Ht' & Hex' & Hlen').
    + lia.
    + exact Ht1.
    + intros i Hi. rewrite Hshift. apply Hbefore. lia.
    + rewrite Hshift. exact Hafter.
    + exists counts', times', w'.
      unfold cycles in *. cbn [repeat concat].
      split_and!.
      * cbn [while_before time]. rewrite H0. fold w1. rewrite Hcycle. exact Hrest.
      * rewrite app_assoc. exact Ht'.
      * rewrite Hex', Hex, app_assoc. reflexivity.
      * rewrite Hlen', Hlen. lia.
Qed.

End Tally.

Lemma length_cycles (c : nat) (xs : list string) :
  length (cycles c xs) = (c * length xs)%nat.
Proof.
  unfold cycles. induction c as [|c IH]; simpl; [reflexivity|].
  rewrite length_app, IH. reflexivity.
Qed.

Lemma in_cycles (c : nat) (xs : list string) (q : string) :
  In q (cycles c xs) -> In q xs.
Proof.
  unfold cycles. induction c as [|c IH]; simpl; [tauto|].
  rewrite in_app_iff. tauto.
Qed.

Lemma stdev_or_zero_returns (env : Env) (xs : list Q) :
  exists s, stdev_or_zero env xs = Ok s.
Proof.
  unfold stdev_or_zero. destruct xs as [|a [|b xs]]; simpl; eauto.
Qed.

Lemma tallied_default (queries : list string) (counts : gmap string Z)
    (c : nat) (q : string) :
  tallied queries counts (cycles c queries) ->
  default 0%Z (counts !! q) = occurrences q (cycles c queries).
Proof.
  intros (Hk & Hn & _).
  destruct (in_dec String.string_dec q queries) as [Hin|Hnin].
  - rewrite (Hk q Hin). reflexivity.
  - rewrite (Hn q Hnin). simpl. unfold occurrences.
    rewrite (proj1 (count_occ_not_In String.string_dec _ q)); [reflexivity|].
    intros Hc. apply Hnin. exact (in_cycles c queries q Hc).
Qed.

(** C7. Against a database that answers every call, let [c] be the number
    of times the loop condition finds the clock before the deadline
    [start + duration_seconds] (the condition is read once per pass over
    the list; a zero duration lets no pass start).  Then [run_load_test]
    returns, having executed the list [c] times over in order; the count
    it reports for each query is the number of times that query was
    executed, the total is the number of executions, and
    queries_per_second is that total divided by [duration_seconds]. *)
Theorem load_test_cycles (env : Env) (queries : list string) (d : Z) (w : World)
    (c fuel : nat) :
  database_healthy env ->
  deadline_after env w (length queries) d c ->
  (d = 0%Z -> c = 0%nat) ->
  (c < fuel)%nat ->
  exists r w',
    run_load_test env fuel queries d w = Some (r, w')
    /\ executed w' = executed w ++ cycles c queries
    /\ (forall q, default 0%Z (l_query_counts r !! q)
                  = occurrences q (cycles c queries))
    /\ l_total_queries r = Z.of_nat (length (cycles c queries))
    /\ l_queries_per_second r == inject_Z (l_total_queries r) / inject_Z d.
Proof.
  intros Hhealthy [Hbefore Hafter] Hzero Hfuel.
  set (end_time := time_time env (ticks w) + inject_Z d) in *.
  set (w0 := {| ticks := S (ticks w); executed := executed w;
                fetched := fetched w; called := called w |}).
  destruct (while_before_returns env Hhealthy queries end_time c fuel
              (zero_counts queries) [] [] w0)
    as (counts & times & w1 & Hloop & Ht & Hex & Hlen).
  - exact Hfuel.
  - apply tallied_zero_counts.
  - intros i Hi. specialize (Hbefore i Hi). unfold check_tick in Hbefore.
    replace (ticks w0 + i * (1 + 2 * length queries))%nat
      with (ticks w + 1 + i * (1 + 2 * length queries))%nat by (subst w0; simpl; lia).
    exact Hbefore.
  - unfold check_tick in Hafter.
    replace (ticks w0 + c * (1 + 2 * length queries))%nat
      with (ticks w + 1 + c * (1 + 2 * length queries))%nat by (subst w0; simpl; lia).
    exact Hafter.
  - simpl in Ht, Hex, Hlen.
    pose proof Ht as (_ & _ & Hsum). simpl in Hsum.
    unfold run_load_test. cbn [time]. fold w0. fold end_time. rewrite Hloop.
    unfold try_except, load_summary, bind, lift, ret. cbn [fst snd].
    rewrite Hsum.
    destruct times as [|t times].
    + (* nothing was executed: the summary raises and the error result is
         returned *)
      assert (Hnil : cycles c queries = []).
      { apply length_zero_iff_nil. rewrite length_cycles. simpl in Hlen. lia. }
      rewrite Hnil in *. simpl.
      unfold true_div. destruct (d =? 0)%Z; simpl.
      * eexists _, _. split; [reflexivity|]. simpl.
        split_and!; try reflexivity. exact Hex.
      * eexists _, _. split; [reflexivity|]. simpl.
        split_and!; try reflexivity. exact Hex.
    + (* at least one execution: the duration is not zero *)
      assert (Hd : (d =? 0)%Z = false).
      { apply Z.eqb_neq. intros Hd0. specialize (Hzero Hd0). subst c.
        simpl in Hlen. lia. }
      unfold true_div. rewrite Hd. simpl.
      destruct (stdev_or_zero_returns env (t :: times)) as [sd Hsd].
      rewrite Hsd.
      eexists _, _. split; [reflexivity|]. simpl.
      split_and!; try reflexivity.
      * exact Hex.
      * intros q. apply tallied_default. exact Ht.
Qed.

Lemma load_test_cycles_witness :
  exists r w',
    run_load_test steady 4 ["SELECT 1"; "SELECT 2"; "SELECT 1"] 4 fresh = Some (r, w')
    /\ executed w' = executed fresh ++ cycles 3 ["SELECT 1"; "SELECT 2"; "SELECT 1"]
    /\ (forall q, default 0%Z (l_query_counts r !! q)
                  = occurrences q (cycles 3 ["SELECT 1"; "SELECT 2"; "SELECT 1"]))
    /\ l_total_queries r
       = Z.of_nat (length (cycles 3 ["SELECT 1"; "SELECT 2"; "SELECT 1"]))
    /\ l_queries_per_second r == inject_Z (l_total_queries r) / inject_Z 4.
Proof.
  apply (load_test_cycles steady ["SELECT 1"; "SELECT 2"; "SELECT 1"] 4 fresh 3 4).
  - repeat split; reflexivity.
  - split.
    + intros i Hi. destruct i as [|[|[|i]]]; [reflexivity | reflexivity | reflexivity | lia].
    + vm_compute. discriminate.
  - discriminate.
  - lia.
Defined.

End LoadProofs.

(* ===================================================================== *)
(** * Properties of the trend analyzer *)
(* ===================================================================== *)

Module TrendProofs.
Import Trend.

Lemma length_insert_by_timestamp (x : Sample) (xs : list Sample) :
  length (insert_by_timestamp x xs) = S (length xs).
Proof.
  induction xs as [|y ys IH]; simpl; [reflexivity|].
  destruct (timestamp x <=? timestamp y)%Z; simpl; [reflexivity|].
  rewrite IH. reflexivity.
Qed.

Lemma length_sort_values (xs : list Sample) :
  length (sort_values xs) = length xs.
Proof.
  induction xs as [|x xs IH]; simpl; [reflexivity|].
  rewrite length_insert_by_timestamp, IH. reflexivity.
Qed.

Lemma has_column_not_empty (c : string) (df : DataFrame) :
  has_column c df = true -> rows df <> [] -> empty df = false.
Proof.
  unfold has_column, empty. intros Hc Hr.
  destruct (rows df); [contradiction|].
  destruct (columns df); [discriminate|reflexivity].
Qed.

(** What a non-empty answer of [analyze_cpu_trends] is made of. *)
Lemma analyze_cpu_trends_Some (libs : Libs) (df : DataFrame) (r : CpuTrend) :
  analyze_cpu_trends libs df = Some r ->
  let data := sort_values (rows df) in
  let cpu := map cpu_percent data in
  has_column "cpu_percent" df = true
  /\ rows df <> []
  /\ anomalies r = length (anomaly_rows data)
  /\ ma_5 r = last_or_zero (rolling_mean 5 cpu)
  /\ ma_10 r = last_or_zero (rolling_mean 10 cpu).
Proof.
  unfold analyze_cpu_trends.
  destruct (has_column "cpu_percent" df) eqn:Hc; simpl; [|discriminate].
  destruct (empty df) eqn:He; [discriminate|].
  destruct (has_column "timestamp" df); simpl; [|discriminate].
  destruct (fit libs _ _); [|discriminate].
  intros [= <-]. simpl. split_and!; try reflexivity.
  intros Hr. unfold empty in He. rewrite Hr in He. discriminate.
Qed.

(* --------------------------------------------------------------------- *)
(** ** Moving averages *)

Lemma rolling_mean_short (window : nat) (xs : list Q) :
  (length xs < window)%nat ->
  forallb isna (rolling_mean window xs) = true.
Proof.
  intros Hlen. apply forallb_forall. intros x Hx.
  unfold rolling_mean in Hx. apply in_map_iff in Hx as (i & <- & Hi).
  apply in_seq in Hi.
  assert (Hlt : (S i <? window)%nat = true) by (apply Nat.ltb_lt; lia).
  rewrite Hlt. reflexivity.
Qed.

Lemma series_mean_Some (xs : list Q) :
  xs <> [] -> series_mean xs = Some (Stats.sum xs / Stats.len xs).
Proof. destruct xs; [contradiction | reflexivity]. Qed.

Lemma rolling_mean_last (window : nat) (xs : list Q) :
  (0 < window <= length xs)%nat ->
  let tail := skipn (length xs - window) xs in
  last_or_zero (rolling_mean window xs) = Some (Stats.sum tail / Stats.len tail).
Proof.
  intros Hlen tail.
  destruct (length xs) as [|k] eqn:Hk; [lia|].
  assert (Hwin : (S k <? window)%nat = false) by (apply Nat.ltb_ge; lia).
  assert (Htail : firstn window (skipn (S k - window) xs) = tail).
  { subst tail. apply firstn_all2. rewrite length_skipn. lia. }
  assert (Hne : tail <> []).
  { intros Hnil. apply (f_equal (@length Q)) in Hnil.
    subst tail. rewrite length_skipn in Hnil. simpl in Hnil. lia. }
  assert (Hlast : List.last (rolling_mean window xs) None
                  = Some (Stats.sum tail / Stats.len tail)).
  { unfold rolling_mean. rewrite Hk, seq_S, map_app. simpl.
    rewrite last_last, Hwin, Htail. apply series_mean_Some. exact Hne. }
  unfold last_or_zero.
  destruct (forallb isna (rolling_mean window xs)) eqn:Hall; [|exact Hlast].
  exfalso. rewrite forallb_forall in Hall.
  assert (Hin : In (Some (Stats.sum tail / Stats.len tail)) (rolling_mean window xs)).
  { unfold rolling_mean. rewrite Hk, seq_S, map_app. apply in_or_app. right.
    simpl. left. rewrite Hwin, Htail. apply series_mean_Some. exact Hne. }
  specialize (Hall _ Hin). discriminate.
Qed.

(** Whenever [analyze_cpu_trends] answers, its two moving averages have a
    value: 0 below the window size, the mean of the last [window] samples
    from there on. *)
Lemma moving_averages_reported (libs : Libs) (df : DataFrame) (r : CpuTrend) :
  analyze_cpu_trends libs df = Some r ->
  let cpu := map cpu_percent (sort_values (rows df)) in
  let tail := fun window => skipn (length cpu - window) cpu in
  ma_5 r = (if (length cpu <? 5)%nat then Some 0
            else Some (Stats.sum (tail 5%nat) / Stats.len (tail 5%nat)))
  /\ ma_10 r = (if (length cpu <? 10)%nat then Some 0
                else Some (Stats.sum (tail 10%nat) / Stats.len (tail 10%nat))).
Proof.
  intros Hr cpu tail.
  destruct (analyze_cpu_trends_Some libs df r Hr) as (_ & _ & _ & H5 & H10).
  fold cpu in H5, H10. rewrite H5, H10. split.
  - destruct (length cpu <? 5)%nat eqn:Hlen.
    + apply Nat.ltb_lt in Hlen. unfold last_or_zero.
      rewrite rolling_mean_short by exact Hlen. reflexivity.
    + apply Nat.ltb_ge in Hlen. apply rolling_mean_last. lia.
  - destruct (length cpu <? 10)%nat eqn:Hlen.
    + apply Nat.ltb_lt in Hlen. unfold last_or_zero.
      rewrite rolling_mean_short by exact Hlen. reflexivity.
    + apply Nat.ltb_ge in Hlen. apply rolling_mean_last. lia.
Qed.

(** C1. On the two-sample table of the repository's own test
    [test_analyze_cpu_trends_insufficient_data], [analyze_cpu_trends]
    returns a result whose moving averages are both present with the
    value 0: below the window size a moving average is given a value, it
    is not left out. *)
Theorem short_series_moving_averages_are_zero :
  exists r,
    analyze_cpu_trends reference_libs insufficient_data = Some r
    /\ ma_5 r = Some 0
    /\ ma_10 r = Some 0.
Proof.
  assert (Hsome : match analyze_cpu_trends reference_libs insufficient_data with
                  | Some _ => true
                  | None => false
                  end = true) by (vm_compute; reflexivity).
  destruct (analyze_cpu_trends reference_libs insufficient_data) as [r|] eqn:Hr;
    [|discriminate Hsome].
  exists r. split; [reflexivity|].
  destruct (moving_averages_reported _ _ _ Hr) as [H5 H10].
  rewrite H5, H10. split; reflexivity.
Qed.

(* --------------------------------------------------------------------- *)
(** ** Anomalies *)

(** C5. On [outlier_series], ten ordinary readings with a reading of 95
    among them, the entry ['anomalies'] of the result is the number 1,
    whatever the regression library answers: the code returns
    [len(anomalies)], how many rows Tukey's rule flagged, and not the
    rows.  No sample is "in the returned anomalies"; the repository's
    tests read the entry as a table of rows. *)
Theorem anomalies_returned_as_count (libs : Libs) (r : CpuTrend) :
  analyze_cpu_trends libs outlier_series = Some r ->
  anomalies r = 1%nat.
Proof.
  intros Hr.
  destruct (analyze_cpu_trends_Some libs outlier_series r Hr) as (_ & _ & Hn & _).
  rewrite Hn. vm_compute. reflexivity.
Qed.

Lemma anomalies_returned_as_count_witness :
  exists r,
    analyze_cpu_trends reference_libs outlier_series = Some r
    /\ anomalies r = 1%nat.
Proof.
  assert (Hsome : match analyze_cpu_trends reference_libs outlier_series with
                  | Some _ => true
                  | None => false
                  end = true) by (vm_compute; reflexivity).
  destruct (analyze_cpu_trends reference_libs outlier_series) as [r|] eqn:Hr;
    [|discriminate Hsome].
  exists r. split; [reflexivity|].
  exact (anomalies_returned_as_count reference_libs r Hr).
Defined.

(* --------------------------------------------------------------------- *)
(** ** Growth rate and projection *)

Lemma growth_positive (first_half second_half : option Q) (f s : Q) :
  first_half = Some f -> second_half = Some s -> 0 < f ->
  growth first_half second_half = Some ((s - f) / f).
Proof.
  intros -> -> Hf. unfold growth, gt.
  apply QMicromega.Qlt_bool_iff in Hf. rewrite Hf. reflexivity.
Qed.

Lemma growth_otherwise (first_half second_half : option Q) :
  first_half = None \/ (exists f, first_half = Some f /\ f <= 0) ->
  growth first_half second_half = Some 0.
Proof.
  intros [-> | (f & -> & Hf)]; unfold growth, gt; [reflexivity|].
  destruct (QMicromega.Qlt_bool 0 f) eqn:Hlt; [|reflexivity].
  apply QMicromega.Qlt_bool_iff in Hlt. lra.
Qed.

Lemma time_to_threshold_positive (g current : Q) :
  0 < g -> time_to_threshold (Some g) current = Some ((100 - current) / g).
Proof.
  intros Hg. unfold time_to_threshold, gt.
  apply QMicromega.Qlt_bool_iff in Hg. rewrite Hg. reflexivity.
Qed.

Lemma time_to_threshold_defined (growth_rate : option Q) (current : Q) :
  time_to_threshold growth_rate current <> None
  <-> exists g, growth_rate = Some g /\ 0 < g.
Proof.
  unfold time_to_threshold, gt. destruct growth_rate as [g|].
  - destruct (QMicromega.Qlt_bool 0 g) eqn:Hg.
    + apply QMicromega.Qlt_bool_iff in Hg. split; [|discriminate].
      intros _. exists g. split; [reflexivity | exact Hg].
    + split; [congruence|]. intros (g' & [= <-] & Hpos).
      apply QMicromega.Qlt_bool_iff in Hpos. congruence.
  - split; [congruence|]. intros (g' & Hg' & _). discriminate.
Qed.

Lemma growth_and_projection_holds (values : list Q) (current : Q) :
  List.last (map Some values) None = Some current ->
  let growth_rate := growth (fst (halves values)) (snd (halves values)) in
  growth_and_projection values growth_rate current
    (time_to_threshold growth_rate current).
Proof.
  intros Hlast growth_rate. unfold growth_and_projection. split_and!.
  - intros f s. apply growth_positive.
  - apply growth_otherwise.
  - exact Hlast.
  - intros g -> Hg. apply time_to_threshold_positive. exact Hg.
  - apply time_to_threshold_defined.
Qed.

Lemma last_sorted_Some (xs : list Sample) (f : Sample -> Q) :
  xs <> [] ->
  exists current, List.last (map Some (map f (sort_values xs))) None = Some current.
Proof.
  intros Hne.
  assert (Hlen : (0 < length (map Some (map f (sort_values xs))))%nat).
  { rewrite !length_map, length_sort_values. destruct xs; [contradiction | simpl; lia]. }
  destruct (map Some (map f (sort_values xs))) as [|o l] eqn:Hl using rev_ind;
    [simpl in Hlen; lia|].
  rewrite last_last.
  assert (Hin : In o (map Some (map f (sort_values xs)))).
  { rewrite Hl. apply in_or_app. right. left. reflexivity. }
  apply in_map_iff in Hin as (current & <- & _). exists current. reflexivity.
Qed.

(** C6, as the code has it.  For a table with rows, taken at distinct
    times, and the columns read, [analyze_memory_trends] and
    [analyze_disk_trends] answer, and in the answer the growth rate is
    (second-half mean - first-half mean) / first-half mean when the
    first-half mean is positive and 0 when it is undefined (a single
    sample), zero or negative; the current value is the last sample; the
    projected time is (100 - current) / growth rate and is present exactly
    when the growth rate is positive.  The halves and the last sample are
    those of the table in time order, which distinct timestamps fix. *)
Theorem growth_rate_and_projection (libs : Libs) (df : DataFrame) :
  rows df <> [] ->
  List.NoDup (map timestamp (rows df)) ->
  has_column "timestamp" df = true ->
  (has_column "memory_percent" df = true ->
   exists r, analyze_memory_trends libs df = Some r
     /\ growth_and_projection (map memory_percent (sort_values (rows df)))
          (m_growth_rate r) (m_current_usage r) (time_to_exhaustion r))
  /\ (has_column "disk_percent" df = true ->
      exists r, analyze_disk_trends df = Some r
        /\ growth_and_projection (map disk_percent (sort_values (rows df)))
             (d_growth_rate r) (d_current_usage r) (time_to_full r)).
Proof.
  intros Hrows _ Hts. split; intros Hcol.
  - destruct (last_sorted_Some (rows df) memory_percent Hrows) as [current Hlast].
    unfold analyze_memory_trends.
    rewrite Hcol, Hts, (has_column_not_empty _ _ Hcol Hrows). simpl.
    rewrite Hlast. eexists. split; [reflexivity|]. simpl.
    rewrite <- (length_map memory_percent (sort_values (rows df))).
    apply growth_and_projection_holds. exact Hlast.
  - destruct (last_sorted_Some (rows df) disk_percent Hrows) as [current Hlast].
    unfold analyze_disk_trends.
    rewrite Hcol, Hts, (has_column_not_empty _ _ Hcol Hrows). simpl.
    rewrite Hlast. eexists. split; [reflexivity|]. simpl.
    rewrite <- (length_map disk_percent (sort_values (rows df))).
    apply growth_and_projection_holds. exact Hlast.
Qed.

Lemma growth_rate_and_projection_witness :
  (exists r, analyze_memory_trends reference_libs rising = Some r
     /\ growth_and_projection (map memory_percent (sort_values (rows rising)))
          (m_growth_rate r) (m_current_usage r) (time_to_exhaustion r))
  /\ (exists r, analyze_disk_trends rising = Some r
        /\ growth_and_projection (map disk_percent (sort_values (rows rising)))
             (d_growth_rate r) (d_current_usage r) (time_to_full r)).
Proof.
  destruct (growth_rate_and_projection reference_libs rising) as [Hm Hd].
  - discriminate.
  - cbn. repeat constructor; cbn; intuition discriminate.
  - reflexivity.
  - split; [apply Hm | apply Hd]; reflexivity.
Defined.

(** C6, as the specification words it, fails.  A single sample has an
    empty first half, whose mean is undefined, and a first half of mean
    -10 followed by 20 would give (20 - -10) / -10 = -3: in both cases the
    code reports a growth rate of 0. *)
Lemma growth_rate_not_as_specified :
  ~ growth_as_specified reference_libs single_sample
  /\ ~ growth_as_specified reference_libs negative_start.
Proof.
  split; intros H.
  - specialize (H _ eq_refl). vm_compute in H. discriminate.
  - specialize (H _ eq_refl). vm_compute in H. discriminate.
Qed.

(* --------------------------------------------------------------------- *)
(** ** Empty input *)

(** C8. On an empty table, and on a table without the column it reads,
    each of [analyze_cpu_trends], [analyze_memory_trends] and
    [analyze_disk_trends] returns the empty result;
    [predict_future_performance] returns the empty result on an empty
    table and on a table with none of the three metric columns. *)
Theorem empty_input_empty_result (libs : Libs) (df : DataFrame) (days_ahead : Z) :
  (empty df = true \/ has_column "cpu_percent" df = false ->
   analyze_cpu_trends libs df = None)
  /\ (empty df = true \/ has_column "memory_percent" df = false ->
      analyze_memory_trends libs df = None)
  /\ (empty df = true \/ has_column "disk_percent" df = false ->
      analyze_disk_trends df = None)
  /\ (empty df = true
      \/ (has_column "cpu_percent" df = false
          /\ has_column "memory_percent" df = false
          /\ has_column "disk_percent" df = false) ->
      predict_future_performance libs df days_ahead = no_predictions).
Proof.
  assert (Hcpu : empty df = true \/ has_column "cpu_percent" df = false ->
                 analyze_cpu_trends libs df = None).
  { unfold analyze_cpu_trends. intros [-> | ->]; [rewrite orb_true_r|]; reflexivity. }
  assert (Hmem : empty df = true \/ has_column "memory_percent" df = false ->
                 analyze_memory_trends libs df = None).
  { unfold analyze_memory_trends. intros [-> | ->]; [rewrite orb_true_r|]; reflexivity. }
  assert (Hdisk : empty df = true \/ has_column "disk_percent" df = false ->
                  analyze_disk_trends df = None).
  { unfold analyze_disk_trends. intros [-> | ->]; [rewrite orb_true_r|]; reflexivity. }
  split_and!; try assumption.
  intros H. unfold predict_future_performance.
  destruct (empty df) eqn:He; [reflexivity|].
  destruct H as [H | (Hc & Hm & Hd)]; [discriminate|].
  rewrite Hcpu, Hmem, Hdisk by (right; assumption). reflexivity.
Qed.

Lemma empty_input_empty_result_witness :
  analyze_cpu_trends reference_libs {| columns := ["timestamp"; "cpu_percent"]; rows := [] |}
    = None
  /\ analyze_memory_trends reference_libs timestamps_only = None
  /\ analyze_disk_trends timestamps_only = None
  /\ predict_future_performance reference_libs timestamps_only 7 = no_predictions.
Proof.
  split_and!.
  - apply (empty_input_empty_result reference_libs
             {| columns := ["timestamp"; "cpu_percent"]; rows := [] |} 7).
    left. reflexivity.
  - apply (empty_input_empty_result reference_libs timestamps_only 7).
    right. reflexivity.
  - apply (empty_input_empty_result reference_libs timestamps_only 7).
    right. reflexivity.
  - apply (empty_input_empty_result reference_libs timestamps_only 7).
    right. repeat split; reflexivity.
Defined.

End TrendProofs.

(* ===================================================================== *)
(** * Properties of the backup clean-up *)
(* ===================================================================== *)

Module BackupProofs.
Import Backup.

Lemma lookup_Some (n : string) (es : list Entry) (e : Entry) :
  lookup n es = Some e -> In e es /\ name e = n.
Proof.
  unfold lookup. intros H. apply find_some in H as [Hin Heq].
  apply String.eqb_eq in Heq. split; assumption.
Qed.

Lemma lookup_None (n : string) (es : list Entry) (e : Entry) :
  lookup n es = None -> In e es -> name e <> n.
Proof.
  unfold lookup. intros H Hin Heq.
  pose proof (find_none _ _ H e Hin) as Hf. simpl in Hf.
  apply String.eqb_neq in Hf. contradiction.
Qed.

Lemma unique_name (es : list Entry) (e e' : Entry) :
  List.NoDup (map name es) -> In e es -> In e' es -> name e = name e' -> e = e'.
Proof.
  induction es as [|x es IH]; simpl; [tauto|].
  intros Hnd [-> | He] [-> | He'] Hname; inversion Hnd as [|? ? Hnotin Hnd']; subst.
  - reflexivity.
  - exfalso. apply Hnotin. rewrite Hname. apply in_map. exact He'.
  - exfalso. apply Hnotin. rewrite <- Hname. apply in_map. exact He.
  - apply IH; assumption.
Qed.

Lemma NoDup_names_filter (p : Entry -> bool) (es : list Entry) :
  List.NoDup (map name es) -> List.NoDup (map name (List.filter p es)).
Proof.
  induction es as [|x es IH]; simpl; intros Hnd; [constructor|].
  inversion Hnd as [|? ? Hnotin Hnd']; subst.
  destruct (p x); simpl; [|apply IH; exact Hnd'].
  constructor; [|apply IH; exact Hnd'].
  intros Hin. apply Hnotin. apply in_map_iff in Hin as (e & Hname & He).
  apply filter_In in He as [He _]. rewrite <- Hname. apply in_map. exact He.
Qed.

Lemma filter_twice (p q : Entry -> bool) (es : list Entry) :
  List.filter p (List.filter q es) = List.filter (fun e => q e && p e) es.
Proof.
  induction es as [|x es IH]; simpl; [reflexivity|].
  destruct (q x); simpl; [destruct (p x)|]; rewrite IH; reflexivity.
Qed.

(** What the loop does to the directory when no [rmtree] fails: of the
    entries it is asked about, the expired ones go, everything else
    stays. *)
Lemma cleanup_loop_entries (cutoff_date : Z) :
  forall names st,
    List.NoDup (map name (entries st)) ->
    (forall e, In e (entries st) -> rmtree e = None) ->
    exists st',
      cleanup_loop cutoff_date names st = (Ok tt, st')
      /\ entries st' =
         List.filter (fun e => negb (expired cutoff_date e && named_in names e))
                     (entries st).
Proof.
  induction names as [|n names IH]; intros st Hnd Hrm.
  - exists st. split; [reflexivity|]. simpl.
    symmetry. apply forallb_filter_id. apply forallb_forall.
    intros e _. unfold named_in. simpl. rewrite andb_false_r. reflexivity.
  - simpl. destruct (lookup n (entries st)) as [e|] eqn:Hlook.
    + destruct (lookup_Some _ _ _ Hlook) as [Hin Hname].
      assert (Hsame : forall e', In e' (entries st) -> name e' = n -> e' = e).
      { intros e' Hin' Hname'. apply (unique_name (entries st)); try assumption.
        congruence. }
      destruct (is_dir e) eqn:Hdir; [destruct (ctime e <? cutoff_date)%Z eqn:Hold|].
      * rewrite (Hrm e Hin).
        destruct (IH (print ("Removed old backup: " ++ n)
                        {| entries := remove n (entries st); stdout := stdout st |}))
          as (st' & Hrun & Hent).
        { simpl. apply NoDup_names_filter. exact Hnd. }
        { simpl. intros e' He'. apply filter_In in He' as [He' _]. apply Hrm. exact He'. }
        exists st'. split; [exact Hrun|]. rewrite Hent. simpl. unfold remove.
        rewrite filter_twice. apply filter_ext_in. intros e' He'.
        unfold named_in. simpl.
        destruct (String.eqb (name e') n) eqn:Heq; simpl.
        -- apply String.eqb_eq in Heq. rewrite (Hsame e' He' Heq).
           unfold expired. rewrite Hdir, Hold. reflexivity.
        -- reflexivity.
      * destruct (IH st Hnd Hrm) as (st' & Hrun & Hent).
        exists st'. split; [exact Hrun|]. rewrite Hent.
        apply filter_ext_in. intros e' He'. unfold named_in. simpl.
        destruct (String.eqb (name e') n) eqn:Heq; simpl; [|reflexivity].
        apply String.eqb_eq in Heq. rewrite (Hsame e' He' Heq).
        unfold expired. rewrite Hdir, Hold. reflexivity.
      * destruct (IH st Hnd Hrm) as (st' & Hrun & Hent).
        exists st'. split; [exact Hrun|]. rewrite Hent.
        apply filter_ext_in. intros e' He'. unfold named_in. simpl.
        destruct (String.eqb (name e') n) eqn:Heq; simpl; [|reflexivity].
        apply String.eqb_eq in Heq. rewrite (Hsame e' He' Heq).
        unfold expired. rewrite Hdir. reflexivity.
    + destruct (IH st Hnd Hrm) as (st' & Hrun & Hent).
      exists st'. split; [exact Hrun|]. rewrite Hent.
      apply filter_ext_in. intros e' He'. unfold named_in. simpl.
      destruct (String.eqb (name e') n) eqn:Heq; simpl; [|reflexivity].
      apply String.eqb_eq in Heq. exfalso.
      exact (lookup_None _ _ _ Hlook He' Heq).
Qed.

(** The clean-up as the code has it: when no [rmtree] fails, what is left
    of the directory are the entries that are not directories with a
    [ctime] before [now - retention_days]; the method's value is [None]. *)
Lemma cleanup_by_ctime (now retention_days : Z) (st : State) :
  List.NoDup (map name (entries st)) ->
  (forall e, In e (entries st) -> rmtree e = None) ->
  let cutoff_date := (now - retention_days * microseconds_per_day)%Z in
  entries (snd (_cleanup_old_backups now retention_days st))
  = List.filter (fun e => negb (expired cutoff_date e)) (entries st).
Proof.
  intros Hnd Hrm cutoff_date. unfold _cleanup_old_backups. fold cutoff_date.
  destruct (cleanup_loop_entries cutoff_date (map name (entries st)) st Hnd Hrm)
    as (st' & Hrun & Hent).
  rewrite Hrun. simpl. rewrite Hent.
  apply filter_ext_in. intros e He.
  assert (Hnamed : named_in (map name (entries st)) e = true).
  { unfold named_in. apply existsb_exists. exists (name e).
    split; [apply in_map; exact He | apply String.eqb_refl]. }
  rewrite Hnamed, andb_true_r. reflexivity.
Qed.

(** C2. In [touched_backup] the directory [backup1] was last modified ten
    days before the clean-up runs with a retention of seven days, so it is
    older than the window by its modification time; its [ctime] is one
    day old.  The clean-up keeps it, prints nothing, and its value is
    [None]: there is no result listing deleted and kept names.  On
    [three_backups], where [ctime] and [mtime] agree, [backup1] is
    removed, and the value is [None] all the same. *)
Theorem cleanup_keeps_old_mtime_and_returns_nothing :
  (exists e, lookup "backup1" (entries touched_backup) = Some e
             /\ (mtime e < day 20 - 7 * microseconds_per_day)%Z)
  /\ _cleanup_old_backups (day 20) 7 touched_backup = (tt, touched_backup)
  /\ fst (_cleanup_old_backups (day 20) 7 three_backups) = tt
  /\ map name (entries (snd (_cleanup_old_backups (day 20) 7 three_backups)))
     = ["backup2"; "backup3"].
Proof.
  split_and!.
  - eexists. split; [reflexivity|]. vm_compute. reflexivity.
  - vm_compute. reflexivity.
  - reflexivity.
  - vm_compute. reflexivity.
Qed.

End BackupProofs.

(* ===================================================================== *)
(** * The benchmark harness: runs that succeed, and other edges *)
(* ===================================================================== *)

Module RunsProofs.
Import Benchmark Runs.

(* --------------------------------------------------------------------- *)
(** ** Minimum, mean and maximum *)

Lemma sum_from (xs : list Q) (a : Q) : fold_left Qplus xs a == a + Stats.sum xs.
Proof.
  unfold Stats.sum. revert a.
  induction xs as [|x xs IH]; intros a; simpl; [ring|].
  rewrite (IH (a + x)), (IH (0 + x)). ring.
Qed.

Lemma sum_cons (x : Q) (xs : list Q) : Stats.sum (x :: xs) == x + Stats.sum xs.
Proof. unfold Stats.sum at 1. simpl. rewrite sum_from. ring. Qed.

Lemma fold_min_le (xs : list Q) :
  forall m,
    let r := fold_left (fun m y => if QMicromega.Qlt_bool y m then y else m) xs m in
    r <= m /\ forall x, In x xs -> r <= x.
Proof.
  induction xs as [|y ys IH]; intros m; simpl.
  - split; [lra | tauto].
  - destruct (QMicromega.Qlt_bool y m) eqn:Hlt.
    + apply QMicromega.Qlt_bool_iff in Hlt.
      destruct (IH y) as [H1 H2]. split; [lra|].
      intros x [<- | Hx]; [exact H1 | exact (H2 x Hx)].
    + assert (Hge : m <= y).
      { destruct (Qlt_le_dec y m) as [Hc|Hc]; [|exact Hc].
        apply QMicromega.Qlt_bool_iff in Hc. congruence. }
      destruct (IH m) as [H1 H2]. split; [exact H1|].
      intros x [<- | Hx]; [lra | exact (H2 x Hx)].
Qed.

Lemma fold_max_ge (xs : list Q) :
  forall m,
    let r := fold_left (fun m y => if QMicromega.Qlt_bool m y then y else m) xs m in
    m <= r /\ forall x, In x xs -> x <= r.
Proof.
  induction xs as [|y ys IH]; intros m; simpl.
  - split; [lra | tauto].
  - destruct (QMicromega.Qlt_bool m y) eqn:Hlt.
    + apply QMicromega.Qlt_bool_iff in Hlt.
      destruct (IH y) as [H1 H2]. split; [lra|].
      intros x [<- | Hx]; [exact H1 | exact (H2 x Hx)].
    + assert (Hge : y <= m).
      { destruct (Qlt_le_dec m y) as [Hc|Hc]; [|exact Hc].
        apply QMicromega.Qlt_bool_iff in Hc. congruence. }
      destruct (IH m) as [H1 H2]. split; [exact H1|].
      intros x [<- | Hx]; [lra | exact (H2 x Hx)].
Qed.

Lemma min_is_lower_bound (xs : list Q) (m : Q) :
  Stats.min xs = Ok m -> forall x, In x xs -> m <= x.
Proof.
  destruct xs as [|a xs]; [discriminate|]. intros [= <-] x Hin.
  destruct (fold_min_le xs a) as [H1 H2].
  destruct Hin as [<- | Hx]; [exact H1 | exact (H2 x Hx)].
Qed.

Lemma max_is_upper_bound (xs : list Q) (m : Q) :
  Stats.max xs = Ok m -> forall x, In x xs -> x <= m.
Proof.
  destruct xs as [|a xs]; [discriminate|]. intros [= <-] x Hin.
  destruct (fold_max_ge xs a) as [H1 H2].
  destruct Hin as [<- | Hx]; [exact H1 | exact (H2 x Hx)].
Qed.

Lemma sum_between (xs : list Q) (lo hi : Q) :
  (forall x, In x xs -> lo <= x <= hi) ->
  lo * Stats.len xs <= Stats.sum xs <= hi * Stats.len xs.
Proof.
  induction xs as [|x xs IH]; intros Hb.
  - change (Stats.sum []) with 0. change (Stats.len []) with 0. lra.
  - rewrite sum_cons.
    assert (Hlen : Stats.len (x :: xs) == 1 + Stats.len xs).
    { unfold Stats.len. simpl length. rewrite Nat2Z.inj_succ, <- Z.add_1_l.
      rewrite inject_Z_plus. reflexivity. }
    rewrite Hlen.
    destruct (Hb x (or_introl eq_refl)) as [Hlo Hhi].
    destruct IH as [IHlo IHhi]; [intros y Hy; apply Hb; right; exact Hy|].
    split; lra.
Qed.

Lemma len_positive (x : Q) (xs : list Q) : 0 < Stats.len (x :: xs).
Proof.
  unfold Stats.len. replace 0 with (inject_Z 0) by reflexivity.
  rewrite <- Zlt_Qlt. simpl length. lia.
Qed.

(** The summary of a non-empty list of measurements: none of the three
    reductions raises, and minimum <= mean <= maximum. *)
Lemma summary_ordered (x : Q) (xs : list Q) :
  exists avg mn mx,
    Stats.mean (x :: xs) = Ok avg
    /\ Stats.min (x :: xs) = Ok mn
    /\ Stats.max (x :: xs) = Ok mx
    /\ mn <= avg <= mx
    /\ (forall d, In d (x :: xs) -> mn <= d <= mx).
Proof.
  destruct (Stats.min (x :: xs)) as [mn|] eqn:Hmin; [|discriminate].
  destruct (Stats.max (x :: xs)) as [mx|] eqn:Hmax; [|discriminate].
  exists (Stats.sum (x :: xs) / Stats.len (x :: xs)), mn, mx.
  assert (Hb : forall d, In d (x :: xs) -> mn <= d <= mx).
  { intros d Hd. split.
    - exact (min_is_lower_bound _ _ Hmin d Hd).
    - exact (max_is_upper_bound _ _ Hmax d Hd). }
  split_and!; try reflexivity; try exact Hb.
  - apply Qle_shift_div_l; [apply len_positive|]. apply (sum_between _ mn mx Hb).
  - apply Qle_shift_div_r; [apply len_positive|]. apply (sum_between _ mn mx Hb).
Qed.

(* --------------------------------------------------------------------- *)
(** ** Loops that run to their end *)

Lemma length_durations (env : Env) (n : nat) :
  forall t, length (durations env t n) = n.
Proof. induction n as [|n IH]; intros t; simpl; [reflexivity | rewrite IH; reflexivity]. Qed.

Lemma durations_nonnegative (env : Env) (n : nat) :
  clock_monotone env ->
  forall t d, In d (durations env t n) -> 0 <= d.
Proof.
  intros Hmono. induction n as [|n IH]; intros t d; simpl; [tauto|].
  intros [<- | Hd]; [|exact (IH _ _ Hd)].
  pose proof (Hmono t (S t) ltac:(lia)). lra.
Qed.

Lemma for_range_query_returns (env : Env) (q : string) :
  forall n acc w,
    (forall j, (j < n)%nat -> execution_returns env w q j) ->
    exists w',
      for_range n (timed_query env q) acc w
        = (Ok (acc ++ durations env (ticks w) n), w')
      /\ ticks w' = (ticks w + 2 * n)%nat
      /\ executed w' = executed w ++ repeat q n
      /\ fetched w' = (fetched w + n)%nat
      /\ called w' = called w.
Proof.
  induction n as [|n IH]; intros acc w Hok.
  - exists w. simpl. rewrite !app_nil_r. split_and!; try reflexivity; lia.
  - destruct (Hok 0%nat ltac:(lia)) as [He Hf]. rewrite !Nat.add_0_r in He, Hf.
    set (w1 := {| ticks := S (S (ticks w)); executed := executed w ++ [q];
                  fetched := S (fetched w); called := called w |}).
    set (d := (time_time env (S (ticks w)) - time_time env (ticks w)) * 1000).
    assert (Hstep : timed_query env q acc w = (Ok (acc ++ [d]), w1)).
    { unfold timed_query, bind, ret, time, execute, fetchall, may_raise. simpl.
      rewrite He. simpl. rewrite Hf. reflexivity. }
    destruct (IH (acc ++ [d]) w1) as (w' & Hrun & Ht & Hex & Hfe & Hca).
    { intros j Hj. destruct (Hok (S j) ltac:(lia)) as [He' Hf']. split.
      - rewrite <- He'. f_equal. subst w1. simpl. rewrite length_app. simpl. lia.
      - rewrite <- Hf'. f_equal. subst w1. simpl. lia. }
    exists w'. split_and!.
    + cbn [for_range]. unfold bind at 1. rewrite Hstep.
      rewrite Hrun. subst w1. cbn [ticks durations]. rewrite <- app_assoc. reflexivity.
    + rewrite Ht. subst w1. simpl. lia.
    + rewrite Hex. subst w1. simpl. rewrite <- app_assoc. reflexivity.
    + rewrite Hfe. subst w1. simpl. lia.
    + rewrite Hca. reflexivity.
Qed.

Lemma for_range_transaction_returns (env : Env) (tf : nat -> option string) :
  forall n acc w,
    (forall j, (j < n)%nat -> tf (called w + j)%nat = None) ->
    exists w',
      for_range n (timed_transaction env tf) acc w
        = (Ok (acc ++ durations env (ticks w) n), w')
      /\ ticks w' = (ticks w + 2 * n)%nat
      /\ executed w' = executed w
      /\ called w' = (called w + n)%nat.
Proof.
  induction n as [|n IH]; intros acc w Hok.
  - exists w. simpl. rewrite !app_nil_r. split_and!; try reflexivity; lia.
  - pose proof (Hok 0%nat ltac:(lia)) as H0. rewrite Nat.add_0_r in H0.
    set (w1 := {| ticks := S (S (ticks w)); executed := executed w;
                  fetched := fetched w; called := S (called w) |}).
    set (d := (time_time env (S (ticks w)) - time_time env (ticks w)) * 1000).
    assert (Hstep : timed_transaction env tf acc w = (Ok (acc ++ [d]), w1)).
    { unfold timed_transaction, bind, ret, time, call, may_raise. simpl.
      rewrite H0. reflexivity. }
    destruct (IH (acc ++ [d]) w1) as (w' & Hrun & Ht & Hex & Hca).
    { intros j Hj. rewrite <- (Hok (S j) ltac:(lia)). f_equal. subst w1. simpl. lia. }
    exists w'. split_and!.
    + cbn [for_range]. unfold bind at 1. rewrite Hstep.
      rewrite Hrun. subst w1. cbn [ticks durations]. rewrite <- app_assoc. reflexivity.
    + rewrite Ht. subst w1. simpl. lia.
    + rewrite Hex. reflexivity.
    + rewrite Hca. subst w1. simpl. lia.
Qed.

(** X1. When the cursor opens and closes and each of [n >= 1] executions
    returns, [run_single_query_test] reports no error and [n] iterations;
    it has passed the query to [cursor.execute] exactly [n] times and read
    the clock [2 n] times; the total is the sum of the measured durations,
    minimum <= average <= maximum, every measured duration lies between
    the reported minimum and maximum, and with a clock that never runs
    backwards the minimum is not negative. *)
Theorem single_query_success (env : Env) (q : string) (n : Z) (w : World) :
  connection_cursor env = None ->
  cursor_close env = None ->
  (0 < n)%Z ->
  (forall j, (j < Z.to_nat n)%nat -> execution_returns env w q j) ->
  let r := fst (run_single_query_test env q n w) in
  let w' := snd (run_single_query_test env q n w) in
  let measured := durations env (ticks w) (Z.to_nat n) in
  error r = None
  /\ iterations r = n
  /\ executed w' = executed w ++ repeat q (Z.to_nat n)
  /\ ticks w' = (ticks w + 2 * Z.to_nat n)%nat
  /\ total_time_ms r = Stats.sum measured
  /\ min_time_ms r <= avg_time_ms r <= max_time_ms r
  /\ (forall d, In d measured -> min_time_ms r <= d <= max_time_ms r)
  /\ (clock_monotone env -> 0 <= min_time_ms r).
Proof.
  intros Hc Hcl Hn Hok r w' measured.
  destruct (for_range_query_returns env q (Z.to_nat n) [] w Hok)
    as (w1 & Hrun & Ht & Hex & _ & _).
  simpl app in Hrun. fold measured in Hrun.
  destruct measured as [|d ds] eqn:Hm.
  { apply (f_equal (@length Q)) in Hm. subst measured.
    rewrite length_durations in Hm. simpl in Hm. lia. }
  destruct (summary_ordered d ds) as (avg & mn & mx & Havg & Hmn & Hmx & Hord & Hall).
  destruct (LoadProofs.stdev_or_zero_returns env (d :: ds)) as [sd Hsd].
  assert (Heq : run_single_query_test env q n w =
                ({| query := q; error := None; iterations := n;
                    avg_time_ms := avg; min_time_ms := mn; max_time_ms := mx;
                    std_dev_ms := sd; total_time_ms := Stats.sum (d :: ds) |}, w1)).
  { unfold run_single_query_test, try_except, bind at 1, cursor, lift.
    rewrite Hc. cbn [may_raise]. unfold bind at 1. rewrite Hrun.
    unfold bind, close, lift, ret. rewrite Hcl. cbn [may_raise].
    rewrite Havg, Hmn, Hmx, Hsd. reflexivity. }
  subst r w'. rewrite Heq. cbn [fst snd error iterations total_time_ms
    min_time_ms max_time_ms avg_time_ms].
  split_and!; try reflexivity; try assumption.
  - apply Hord.
  - apply Hord.
  - intros Hmono.
    assert (Hd : In mn (d :: ds)).
    { clear - Hmn. unfold Stats.min in Hmn. injection Hmn as <-.
      generalize d. induction ds as [|y ys IH]; intros m; simpl; [left; reflexivity|].
      destruct (QMicromega.Qlt_bool y m).
      - destruct (IH y) as [<- | H]; [right; left; reflexivity | right; right; exact H].
      - destruct (IH m) as [<- | H]; [left; reflexivity | right; right; exact H]. }
    rewrite <- Hm in Hd. exact (durations_nonnegative env _ Hmono _ _ Hd).
Qed.

Lemma single_query_success_witness :
  let r := fst (run_single_query_test steady "SELECT 1" 3 fresh) in
  let w' := snd (run_single_query_test steady "SELECT 1" 3 fresh) in
  let measured := durations steady (ticks fresh) (Z.to_nat 3) in
  error r = None
  /\ iterations r = 3%Z
  /\ executed w' = executed fresh ++ repeat "SELECT 1" (Z.to_nat 3)
  /\ ticks w' = (ticks fresh + 2 * Z.to_nat 3)%nat
  /\ total_time_ms r = Stats.sum measured
  /\ min_time_ms r <= avg_time_ms r <= max_time_ms r
  /\ (forall d, In d measured -> min_time_ms r <= d <= max_time_ms r)
  /\ (clock_monotone steady -> 0 <= min_time_ms r).
Proof.
  apply (single_query_success steady "SELECT 1" 3 fresh).
  - reflexivity.
  - reflexivity.
  - lia.
  - intros j _. split; reflexivity.
Defined.

(** X2. Asked for no iteration (a count of zero or below), with a cursor
    that opens and closes, [run_single_query_test] does nothing and
    reports it as an error: the result is the error result, with the
    message of [statistics.mean] on empty data, and the state is
    untouched.  [run_transaction_test] does the same, never calling the
    transaction function, and reports the count it was given. *)
Theorem no_iterations_is_an_error (env : Env) (q : string)
    (tf : nat -> option string) (n : Z) (w : World) :
  (n <= 0)%Z ->
  connection_cursor env = None ->
  cursor_close env = None ->
  run_single_query_test env q n w
  = (query_error q "mean requires at least one data point", w)
  /\ run_transaction_test env tf n w
     = (transaction_error n "mean requires at least one data point", w).
Proof.
  intros Hn Hc Hcl.
  assert (Hz : Z.to_nat n = 0%nat) by lia.
  split.
  - unfold run_single_query_test, try_except, bind, cursor, close, lift.
    rewrite Hz, Hc, Hcl. reflexivity.
  - unfold run_transaction_test, try_except, bind. rewrite Hz. reflexivity.
Qed.

Lemma no_iterations_is_an_error_witness :
  run_single_query_test steady "SELECT 1" (-2) fresh
  = (query_error "SELECT 1" "mean requires at least one data point", fresh)
  /\ run_transaction_test steady fails_second (-2) fresh
     = (transaction_error (-2) "mean requires at least one data point", fresh).
Proof.
  apply (no_iterations_is_an_error steady "SELECT 1" fails_second (-2) fresh).
  - lia.
  - reflexivity.
  - reflexivity.
Defined.

(** X3. When every execution returns but [cursor.close()] raises, all
    the measurements are dropped: the result is the error result with the
    message of [close], iterations 0 and zero summaries, although the
    query has been executed [n] times. *)
Theorem close_failure_discards_measurements (env : Env) (q : string) (n : Z)
    (w : World) (msg : string) :
  connection_cursor env = None ->
  cursor_close env = Some msg ->
  (forall j, (j < Z.to_nat n)%nat -> execution_returns env w q j) ->
  fst (run_single_query_test env q n w) = query_error q msg
  /\ executed (snd (run_single_query_test env q n w))
     = executed w ++ repeat q (Z.to_nat n).
Proof.
  intros Hc Hcl Hok.
  destruct (for_range_query_returns env q (Z.to_nat n) [] w Hok)
    as (w1 & Hrun & _ & Hex & _ & _).
  assert (Heq : run_single_query_test env q n w = (query_error q msg, w1)).
  { unfold run_single_query_test, try_except, bind at 1, cursor, lift.
    rewrite Hc. cbn [may_raise]. unfold bind at 1. rewrite Hrun.
    unfold bind, close, lift. rewrite Hcl. reflexivity. }
  rewrite Heq. split; [reflexivity | exact Hex].
Qed.

Lemma close_failure_discards_measurements_witness :
  fst (run_single_query_test close_fails "SELECT 1" 3 fresh)
    = query_error "SELECT 1" "connection lost"
  /\ executed (snd (run_single_query_test close_fails "SELECT 1" 3 fresh))
     = executed fresh ++ repeat "SELECT 1" (Z.to_nat 3).
Proof.
  apply (close_failure_discards_measurements close_fails "SELECT 1" 3 fresh
           "connection lost").
  - reflexivity.
  - reflexivity.
  - intros j _. split; reflexivity.
Defined.

(** X4. When each of [n >= 1] calls of the transaction function returns,
    [run_transaction_test] reports no error and [n] iterations, has
    called the function exactly [n] times and sent nothing to the
    database; the total is the sum of the measured durations and
    minimum <= average <= maximum. *)
Theorem transaction_success (env : Env) (tf : nat -> option string) (n : Z)
    (w : World) :
  (0 < n)%Z ->
  (forall j, (j < Z.to_nat n)%nat -> tf (called w + j)%nat = None) ->
  let r := fst (run_transaction_test env tf n w) in
  let w' := snd (run_transaction_test env tf n w) in
  t_error r = None
  /\ t_iterations r = n
  /\ called w' = (called w + Z.to_nat n)%nat
  /\ executed w' = executed w
  /\ t_total_time_ms r = Stats.sum (durations env (ticks w) (Z.to_nat n))
  /\ t_min_time_ms r <= t_avg_time_ms r <= t_max_time_ms r.
Proof.
  intros Hn Hok r w'.
  destruct (for_range_transaction_returns env tf (Z.to_nat n) [] w Hok)
    as (w1 & Hrun & _ & Hex & Hca).
  simpl app in Hrun.
  destruct (durations env (ticks w) (Z.to_nat n)) as [|d ds] eqn:Hm.
  { apply (f_equal (@length Q)) in Hm.
    rewrite length_durations in Hm. simpl in Hm. lia. }
  destruct (summary_ordered d ds) as (avg & mn & mx & Havg & Hmn & Hmx & Hord & _).
  destruct (LoadProofs.stdev_or_zero_returns env (d :: ds)) as [sd Hsd].
  assert (Heq : run_transaction_test env tf n w =
                ({| t_test_type := "custom_transaction"; t_iterations := n;
                    t_error := None;
                    t_avg_time_ms := avg; t_min_time_ms := mn; t_max_time_ms := mx;
                    t_std_dev_ms := sd; t_total_time_ms := Stats.sum (d :: ds) |}, w1)).
  { unfold run_transaction_test, try_except, bind at 1. rewrite Hrun.
    unfold bind, lift, ret. rewrite Havg, Hmn, Hmx, Hsd. reflexivity. }
  subst r w'. rewrite Heq. cbn [fst snd t_error t_iterations t_total_time_ms
    t_min_time_ms t_max_time_ms t_avg_time_ms].
  split_and!; try reflexivity; try assumption; apply Hord.
Qed.

Lemma transaction_success_witness :
  let r := fst (run_transaction_test steady (fun _ => None) 3 fresh) in
  let w' := snd (run_transaction_test steady (fun _ => None) 3 fresh) in
  t_error r = None
  /\ t_iterations r = 3%Z
  /\ called w' = (called fresh + Z.to_nat 3)%nat
  /\ executed w' = executed fresh
  /\ t_total_time_ms r = Stats.sum (durations steady (ticks fresh) (Z.to_nat 3))
  /\ t_min_time_ms r <= t_avg_time_ms r <= t_max_time_ms r.
Proof.
  apply (transaction_success steady (fun _ => None) 3 fresh).
  - lia.
  - intros j _. reflexivity.
Defined.

End RunsProofs.

(* ===================================================================== *)
(** * The trend analyzer: further properties *)
(* ===================================================================== *)

Module TrendMore.
Import Trend TrendCases.

(** Every field of a non-empty answer of [analyze_cpu_trends]. *)
Lemma analyze_cpu_trends_fields (libs : Libs) (df : DataFrame) (r : CpuTrend) :
  analyze_cpu_trends libs df = Some r ->
  let data := sort_values (rows df) in
  let cpu := map cpu_percent data in
  exists model,
    fit libs (arange 0 (length data)) cpu = Ok model
    /\ rows df <> []
    /\ r = {| trend_slope := coef_0 model;
              r_squared := score model (arange 0 (length data)) cpu;
              current_avg := series_mean cpu;
              predicted_values :=
                predict model (arange (length data) (length data + 10));
              anomalies := length (anomaly_rows data);
              anomaly_percentage :=
                (inject_Z (Z.of_nat (length (anomaly_rows data)))
                 / inject_Z (Z.of_nat (length data))) * 100;
              ma_5 := last_or_zero (rolling_mean 5 cpu);
              ma_10 := last_or_zero (rolling_mean 10 cpu) |}.
Proof.
  unfold analyze_cpu_trends.
  destruct (has_column "cpu_percent" df); simpl; [|discriminate].
  destruct (empty df) eqn:He; [discriminate|].
  destruct (has_column "timestamp" df); simpl; [|discriminate].
  destruct (fit libs _ _) as [model|] eqn:Hfit; [|discriminate].
  intros [= <-]. exists model. split_and!; try reflexivity.
  intros Hr. unfold empty in He. rewrite Hr in He. discriminate.
Qed.

(** X5. Whenever [analyze_cpu_trends] answers for a table of at least
    five rows taken at distinct times, [ma_5] is the mean of the last five
    CPU values in time order; with at least ten rows, [ma_10] is the mean
    of the last ten. *)
Theorem moving_average_of_last_window (libs : Libs) (df : DataFrame) (r : CpuTrend) :
  List.NoDup (map timestamp (rows df)) ->
  analyze_cpu_trends libs df = Some r ->
  let cpu := map cpu_percent (sort_values (rows df)) in
  let recent := fun window => skipn (length cpu - window) cpu in
  ((5 <= length (rows df))%nat ->
   length (recent 5%nat) = 5%nat
   /\ ma_5 r = Some (Stats.sum (recent 5%nat) / Stats.len (recent 5%nat)))
  /\ ((10 <= length (rows df))%nat ->
      length (recent 10%nat) = 10%nat
      /\ ma_10 r = Some (Stats.sum (recent 10%nat) / Stats.len (recent 10%nat))).
Proof.
  intros _ Hr cpu recent.
  destruct (analyze_cpu_trends_fields libs df r Hr) as (model & _ & _ & ->).
  cbn [ma_5 ma_10]. fold cpu.
  assert (Hlen : length cpu = length (rows df)).
  { subst cpu. rewrite length_map. apply TrendProofs.length_sort_values. }
  clearbody cpu. subst recent. cbv beta.
  split; intros Hw; (split; [rewrite length_skipn; lia|]);
    apply TrendProofs.rolling_mean_last; lia.
Qed.

Lemma moving_average_of_last_window_witness :
  exists r,
    analyze_cpu_trends reference_libs outlier_series = Some r
    /\ ma_5 r = Some (Stats.sum (skipn 6 (map cpu_percent
                                            (sort_values (rows outlier_series))))
                      / Stats.len (skipn 6 (map cpu_percent
                                              (sort_values (rows outlier_series)))))
    /\ ma_10 r = Some (Stats.sum (skipn 1 (map cpu_percent
                                             (sort_values (rows outlier_series))))
                       / Stats.len (skipn 1 (map cpu_percent
                                               (sort_values (rows outlier_series))))).
Proof.
  assert (Hsome : match analyze_cpu_trends reference_libs outlier_series with
                  | Some _ => true
                  | None => false
                  end = true) by (vm_compute; reflexivity).
  destruct (analyze_cpu_trends reference_libs outlier_series) as [r|] eqn:Hr;
    [|discriminate Hsome].
  exists r. split; [reflexivity|].
  assert (Hdistinct : List.NoDup (map timestamp (rows outlier_series))).
  { cbn. repeat constructor; cbn; intuition discriminate. }
  destruct (moving_average_of_last_window reference_libs outlier_series r Hdistinct Hr)
    as (H5 & H10).
  split.
  - apply H5. simpl. lia.
  - apply H10. simpl. lia.
Defined.

(** X6. Whenever [analyze_cpu_trends] answers, the number of anomalies is
    at most the number of samples and the anomaly percentage lies
    between 0 and 100. *)
Theorem anomaly_percentage_in_range (libs : Libs) (df : DataFrame) (r : CpuTrend) :
  analyze_cpu_trends libs df = Some r ->
  (anomalies r <= length (rows df))%nat
  /\ 0 <= anomaly_percentage r <= 100.
Proof.
  intros Hr.
  destruct (analyze_cpu_trends_fields libs df r Hr) as (model & _ & Hne & ->).
  cbn [anomalies anomaly_percentage].
  set (data := sort_values (rows df)).
  assert (Hlen : length data = length (rows df))
    by apply TrendProofs.length_sort_values.
  assert (Hle : (length (anomaly_rows data) <= length data)%nat).
  { unfold anomaly_rows. apply filter_length_le. }
  assert (Hpos : (0 < length data)%nat).
  { rewrite Hlen. destruct (rows df); [contradiction | simpl; lia]. }
  split; [lia|].
  set (a := inject_Z (Z.of_nat (length (anomaly_rows data)))).
  set (n := inject_Z (Z.of_nat (length data))).
  assert (Ha : 0 <= a).
  { subst a. replace 0 with (inject_Z 0) by reflexivity. rewrite <- Zle_Qle. lia. }
  assert (Hn : 0 < n).
  { subst n. replace 0 with (inject_Z 0) by reflexivity. rewrite <- Zlt_Qlt. lia. }
  assert (Han : a <= n).
  { subst a n. rewrite <- Zle_Qle. lia. }
  clearbody a n.
  assert (Hq0 : 0 <= a / n) by (apply Qle_shift_div_l; [exact Hn | lra]).
  assert (Hq1 : a / n <= 1) by (apply Qle_shift_div_r; [exact Hn | lra]).
  split; lra.
Qed.

Lemma anomaly_percentage_in_range_witness :
  exists r,
    analyze_cpu_trends reference_libs outlier_series = Some r
    /\ (anomalies r <= length (rows outlier_series))%nat
    /\ 0 <= anomaly_percentage r <= 100.
Proof.
  assert (Hsome : match analyze_cpu_trends reference_libs outlier_series with
                  | Some _ => true
                  | None => false
                  end = true) by (vm_compute; reflexivity).
  destruct (analyze_cpu_trends reference_libs outlier_series) as [r|] eqn:Hr;
    [|discriminate Hsome].
  exists r. split; [reflexivity|].
  exact (anomaly_percentage_in_range reference_libs outlier_series r Hr).
Defined.

(* --------------------------------------------------------------------- *)
(** ** Memory and disk *)

Lemma analyze_memory_trends_fields (libs : Libs) (df : DataFrame) (r : MemoryTrend) :
  analyze_memory_trends libs df = Some r ->
  let memory := map memory_percent (sort_values (rows df)) in
  let growth_rate := growth (fst (halves memory)) (snd (halves memory)) in
  List.last (map Some memory) None = Some (m_current_usage r)
  /\ m_growth_rate r = growth_rate
  /\ time_to_exhaustion r = time_to_threshold growth_rate (m_current_usage r).
Proof.
  unfold analyze_memory_trends.
  destruct (has_column "memory_percent" df); simpl; [|discriminate].
  destruct (empty df); [discriminate|].
  destruct (has_column "timestamp" df); simpl; [|discriminate].
  destruct (List.last _ None) as [current|] eqn:Hlast; [|discriminate].
  intros [= <-]. cbn [m_current_usage m_growth_rate time_to_exhaustion].
  unfold halves. rewrite !length_map. split_and!; reflexivity.
Qed.

Lemma analyze_disk_trends_fields (df : DataFrame) (r : DiskTrend) :
  analyze_disk_trends df = Some r ->
  let disk := map disk_percent (sort_values (rows df)) in
  let growth_rate := growth (fst (halves disk)) (snd (halves disk)) in
  List.last (map Some disk) None = Some (d_current_usage r)
  /\ d_growth_rate r = growth_rate
  /\ time_to_full r = time_to_threshold growth_rate (d_current_usage r)
  /\ trend_direction r =
       (if gt growth_rate 0 then "increasing"
        else if lt growth_rate 0 then "decreasing" else "stable").
Proof.
  unfold analyze_disk_trends.
  destruct (has_column "disk_percent" df); simpl; [|discriminate].
  destruct (empty df); [discriminate|].
  destruct (has_column "timestamp" df); simpl; [|discriminate].
  destruct (List.last _ None) as [current|] eqn:Hlast; [|discriminate].
  intros [= <-]. cbn [d_current_usage d_growth_rate time_to_full trend_direction].
  unfold halves. rewrite !length_map. split_and!; reflexivity.
Qed.

(** X7. Whenever [analyze_disk_trends] answers, the trend direction is
    "increasing" exactly when the growth rate reported is above 0,
    "decreasing" exactly when it is below 0, and "stable" otherwise (a
    rate of zero, or one that is not a number); and [time_to_full] is
    present exactly when the direction is "increasing". *)
Theorem disk_direction_follows_growth (df : DataFrame) (r : DiskTrend) :
  analyze_disk_trends df = Some r ->
  (trend_direction r = "increasing"
   <-> exists g, d_growth_rate r = Some g /\ 0 < g)
  /\ (trend_direction r = "decreasing"
      <-> exists g, d_growth_rate r = Some g /\ g < 0)
  /\ (trend_direction r = "stable"
      <-> ~ exists g, d_growth_rate r = Some g /\ (0 < g \/ g < 0))
  /\ (time_to_full r <> None <-> trend_direction r = "increasing").
Proof.
  intros Hr.
  destruct (analyze_disk_trends_fields df r Hr) as (_ & Hg & Ht & Hd).
  rewrite Hd, Ht, Hg. clear Hd Ht Hg.
  destruct (growth _ _) as [g|]; unfold time_to_threshold, gt, lt.
  - destruct (QMicromega.Qlt_bool 0 g) eqn:Hpos.
    + apply QMicromega.Qlt_bool_iff in Hpos.
      split_and!; split; try discriminate; try reflexivity.
      * intros _. exists g. split; [reflexivity | exact Hpos].
      * intros (g' & [= <-] & Hneg). lra.
      * intros H. exfalso. apply H. exists g. split; [reflexivity | left; exact Hpos].
    + assert (Hle : g <= 0).
      { destruct (Qlt_le_dec 0 g) as [Hc|Hc]; [|exact Hc].
        apply QMicromega.Qlt_bool_iff in Hc. congruence. }
      destruct (QMicromega.Qlt_bool g 0) eqn:Hneg.
      * apply QMicromega.Qlt_bool_iff in Hneg.
        split_and!; split; try discriminate; try reflexivity; try congruence.
        -- intros (g' & [= <-] & Hp). lra.
        -- intros _. exists g. split; [reflexivity | exact Hneg].
        -- intros H. exfalso. apply H. exists g. split; [reflexivity | right; exact Hneg].
      * assert (Hge : 0 <= g).
        { destruct (Qlt_le_dec g 0) as [Hc|Hc]; [|exact Hc].
          apply QMicromega.Qlt_bool_iff in Hc. congruence. }
        split_and!; split; try discriminate; try reflexivity; try congruence.
        -- intros (g' & [= <-] & Hp). lra.
        -- intros (g' & [= <-] & Hn). lra.
        -- intros _ (g' & [= <-] & [Hp|Hn]); lra.
  - split_and!; split; try discriminate; try reflexivity; try congruence.
    + intros (g' & Hg' & _). discriminate Hg'.
    + intros (g' & Hg' & _). discriminate Hg'.
    + intros _ (g' & Hg' & _). discriminate Hg'.
Qed.

Lemma disk_direction_follows_growth_witness :
  exists r,
    analyze_disk_trends rising = Some r
    /\ (trend_direction r = "increasing"
        <-> exists g, d_growth_rate r = Some g /\ 0 < g)
    /\ (time_to_full r <> None <-> trend_direction r = "increasing").
Proof.
  remember (analyze_disk_trends rising) as o eqn:Ho.
  assert (Hrun : match o with Some _ => true | None => false end = true)
    by (rewrite Ho; vm_compute; reflexivity).
  symmetry in Ho.
  destruct o as [r|]; [|discriminate Hrun].
  destruct (disk_direction_follows_growth rising r Ho) as (Hinc & _ & _ & Ht).
  exists r. split_and!; [reflexivity | exact Hinc | exact Ht].
Defined.

(** X8. The risk level reflects an imminent limit.  Whenever
    [analyze_memory_trends] answers with a time to exhaustion that is not
    zero and lies below 24, [_assess_memory_risk] of the answer is "high",
    and below 72 it is not "low"; likewise for [analyze_disk_trends] and
    [_assess_disk_risk].  (A time of exactly 0 is falsy in the test
    [t and t < 24]: for it only the usage thresholds count.) *)
Theorem risk_reflects_time_to_limit (libs : Libs) (df : DataFrame) :
  (forall r t, analyze_memory_trends libs df = Some r ->
               time_to_exhaustion r = Some t ->
               ~ t == 0 ->
               (t < 24 -> _assess_memory_risk r = "high")
               /\ (t < 72 -> _assess_memory_risk r <> "low"))
  /\ (forall r t, analyze_disk_trends df = Some r ->
                  time_to_full r = Some t ->
                  ~ t == 0 ->
                  (t < 24 -> _assess_disk_risk r = "high")
                  /\ (t < 72 -> _assess_disk_risk r <> "low")).
Proof.
  assert (Htruthy : forall t limit,
             ~ t == 0 -> t < limit -> truthy_and_below (Some t) limit = true).
  { intros t limit Hnz Hlt. unfold truthy_and_below.
    destruct (Qeq_bool t 0) eqn:Hz; [apply Qeq_bool_iff in Hz; contradiction|].
    apply QMicromega.Qlt_bool_iff in Hlt. rewrite Hlt. reflexivity. }
  split; intros r t Hr Ht Hnz.
  - unfold _assess_memory_risk. rewrite Ht. split; intros Hlt.
    + rewrite (Htruthy t 24 Hnz Hlt), orb_true_r. reflexivity.
    + rewrite (Htruthy t 72 Hnz Hlt), orb_true_r.
      destruct (_ || _); discriminate.
  - unfold _assess_disk_risk. rewrite Ht. split; intros Hlt.
    + rewrite (Htruthy t 24 Hnz Hlt), orb_true_r. reflexivity.
    + rewrite (Htruthy t 72 Hnz Hlt), orb_true_r.
      destruct (_ || _); discriminate.
Qed.

Lemma risk_reflects_time_to_limit_witness :
  exists r t,
    analyze_memory_trends reference_libs surging = Some r
    /\ time_to_exhaustion r = Some t
    /\ ~ t == 0
    /\ t < 24
    /\ _assess_memory_risk r = "high".
Proof.
  remember (analyze_memory_trends reference_libs surging) as o eqn:Ho.
  assert (Hrun : match o with
                 | Some r => match time_to_exhaustion r with
                             | Some t => QMicromega.Qlt_bool t 24
                                         && QMicromega.Qlt_bool 0 t
                             | None => false
                             end
                 | None => false
                 end = true) by (rewrite Ho; vm_compute; reflexivity).
  symmetry in Ho.
  destruct o as [r|]; [|discriminate Hrun].
  destruct (time_to_exhaustion r) as [t|] eqn:Ht; [|discriminate Hrun].
  apply andb_true_iff in Hrun as [Hlt Hpos].
  apply QMicromega.Qlt_bool_iff in Hlt. apply QMicromega.Qlt_bool_iff in Hpos.
  assert (Hnz : ~ t == 0) by (intros Hz; rewrite Hz in Hpos; lra).
  exists r, t. split_and!; [reflexivity | exact Ht | exact Hnz | exact Hlt |].
  destruct (risk_reflects_time_to_limit reference_libs surging) as [Hm _].
  destruct (Hm r t Ho Ht Hnz) as [Hhigh _]. exact (Hhigh Hlt).
Defined.

(* --------------------------------------------------------------------- *)
(** ** Predictions *)

Lemma capped_usage_at_most_100 (current : Q) (growth_rate : option Q) (days_ahead : Z) :
  exists v, capped_usage current growth_rate days_ahead = Some v /\ v <= 100.
Proof.
  unfold capped_usage. destruct growth_rate as [g|].
  - destruct (QMicromega.Qlt_bool (current + g * inject_Z days_ahead) 100) eqn:Hlt.
    + apply QMicromega.Qlt_bool_iff in Hlt. eexists. split; [reflexivity | lra].
    + exists 100. split; [reflexivity | lra].
  - exists 100. split; [reflexivity | lra].
Qed.

Lemma analyze_memory_trends_answers (libs : Libs) (df : DataFrame) :
  rows df <> [] ->
  (analyze_memory_trends libs df <> None
   <-> has_column "memory_percent" df = true /\ has_column "timestamp" df = true).
Proof.
  intros Hrows. unfold analyze_memory_trends.
  destruct (has_column "memory_percent" df) eqn:Hc; simpl;
    [|split; [congruence | intros [? _]; discriminate]].
  rewrite (TrendProofs.has_column_not_empty _ _ Hc Hrows).
  destruct (has_column "timestamp" df); simpl;
    [|split; [congruence | intros [_ ?]; discriminate]].
  destruct (TrendProofs.last_sorted_Some (rows df) memory_percent Hrows) as [c ->].
  split; [tauto | discriminate].
Qed.

Lemma analyze_disk_trends_answers (df : DataFrame) :
  rows df <> [] ->
  (analyze_disk_trends df <> None
   <-> has_column "disk_percent" df = true /\ has_column "timestamp" df = true).
Proof.
  intros Hrows. unfold analyze_disk_trends.
  destruct (has_column "disk_percent" df) eqn:Hc; simpl;
    [|split; [congruence | intros [? _]; discriminate]].
  rewrite (TrendProofs.has_column_not_empty _ _ Hc Hrows).
  destruct (has_column "timestamp" df); simpl;
    [|split; [congruence | intros [_ ?]; discriminate]].
  destruct (TrendProofs.last_sorted_Some (rows df) disk_percent Hrows) as [c ->].
  split; [tauto | discriminate].
Qed.

(** X9. For a table with rows, [predict_future_performance] has a memory
    entry exactly when the table has the columns [memory_percent] and
    [timestamp], and a disk entry exactly when it has [disk_percent] and
    [timestamp]; a CPU entry needs [cpu_percent].  Every predicted usage
    it reports is a number not above 100. *)
Theorem predictions_complete_and_capped (libs : Libs) (df : DataFrame) (days_ahead : Z) :
  rows df <> [] ->
  let p := predict_future_performance libs df days_ahead in
  (memory p <> None
   <-> has_column "memory_percent" df = true /\ has_column "timestamp" df = true)
  /\ (disk p <> None
      <-> has_column "disk_percent" df = true /\ has_column "timestamp" df = true)
  /\ (cpu p <> None -> has_column "cpu_percent" df = true)
  /\ (forall u, memory p = Some u \/ disk p = Some u ->
                exists v, predicted_usage u = Some v /\ v <= 100).
Proof.
  intros Hrows p. subst p. unfold predict_future_performance.
  destruct (empty df) eqn:He.
  { (* no column at all *)
    assert (Hcols : columns df = []).
    { unfold empty in He. destruct (rows df); [contradiction|].
      destruct (columns df); [reflexivity | discriminate]. }
    unfold has_column. rewrite Hcols. simpl.
    split_and!; try (split; [congruence | intros [? _]; discriminate]);
      try congruence.
    intros u [H | H]; discriminate. }
  cbn [memory disk cpu].
  split_and!.
  - rewrite <- (analyze_memory_trends_answers libs df Hrows).
    destruct (analyze_memory_trends libs df); split; congruence.
  - rewrite <- (analyze_disk_trends_answers df Hrows).
    destruct (analyze_disk_trends df); split; congruence.
  - unfold analyze_cpu_trends.
    destruct (has_column "cpu_percent" df); [reflexivity|]. simpl. congruence.
  - intros u [H | H].
    + destruct (analyze_memory_trends libs df) as [m|]; [|discriminate].
      injection H as <-. cbn [predicted_usage]. apply capped_usage_at_most_100.
    + destruct (analyze_disk_trends df) as [d|]; [|discriminate].
      injection H as <-. cbn [predicted_usage]. apply capped_usage_at_most_100.
Qed.

Lemma predictions_complete_and_capped_witness :
  let p := predict_future_performance reference_libs rising 7 in
  (memory p <> None
   <-> has_column "memory_percent" rising = true /\ has_column "timestamp" rising = true)
  /\ (disk p <> None
      <-> has_column "disk_percent" rising = true /\ has_column "timestamp" rising = true)
  /\ (cpu p <> None -> has_column "cpu_percent" rising = true)
  /\ (forall u, memory p = Some u \/ disk p = Some u ->
                exists v, predicted_usage u = Some v /\ v <= 100).
Proof.
  apply (predictions_complete_and_capped reference_libs rising 7). discriminate.
Defined.

(* --------------------------------------------------------------------- *)
(** ** The order of the rows *)

Lemma in_insert_by_timestamp (x z : Sample) (xs : list Sample) :
  In z (insert_by_timestamp x xs) <-> z = x \/ In z xs.
Proof.
  induction xs as [|y ys IH]; simpl; [intuition congruence|].
  destruct (timestamp x <=? timestamp y)%Z; simpl; [intuition congruence|].
  rewrite IH. intuition congruence.
Qed.

Lemma insert_by_timestamp_permutation (x : Sample) (xs : list Sample) :
  Permutation (insert_by_timestamp x xs) (x :: xs).
Proof.
  induction xs as [|y ys IH]; simpl; [reflexivity|].
  destruct (timestamp x <=? timestamp y)%Z; [reflexivity|].
  rewrite IH. apply perm_swap.
Qed.

Lemma sort_values_permutation (xs : list Sample) :
  Permutation (sort_values xs) xs.
Proof.
  induction xs as [|x xs IH]; simpl; [reflexivity|].
  rewrite insert_by_timestamp_permutation, IH. reflexivity.
Qed.

Lemma insert_by_timestamp_sorted (x : Sample) (xs : list Sample) :
  StronglySorted by_timestamp xs ->
  StronglySorted by_timestamp (insert_by_timestamp x xs).
Proof.
  induction 1 as [|y ys Hs IH Hall]; simpl.
  - constructor; constructor.
  - destruct (timestamp x <=? timestamp y)%Z eqn:Hle.
    + apply Z.leb_le in Hle. constructor; [constructor; assumption|].
      constructor; [exact Hle|].
      rewrite List.Forall_forall in *. intros z Hz. specialize (Hall z Hz).
      unfold by_timestamp in *. lia.
    + apply Z.leb_gt in Hle. constructor; [exact IH|].
      rewrite List.Forall_forall in *. intros z Hz.
      apply in_insert_by_timestamp in Hz as [-> | Hz].
      * unfold by_timestamp. lia.
      * exact (Hall z Hz).
Qed.

Lemma sort_values_sorted (xs : list Sample) :
  StronglySorted by_timestamp (sort_values xs).
Proof.
  induction xs as [|x xs IH]; simpl; [constructor|].
  apply insert_by_timestamp_sorted. exact IH.
Qed.

Lemma sorted_permutation_unique (l1 : list Sample) :
  forall l2,
    StronglySorted by_timestamp l1 ->
    StronglySorted by_timestamp l2 ->
    Permutation l1 l2 ->
    List.NoDup (map timestamp l1) ->
    l1 = l2.
Proof.
  induction l1 as [|a l1 IH]; intros l2 Hs1 Hs2 Hp Hnd.
  - apply Permutation_nil in Hp. congruence.
  - destruct l2 as [|b l2].
    { apply Permutation_sym, Permutation_nil in Hp. discriminate. }
    inversion Hs1 as [|? ? Hs1' Hall1]; subst.
    inversion Hs2 as [|? ? Hs2' Hall2]; subst.
    inversion Hnd as [|? ? Hnotin Hnd']; subst.
    assert (Hab : a = b).
    { assert (Ha : In a (b :: l2)) by (apply (Permutation_in _ Hp); left; reflexivity).
      assert (Hb : In b (a :: l1))
        by (apply (Permutation_in _ (Permutation_sym Hp)); left; reflexivity).
      destruct Ha as [Ha | Ha]; [congruence|].
      destruct Hb as [Hb | Hb]; [congruence|].
      rewrite List.Forall_forall in Hall1, Hall2.
      pose proof (Hall1 b Hb) as H1. pose proof (Hall2 a Ha) as H2.
      unfold by_timestamp in H1, H2.
      exfalso. apply Hnotin.
      replace (timestamp a) with (timestamp b) by lia.
      apply in_map. exact Hb. }
    subst b. f_equal. apply IH; try assumption.
    exact (Permutation_cons_inv Hp).
Qed.

Lemma sort_values_order_independent (xs ys : list Sample) :
  Permutation xs ys ->
  List.NoDup (map timestamp xs) ->
  sort_values xs = sort_values ys.
Proof.
  intros Hp Hnd. apply sorted_permutation_unique.
  - apply sort_values_sorted.
  - apply sort_values_sorted.
  - rewrite !sort_values_permutation. exact Hp.
  - apply (Permutation_NoDup (l := map timestamp xs)); [|exact Hnd].
    apply Permutation_map. symmetry. apply sort_values_permutation.
Qed.

(** X10. The analysis does not depend on the order in which the rows are
    given: two tables with the same columns whose rows are permutations of
    each other, with no timestamp occurring twice, get the same answer
    from [analyze_cpu_trends], [analyze_memory_trends],
    [analyze_disk_trends] and [predict_future_performance]. *)
Theorem analysis_independent_of_row_order (libs : Libs) (df1 df2 : DataFrame)
    (days_ahead : Z) :
  columns df1 = columns df2 ->
  Permutation (rows df1) (rows df2) ->
  List.NoDup (map timestamp (rows df1)) ->
  analyze_cpu_trends libs df1 = analyze_cpu_trends libs df2
  /\ analyze_memory_trends libs df1 = analyze_memory_trends libs df2
  /\ analyze_disk_trends df1 = analyze_disk_trends df2
  /\ predict_future_performance libs df1 days_ahead
     = predict_future_performance libs df2 days_ahead.
Proof.
  intros Hcols Hp Hnd.
  pose proof (sort_values_order_independent _ _ Hp Hnd) as Hsort.
  assert (Hcol : forall c, has_column c df1 = has_column c df2).
  { intros c. unfold has_column. rewrite Hcols. reflexivity. }
  assert (Hempty : empty df1 = empty df2).
  { unfold empty. rewrite Hcols.
    destruct (rows df1) as [|a l1], (rows df2) as [|b l2]; try reflexivity.
    - apply Permutation_nil in Hp. discriminate.
    - apply Permutation_sym, Permutation_nil in Hp. discriminate. }
  assert (Hcpu : analyze_cpu_trends libs df1 = analyze_cpu_trends libs df2).
  { unfold analyze_cpu_trends. rewrite !Hcol, Hempty, Hsort. reflexivity. }
  assert (Hmem : analyze_memory_trends libs df1 = analyze_memory_trends libs df2).
  { unfold analyze_memory_trends. rewrite !Hcol, Hempty, Hsort. reflexivity. }
  assert (Hdisk : analyze_disk_trends df1 = analyze_disk_trends df2).
  { unfold analyze_disk_trends. rewrite !Hcol, Hempty, Hsort. reflexivity. }
  split_and!; try assumption.
  unfold predict_future_performance. rewrite Hempty, Hcpu, Hmem, Hdisk. reflexivity.
Qed.

Lemma analysis_independent_of_row_order_witness :
  analyze_cpu_trends reference_libs rising = analyze_cpu_trends reference_libs rising_shuffled
  /\ analyze_memory_trends reference_libs rising
     = analyze_memory_trends reference_libs rising_shuffled
  /\ analyze_disk_trends rising = analyze_disk_trends rising_shuffled
  /\ predict_future_performance reference_libs rising 7
     = predict_future_performance reference_libs rising_shuffled 7.
Proof.
  apply (analysis_independent_of_row_order reference_libs rising rising_shuffled 7).
  - reflexivity.
  - unfold rising, rising_shuffled. cbn [rows].
    apply Permutation_sym.
    eapply perm_trans; [apply Permutation_cons_append|]. cbn [app].
    apply perm_skip. apply perm_swap.
  - cbn. repeat constructor; cbn; intuition discriminate.
Defined.

(* --------------------------------------------------------------------- *)
(** ** The current value *)

Lemma sorted_last_is_greatest (l : list Sample) (s : Sample) :
  StronglySorted by_timestamp (l ++ [s]) ->
  forall z, In z (l ++ [s]) -> (timestamp z <= timestamp s)%Z.
Proof.
  induction l as [|a l IH]; simpl; intros Hs z Hz.
  - destruct Hz as [<- | []]. lia.
  - inversion Hs as [|? ? Hs' Hall]; subst.
    destruct Hz as [<- | Hz]; [|exact (IH Hs' z Hz)].
    rewrite List.Forall_forall in Hall.
    apply (Hall s). apply in_or_app. right. left. reflexivity.
Qed.

Lemma last_of_sorted (xs : list Sample) (f : Sample -> Q) (current : Q) :
  List.last (map Some (map f (sort_values xs))) None = Some current ->
  exists s, In s xs /\ current = f s
            /\ forall z, In z xs -> (timestamp z <= timestamp s)%Z.
Proof.
  intros Hlast.
  pose proof (sort_values_sorted xs) as Hsorted.
  pose proof (sort_values_permutation xs) as Hperm.
  destruct (sort_values xs) as [|a l] eqn:Hsort using rev_ind; [discriminate|].
  clear IHl. rewrite !map_app in Hlast. cbn [map] in Hlast.
  rewrite last_last in Hlast. injection Hlast as <-.
  exists a. split_and!.
  - apply (Permutation_in _ Hperm). apply in_or_app. right. left. reflexivity.
  - reflexivity.
  - intros z Hz. apply (sorted_last_is_greatest l a Hsorted).
    apply (Permutation_in _ (Permutation_sym Hperm)). exact Hz.
Qed.

(** X11. The current usage that [analyze_memory_trends] and
    [analyze_disk_trends] report is the value of a row whose timestamp is
    the latest in the table, wherever that row stands in the table. *)
Theorem current_usage_is_latest_sample (libs : Libs) (df : DataFrame) :
  (forall r, analyze_memory_trends libs df = Some r ->
     exists s, In s (rows df) /\ m_current_usage r = memory_percent s
               /\ forall z, In z (rows df) -> (timestamp z <= timestamp s)%Z)
  /\ (forall r, analyze_disk_trends df = Some r ->
        exists s, In s (rows df) /\ d_current_usage r = disk_percent s
                  /\ forall z, In z (rows df) -> (timestamp z <= timestamp s)%Z).
Proof.
  split; intros r Hr.
  - destruct (analyze_memory_trends_fields libs df r Hr) as (Hlast & _).
    exact (last_of_sorted _ _ _ Hlast).
  - destruct (analyze_disk_trends_fields df r Hr) as (Hlast & _).
    exact (last_of_sorted _ _ _ Hlast).
Qed.

Lemma current_usage_is_latest_sample_witness :
  exists r s,
    analyze_memory_trends reference_libs rising_shuffled = Some r
    /\ In s (rows rising_shuffled)
    /\ m_current_usage r = memory_percent s
    /\ forall z, In z (rows rising_shuffled) -> (timestamp z <= timestamp s)%Z.
Proof.
  remember (analyze_memory_trends reference_libs rising_shuffled) as o eqn:Ho.
  assert (Hrun : match o with Some _ => true | None => false end = true)
    by (rewrite Ho; vm_compute; reflexivity).
  symmetry in Ho.
  destruct o as [r|]; [|discriminate Hrun].
  destruct (current_usage_is_latest_sample reference_libs rising_shuffled) as [Hm _].
  destruct (Hm r Ho) as (s & Hin & Hcur & Hmax).
  exists r, s. split_and!; [reflexivity | exact Hin | exact Hcur | exact Hmax].
Defined.

End TrendMore.

(* ===================================================================== *)
(** * The backup clean-up: further properties *)
(* ===================================================================== *)

Module BackupMore.
Import Backup BackupCases.

Section Loop.
Variable cutoff_date : Z.

Lemma lookup_past (n : string) (done : list Entry) (e : Entry) (rest : list Entry) :
  (forall d, In d done -> name d <> n) ->
  name e = n ->
  lookup n (done ++ e :: rest) = Some e.
Proof.
  intros Hdone He. unfold lookup.
  induction done as [|d done IH]; simpl.
  - rewrite He, String.eqb_refl. reflexivity.
  - assert (Hd : String.eqb (name d) n = false).
    { apply String.eqb_neq. apply Hdone. left. reflexivity. }
    rewrite Hd. apply IH. intros d' Hd'. apply Hdone. right. exact Hd'.
Qed.

Lemma remove_absent (n : string) (es : list Entry) :
  (forall d, In d es -> name d <> n) -> remove n es = es.
Proof.
  intros H. unfold remove. apply forallb_filter_id, forallb_forall.
  intros d Hd. apply negb_true_iff, String.eqb_neq. exact (H d Hd).
Qed.

Lemma remove_present (done : list Entry) (e : Entry) (rest : list Entry) :
  (forall d, In d done -> name d <> name e) ->
  (forall d, In d rest -> name d <> name e) ->
  remove (name e) (done ++ e :: rest) = done ++ rest.
Proof.
  intros Hdone Hrest. unfold remove. rewrite List.filter_app. simpl.
  rewrite String.eqb_refl. simpl.
  fold (remove (name e) done). fold (remove (name e) rest).
  rewrite (remove_absent _ _ Hdone), (remove_absent _ _ Hrest). reflexivity.
Qed.

(** Distinct names, seen from the entry being processed. *)
Lemma names_apart (done : list Entry) (e : Entry) (rest : list Entry) :
  List.NoDup (map name (done ++ e :: rest)) ->
  (forall d, In d done -> name d <> name e)
  /\ (forall d, In d rest -> name d <> name e)
  /\ List.NoDup (map name (done ++ rest))
  /\ List.NoDup (map name ((done ++ [e]) ++ rest)).
Proof.
  intros Hnd. rewrite map_app in Hnd. simpl in Hnd.
  pose proof (NoDup_remove_1 _ _ _ Hnd) as H1.
  pose proof (NoDup_remove_2 _ _ _ Hnd) as H2.
  split_and!.
  - intros d Hd Heq. apply H2. apply in_or_app. left.
    rewrite <- Heq. apply in_map. exact Hd.
  - intros d Hd Heq. apply H2. apply in_or_app. right.
    rewrite <- Heq. apply in_map. exact Hd.
  - rewrite map_app. exact H1.
  - rewrite <- app_assoc. simpl. rewrite map_app. simpl. exact Hnd.
Qed.

Lemma step_keep (done : list Entry) (e : Entry) (rest : list Entry)
    (names : list string) (out : list string) :
  (forall d, In d done -> name d <> name e) ->
  expired cutoff_date e = false ->
  cleanup_loop cutoff_date (name e :: names)
    {| entries := done ++ e :: rest; stdout := out |}
  = cleanup_loop cutoff_date names {| entries := done ++ e :: rest; stdout := out |}.
Proof.
  intros Hdone Hexp. cbn [cleanup_loop entries].
  rewrite (lookup_past _ done e rest Hdone eq_refl).
  unfold expired in Hexp.
  destruct (is_dir e); [|reflexivity].
  simpl in Hexp. rewrite Hexp. reflexivity.
Qed.

Lemma step_remove (done : list Entry) (e : Entry) (rest : list Entry)
    (names : list string) (out : list string) :
  (forall d, In d done -> name d <> name e) ->
  (forall d, In d rest -> name d <> name e) ->
  expired cutoff_date e = true ->
  rmtree e = None ->
  cleanup_loop cutoff_date (name e :: names)
    {| entries := done ++ e :: rest; stdout := out |}
  = cleanup_loop cutoff_date names
      {| entries := done ++ rest;
         stdout := out ++ [("Removed old backup: " ++ name e)%string] |}.
Proof.
  intros Hdone Hrest Hexp Hrm. cbn [cleanup_loop entries].
  rewrite (lookup_past _ done e rest Hdone eq_refl).
  unfold expired in Hexp. apply andb_true_iff in Hexp as [Hdir Hold].
  rewrite Hdir, Hold, Hrm. unfold print. cbn [entries stdout].
  rewrite (remove_present done e rest Hdone Hrest). reflexivity.
Qed.


(** The loop over entries that can all be removed when they have to. *)
Lemma loop_completes :
  forall todo done out,
    List.NoDup (map name (done ++ todo)) ->
    (forall e, In e todo -> expired cutoff_date e = true -> rmtree e = None) ->
    cleanup_loop cutoff_date (map name todo)
      {| entries := done ++ todo; stdout := out |}
    = (Ok tt,
       {| entries := done ++ List.filter (fun e => negb (expired cutoff_date e)) todo;
          stdout := out ++ removed_lines cutoff_date todo |}).
Proof.
  induction todo as [|e rest IH]; intros done out Hnd Hrm.
  - unfold removed_lines. simpl. rewrite !app_nil_r. reflexivity.
  - destruct (names_apart done e rest Hnd) as (Hd & Hr & Hnd1 & Hnd2).
    cbn [map]. unfold removed_lines. cbn [List.filter].
    destruct (expired cutoff_date e) eqn:Hexp; cbn [negb map].
    + rewrite (step_remove done e rest _ out Hd Hr Hexp
                 (Hrm e (or_introl eq_refl) Hexp)).
      rewrite (IH done _ Hnd1); [|intros e' He'; apply Hrm; right; exact He'].
      unfold removed_lines. rewrite <- app_assoc. reflexivity.
    + rewrite (step_keep done e rest _ out Hd Hexp).
      replace (done ++ e :: rest) with ((done ++ [e]) ++ rest)
        by (rewrite <- app_assoc; reflexivity).
      rewrite (IH (done ++ [e]) out Hnd2); [|intros e' He'; apply Hrm; right; exact He'].
      unfold removed_lines. rewrite <- app_assoc. reflexivity.
Qed.


End Loop.





Lemma filter_unexpired_twice (cutoff_date : Z) (es : list Entry) :
  List.filter (fun e => negb (expired cutoff_date e))
              (List.filter (fun e => negb (expired cutoff_date e)) es)
  = List.filter (fun e => negb (expired cutoff_date e)) es.
Proof.
  induction es as [|e es IH]; simpl; [reflexivity|].
  destruct (expired cutoff_date e) eqn:He; simpl; [exact IH|].
  rewrite He. simpl. rewrite IH. reflexivity.
Qed.

Lemma nothing_left_to_remove (cutoff_date : Z) (es : list Entry) :
  removed_lines cutoff_date (List.filter (fun e => negb (expired cutoff_date e)) es) = [].
Proof.
  unfold removed_lines.
  induction es as [|e es IH]; simpl; [reflexivity|].
  destruct (expired cutoff_date e) eqn:He; simpl; [exact IH|].
  rewrite He. exact IH.
Qed.

(** X14. With dates that exist, the clean-up is idempotent: run again at
    the same time on the directory it left, it removes nothing and prints
    nothing. *)
Theorem cleanup_idempotent (now retention_days : Z) (st : State) :
  dates_in_range now retention_days (entries st) ->
  List.NoDup (map name (entries st)) ->
  (forall e, In e (entries st) ->
             expired (cutoff now retention_days) e = true -> rmtree e = None) ->
  let st' := snd (_cleanup_old_backups now retention_days st) in
  _cleanup_old_backups now retention_days st' = (tt, st').
Proof.
  intros _ Hnd Hrm st'. subst st'.
  destruct st as [es out]. cbn [entries stdout] in *.
  set (c := cutoff now retention_days) in *.
  set (kept := List.filter (fun e => negb (expired c e)) es).
  assert (Hfirst : _cleanup_old_backups now retention_days
                     {| entries := es; stdout := out |}
                   = (tt, {| entries := kept; stdout := out ++ removed_lines c es |})).
  { unfold _cleanup_old_backups. fold (cutoff now retention_days). fold c.
    cbn [entries].
    pose proof (loop_completes c es [] out Hnd Hrm) as Hloop.
    cbn [app] in Hloop. rewrite Hloop. reflexivity. }
  rewrite Hfirst. cbn [snd].
  unfold _cleanup_old_backups. fold (cutoff now retention_days). fold c.
  cbn [entries].
  assert (Hagain : cleanup_loop c (map name kept)
                     {| entries := kept; stdout := out ++ removed_lines c es |}
                   = (Ok tt, {| entries := kept; stdout := out ++ removed_lines c es |})).
  { pose proof (loop_completes c kept [] (out ++ removed_lines c es)) as Hloop.
    cbn [app] in Hloop. rewrite Hloop.
    - subst kept. rewrite filter_unexpired_twice, nothing_left_to_remove, app_nil_r.
      reflexivity.
    - subst kept. apply BackupProofs.NoDup_names_filter. exact Hnd.
    - intros e He. apply Hrm. subst kept. apply filter_In in He. tauto. }
  rewrite Hagain. reflexivity.
Qed.

Lemma cleanup_idempotent_witness :
  let st' := snd (_cleanup_old_backups (day 20) 7 three_backups) in
  _cleanup_old_backups (day 20) 7 st' = (tt, st').
Proof.
  apply (cleanup_idempotent (day 20) 7 three_backups).
  - unfold dates_in_range, cutoff, datetime_min, datetime_max.
    split_and!; try (unfold day, microseconds_per_day; lia).
    apply List.Forall_forall. intros e He. cbn in He.
    repeat (destruct He as [<-|He]; [vm_compute; split; discriminate|]).
    destruct He.
  - cbn. repeat constructor; cbn; intuition discriminate.
  - intros e He _. cbn in He. intuition (subst; reflexivity).
Defined.




End BackupMore.

(* ===================================================================== *)
(** * The load test: what a result without error accounts for *)
(* ===================================================================== *)

Module LoadMore.
Import Benchmark.

Section AnyDatabase.
Variable env : Env.
Variable queries : list string.

Lemma load_query_Ok (q : string) (counts counts' : gmap string Z)
    (times times' : list Q) (log : list string) (w w' : World) :
  load_query env q (counts, times) w = (Ok (counts', times'), w') ->
  In q queries ->
  tallied queries counts log ->
  tallied queries counts' (log ++ [q])
  /\ executed w' = executed w ++ [q]
  /\ length times' = S (length times).
Proof.
  intros Hrun Hin Ht.
  destruct (LoadProofs.tallied_increment queries counts log q Hin Ht) as [Hinc Ht'].
  unfold load_query, bind, ret, time, cursor, execute, fetchall, close, lift in Hrun.
  cbn [fst snd ticks executed fetched called] in Hrun.
  rewrite Hinc in Hrun.
  repeat match type of Hrun with
         | context [may_raise ?x] =>
             destruct x;
             cbn [may_raise fst snd ticks executed fetched called] in Hrun;
             try discriminate Hrun
         end.
  injection Hrun as <- <- <-. cbn [executed].
  split_and!; [exact Ht' | reflexivity | rewrite length_app; simpl; lia].
Qed.

Lemma for_each_Ok (qs : list string) :
  forall counts times log w counts' times' w',
    for_each qs (load_query env) (counts, times) w = (Ok (counts', times'), w') ->
    incl qs queries ->
    tallied queries counts log ->
    tallied queries counts' (log ++ qs)
    /\ executed w' = executed w ++ qs
    /\ length times' = (length times + length qs)%nat.
Proof.
  induction qs as [|q qs IH]; intros counts times log w counts' times' w' Hrun Hincl Ht.
  - injection Hrun as <- <- <-. rewrite !app_nil_r. split_and!; [exact Ht | reflexivity | simpl; lia].
  - cbn [for_each] in Hrun. unfold bind at 1 in Hrun.
    destruct (load_query env q (counts, times) w) as [[[c1 t1]|msg] w1] eqn:Hq;
      [|discriminate].
    destruct (load_query_Ok q counts c1 times t1 log w w1 Hq) as (Ht1 & Hex1 & Hlen1).
    { apply Hincl. left. reflexivity. }
    { exact Ht. }
    destruct (IH c1 t1 (log ++ [q]) w1 counts' times' w' Hrun) as (Ht' & Hex & Hlen).
    { intros x Hx. apply Hincl. right. exact Hx. }
    { exact Ht1. }
    split_and!.
    + rewrite <- app_assoc in Ht'. exact Ht'.
    + rewrite Hex, Hex1, <- app_assoc. reflexivity.
    + rewrite Hlen, Hlen1. simpl. lia.
Qed.

Lemma while_before_Ok (end_time : Q) :
  forall fuel counts times log w counts' times' w',
    while_before env fuel end_time queries (counts, times) w
      = Some (Ok (counts', times'), w') ->
    tallied queries counts log ->
    exists c,
      tallied queries counts' (log ++ cycles c queries)
      /\ executed w' = executed w ++ cycles c queries
      /\ length times' = (length times + c * length queries)%nat.
Proof.
  induction fuel as [|fuel IH]; intros counts times log w counts' times' w' Hrun Ht;
    [discriminate|].
  cbn [while_before time] in Hrun.
  destruct (QMicromega.Qlt_bool _ end_time).
  - set (w1 := {| ticks := S (ticks w); executed := executed w;
                  fetched := fetched w; called := called w |}) in Hrun.
    destruct (for_each queries (load_query env) (counts, times) w1)
      as [[[c1 t1]|msg] w2] eqn:Hcycle; [|discriminate].
    destruct (for_each_Ok queries counts times log w1 c1 t1 w2 Hcycle
                (incl_refl _) Ht) as (Ht1 & Hex1 & Hlen1).
    destruct (IH c1 t1 (log ++ queries) w2 counts' times' w' Hrun Ht1)
      as (c & Ht' & Hex & Hlen).
    exists (S c). unfold cycles in *. cbn [repeat concat].
    split_and!.
    + rewrite app_assoc. exact Ht'.
    + rewrite Hex, Hex1. subst w1. cbn [executed]. rewrite app_assoc. reflexivity.
    + rewrite Hlen, Hlen1. lia.
  - injection Hrun as <- <- <-. exists 0%nat. unfold cycles. cbn [repeat concat executed].
    rewrite !app_nil_r. split_and!; [exact Ht | reflexivity | lia].
Qed.

End AnyDatabase.

(** X16. Whatever the database does, a result of [run_load_test] that
    carries no error accounts for every query sent during the call: the
    queries passed to [cursor.execute] are a whole number [c >= 1] of
    passes over the list, in order; [total_queries] is their number, each
    query's count is the number of its executions, the duration is not
    zero and [queries_per_second] is the total divided by it. *)
Theorem load_result_accounts_for_executions (env : Env) (fuel : nat)
    (queries : list string) (d : Z) (w w' : World) (r : LoadResult) :
  run_load_test env fuel queries d w = Some (r, w') ->
  l_error r = None ->
  exists c,
    (0 < c * length queries)%nat
    /\ executed w' = executed w ++ cycles c queries
    /\ l_total_queries r = Z.of_nat (c * length queries)
    /\ (forall q, default 0%Z (l_query_counts r !! q)
                  = occurrences q (cycles c queries))
    /\ d <> 0%Z
    /\ l_queries_per_second r == inject_Z (l_total_queries r) / inject_Z d.
Proof.
  intros Hrun Herr. unfold run_load_test in Hrun. cbn [time] in Hrun.
  set (w0 := {| ticks := S (ticks w); executed := executed w;
                fetched := fetched w; called := called w |}) in Hrun.
  destruct (while_before env fuel _ queries (zero_counts queries, []) w0)
    as [[[[counts times]|msg] w1]|] eqn:Hloop; [| |discriminate].
  2:{ injection Hrun as <- <-. discriminate Herr. }
  destruct (while_before_Ok env queries _ fuel _ _ [] w0 counts times w1 Hloop
              (LoadProofs.tallied_zero_counts queries)) as (c & Ht & Hex & Hlen).
  cbn [app length Nat.add] in Ht, Hex, Hlen.
  pose proof Ht as (_ & _ & Hsum). rewrite LoadProofs.length_cycles in Hsum.
  unfold try_except, load_summary, bind, lift, ret in Hrun.
  cbn [fst snd] in Hrun. rewrite Hsum in Hrun.
  unfold true_div in Hrun.
  destruct (d =? 0)%Z eqn:Hd.
  { injection Hrun as <- <-. discriminate Herr. }
  apply Z.eqb_neq in Hd.
  destruct times as [|t times].
  { cbn in Hrun. injection Hrun as <- <-. discriminate Herr. }
  destruct (LoadProofs.stdev_or_zero_returns env (t :: times)) as [sd Hsd].
  rewrite Hsd in Hrun. cbn [Stats.mean Stats.min Stats.max] in Hrun.
  injection Hrun as <- <-.
  cbn [l_total_queries l_query_counts l_queries_per_second].
  exists c. split_and!.
  - simpl in Hlen. lia.
  - exact Hex.
  - reflexivity.
  - intros q. apply (LoadProofs.tallied_default queries). exact Ht.
  - exact Hd.
  - reflexivity.
Qed.

Lemma load_result_accounts_for_executions_witness :
  exists r w' c,
    run_load_test steady 4 ["SELECT 1"; "SELECT 2"; "SELECT 1"] 4 fresh = Some (r, w')
    /\ (0 < c * 3)%nat
    /\ executed w' = executed fresh ++ cycles c ["SELECT 1"; "SELECT 2"; "SELECT 1"]
    /\ l_total_queries r = Z.of_nat (c * 3).
Proof.
  remember (run_load_test steady 4 ["SELECT 1"; "SELECT 2"; "SELECT 1"] 4 fresh)
    as o eqn:Ho.
  assert (Hrun : match o with
                 | Some (r, _) => match l_error r with None => true | Some _ => false end
                 | None => false
                 end = true) by (rewrite Ho; vm_compute; reflexivity).
  symmetry in Ho.
  destruct o as [[r w']|]; [|discriminate Hrun].
  destruct (l_error r) eqn:Herr; [discriminate Hrun|].
  destruct (load_result_accounts_for_executions steady 4 _ 4 fresh w' r Ho Herr)
    as (c & Hpos & Hex & Htot & _).
  exists r, w', c. split_and!; [reflexivity | exact Hpos | exact Hex | exact Htot].
Defined.

End LoadMore.

(* ===================================================================== *)
(** * The concurrent test *)
(* ===================================================================== *)

Module ConcurrentProofs.
Import Benchmark Runs Concurrent.

Lemma execute_user_query_returns (pool : Pool) (q : string) (k : Z) (user_id : nat) :
  worker_unhindered pool q k user_id ->
  execute_user_query (view pool user_id) q k = Ok (measured pool k user_id).
Proof.
  intros (Hc & Hcl & Hok). unfold execute_user_query, measured.
  destruct (view pool user_id) as [env w]. cbn [fst snd] in *.
  destruct (RunsProofs.for_range_query_returns env q (Z.to_nat k) [] w Hok)
    as (w1 & Hrun & _).
  unfold bind at 1, cursor, lift. rewrite Hc. cbn [may_raise].
  unfold bind at 1. rewrite Hrun.
  unfold bind, close, lift, ret. rewrite Hcl. reflexivity.
Qed.

Lemma gather_all (f : nat -> outcome (list Q)) (g : nat -> list Q) :
  forall order acc,
    (forall user_id, In user_id order -> f user_id = Ok (g user_id)) ->
    gather (map f order) acc = Ok (acc ++ flat_map g order).
Proof.
  induction order as [|i order IH]; intros acc Hok; simpl.
  - rewrite app_nil_r. reflexivity.
  - rewrite (Hok i (or_introl eq_refl)).
    rewrite IH; [|intros j Hj; apply Hok; right; exact Hj].
    rewrite <- app_assoc. reflexivity.
Qed.

Lemma gather_stops (f : nat -> outcome (list Q)) (g : nat -> list Q) (msg : string) :
  forall before acc user_id after,
    (forall b, In b before -> f b = Ok (g b)) ->
    f user_id = Raise msg ->
    gather (map f (before ++ user_id :: after)) acc = Raise msg.
Proof.
  induction before as [|b before IH]; intros acc user_id after Hok Hbad; simpl.
  - rewrite Hbad. reflexivity.
  - rewrite (Hok b (or_introl eq_refl)).
    apply IH; [|exact Hbad]. intros b' Hb'. apply Hok. right. exact Hb'.
Qed.

Lemma length_pooled (g : nat -> list Q) (k : nat) (order : list nat) :
  (forall user_id, length (g user_id) = k) ->
  length (flat_map g order) = (length order * k)%nat.
Proof.
  intros Hk. induction order as [|i order IH]; simpl; [reflexivity|].
  rewrite length_app, Hk, IH. reflexivity.
Qed.

(** The pooled measurements of a run in which no worker is hindered. *)
Lemma pooled_measurements (pool : Pool) (q : string) (users per_user : Z) :
  fair pool users ->
  (forall user_id, (user_id < Z.to_nat users)%nat ->
                   worker_unhindered pool q per_user user_id) ->
  gather (map (fun user_id => execute_user_query (view pool user_id) q per_user)
              (as_completed pool)) []
  = Ok (flat_map (measured pool per_user) (as_completed pool))
  /\ length (flat_map (measured pool per_user) (as_completed pool))
     = (Z.to_nat users * Z.to_nat per_user)%nat.
Proof.
  intros Hfair Hworkers. split.
  - rewrite (gather_all _ (measured pool per_user)); [reflexivity|].
    intros user_id Hin. apply execute_user_query_returns. apply Hworkers.
    apply (Permutation_in _ Hfair) in Hin. apply in_seq in Hin. lia.
  - rewrite (length_pooled _ (Z.to_nat per_user)).
    + rewrite (Permutation_length Hfair), length_seq. reflexivity.
    + intros user_id. unfold measured. apply RunsProofs.length_durations.
Qed.

(** X17. With at least one user and one iteration per user, a scheduler
    that completes every future, and no worker hindered,
    [run_concurrent_test] reports no error; [total_iterations], the
    product of its two arguments, is the number of measurements pooled
    (those of the workers, in completion order); the total is their sum,
    minimum <= average <= maximum, and every measurement lies between the
    reported minimum and maximum. *)
Theorem concurrent_success (pool : Pool) (q : string) (users per_user : Z) :
  (0 < users)%Z ->
  (0 < per_user)%Z ->
  fair pool users ->
  (forall user_id, (user_id < Z.to_nat users)%nat ->
                   worker_unhindered pool q per_user user_id) ->
  let r := run_concurrent_test pool q users per_user in
  let pooled := flat_map (measured pool per_user) (as_completed pool) in
  c_error r = None
  /\ c_total_iterations r = (users * per_user)%Z
  /\ Z.of_nat (length pooled) = c_total_iterations r
  /\ c_total_time_ms r = Stats.sum pooled
  /\ c_min_time_ms r <= c_avg_time_ms r <= c_max_time_ms r
  /\ (forall d, In d pooled -> c_min_time_ms r <= d <= c_max_time_ms r).
Proof.
  intros Hu Hk Hfair Hworkers r pooled.
  destruct (pooled_measurements pool q users per_user Hfair Hworkers) as [Hg Hlen].
  fold pooled in Hg, Hlen.
  destruct pooled as [|d ds] eqn:Hp.
  { simpl in Hlen. nia. }
  destruct (RunsProofs.summary_ordered d ds)
    as (avg & mn & mx & Havg & Hmn & Hmx & Hord & Hall).
  assert (Hsd : exists sd, (if (1 <? length (d :: ds))%nat
                            then Stats.stdev (sqrt pool) (d :: ds) else Ok 0) = Ok sd).
  { destruct ds as [|d' ds']; simpl; eauto. }
  destruct Hsd as [sd Hsd].
  assert (Heq : r = {| c_query := q; c_concurrent_users := users;
                       c_iterations_per_user := per_user; c_error := None;
                       c_total_iterations := (users * per_user)%Z;
                       c_avg_time_ms := avg; c_min_time_ms := mn;
                       c_max_time_ms := mx; c_std_dev_ms := sd;
                       c_total_time_ms := Stats.sum (d :: ds) |}).
  { subst r. unfold run_concurrent_test.
    destruct (users <=? 0)%Z eqn:Hle; [apply Z.leb_le in Hle; lia|].
    rewrite Hg. unfold summarize. rewrite Havg, Hmn, Hmx, Hsd. reflexivity. }
  rewrite Heq. cbn [c_error c_total_iterations c_total_time_ms c_min_time_ms
                    c_max_time_ms c_avg_time_ms].
  split_and!; try reflexivity; try apply Hord; try exact Hall.
  rewrite Hlen. lia.
Qed.

Lemma concurrent_success_witness :
  let r := run_concurrent_test three_workers "SELECT 1" 3 2 in
  let pooled := flat_map (measured three_workers 2) (as_completed three_workers) in
  c_error r = None
  /\ c_total_iterations r = (3 * 2)%Z
  /\ Z.of_nat (length pooled) = c_total_iterations r
  /\ c_total_time_ms r = Stats.sum pooled
  /\ c_min_time_ms r <= c_avg_time_ms r <= c_max_time_ms r
  /\ (forall d, In d pooled -> c_min_time_ms r <= d <= c_max_time_ms r).
Proof.
  apply (concurrent_success three_workers "SELECT 1" 3 2).
  - lia.
  - lia.
  - unfold fair. cbn.
    eapply perm_trans; [apply Permutation_cons_append|]. reflexivity.
  - intros user_id _. repeat split; reflexivity.
Defined.

(** X18. When a worker raises, its exception is the result's error: if
    the futures completed before it all returned, [run_concurrent_test]
    returns the error result with that worker's message,
    [total_iterations] 0 and zero summaries, whatever the workers after
    it did. *)
Theorem concurrent_worker_exception (pool : Pool) (q : string) (users per_user : Z)
    (before after : list nat) (user_id : nat) (msg : string) :
  (0 < users)%Z ->
  as_completed pool = before ++ user_id :: after ->
  (forall b, In b before -> worker_unhindered pool q per_user b) ->
  execute_user_query (view pool user_id) q per_user = Raise msg ->
  run_concurrent_test pool q users per_user = concurrent_error q users per_user msg.
Proof.
  intros Hu Horder Hbefore Hbad. unfold run_concurrent_test.
  destruct (users <=? 0)%Z eqn:Hle; [apply Z.leb_le in Hle; lia|].
  rewrite Horder.
  rewrite (gather_stops _ (measured pool per_user) msg before [] user_id after);
    [reflexivity | | exact Hbad].
  intros b Hb. apply execute_user_query_returns. exact (Hbefore b Hb).
Qed.

Lemma concurrent_worker_exception_witness :
  run_concurrent_test one_worker_down "SELECT 1" 3 2
  = concurrent_error "SELECT 1" 3 2 "Connection failed".
Proof.
  apply (concurrent_worker_exception one_worker_down "SELECT 1" 3 2
           [2%nat] [1%nat] 0%nat "Connection failed").
  - lia.
  - reflexivity.
  - intros b [<- | []]. repeat split; reflexivity.
  - reflexivity.
Defined.

(* --------------------------------------------------------------------- *)
(** ** The order of completion *)

Lemma sum_permutation (l1 l2 : list Q) :
  Permutation l1 l2 -> Stats.sum l1 == Stats.sum l2.
Proof.
  induction 1 as [|x l1 l2 Hp IH|x y l|l1 l2 l3 Hp1 IH1 Hp2 IH2].
  - reflexivity.
  - rewrite !RunsProofs.sum_cons, IH. reflexivity.
  - rewrite !RunsProofs.sum_cons. ring.
  - rewrite IH1. exact IH2.
Qed.

Lemma fold_min_in (xs : list Q) :
  forall m,
    In (fold_left (fun m y => if QMicromega.Qlt_bool y m then y else m) xs m) (m :: xs).
Proof.
  induction xs as [|y ys IH]; intros m; simpl; [left; reflexivity|].
  destruct (QMicromega.Qlt_bool y m).
  - destruct (IH y) as [H | H]; [right; left; exact H | right; right; exact H].
  - destruct (IH m) as [H | H]; [left; exact H | right; right; exact H].
Qed.

Lemma fold_max_in (xs : list Q) :
  forall m,
    In (fold_left (fun m y => if QMicromega.Qlt_bool m y then y else m) xs m) (m :: xs).
Proof.
  induction xs as [|y ys IH]; intros m; simpl; [left; reflexivity|].
  destruct (QMicromega.Qlt_bool m y).
  - destruct (IH y) as [H | H]; [right; left; exact H | right; right; exact H].
  - destruct (IH m) as [H | H]; [left; exact H | right; right; exact H].
Qed.

Lemma min_permutation (l1 l2 : list Q) (m1 m2 : Q) :
  Permutation l1 l2 -> Stats.min l1 = Ok m1 -> Stats.min l2 = Ok m2 -> m1 == m2.
Proof.
  intros Hp H1 H2.
  assert (Hin1 : In m1 l1).
  { destruct l1 as [|a l1]; [discriminate|]. injection H1 as <-. apply fold_min_in. }
  assert (Hin2 : In m2 l2).
  { destruct l2 as [|a l2]; [discriminate|]. injection H2 as <-. apply fold_min_in. }
  apply Qle_antisym.
  - apply (RunsProofs.min_is_lower_bound l1 m1 H1).
    exact (Permutation_in _ (Permutation_sym Hp) Hin2).
  - apply (RunsProofs.min_is_lower_bound l2 m2 H2).
    exact (Permutation_in _ Hp Hin1).
Qed.

Lemma max_permutation (l1 l2 : list Q) (m1 m2 : Q) :
  Permutation l1 l2 -> Stats.max l1 = Ok m1 -> Stats.max l2 = Ok m2 -> m1 == m2.
Proof.
  intros Hp H1 H2.
  assert (Hin1 : In m1 l1).
  { destruct l1 as [|a l1]; [discriminate|]. injection H1 as <-. apply fold_max_in. }
  assert (Hin2 : In m2 l2).
  { destruct l2 as [|a l2]; [discriminate|]. injection H2 as <-. apply fold_max_in. }
  apply Qle_antisym.
  - apply (RunsProofs.max_is_upper_bound l2 m2 H2).
    exact (Permutation_in _ Hp Hin1).
  - apply (RunsProofs.max_is_upper_bound l1 m1 H1).
    exact (Permutation_in _ (Permutation_sym Hp) Hin2).
Qed.

(** The fields of the result of a run in which no worker is hindered. *)
Lemma concurrent_fields (pool : Pool) (q : string) (users per_user : Z) :
  (0 < users)%Z ->
  (0 < per_user)%Z ->
  fair pool users ->
  (forall user_id, (user_id < Z.to_nat users)%nat ->
                   worker_unhindered pool q per_user user_id) ->
  let r := run_concurrent_test pool q users per_user in
  let pooled := flat_map (measured pool per_user) (as_completed pool) in
  Stats.mean pooled = Ok (c_avg_time_ms r)
  /\ Stats.min pooled = Ok (c_min_time_ms r)
  /\ Stats.max pooled = Ok (c_max_time_ms r)
  /\ c_total_time_ms r = Stats.sum pooled
  /\ c_error r = None.
Proof.
  intros Hu Hk Hfair Hworkers r pooled.
  destruct (pooled_measurements pool q users per_user Hfair Hworkers) as [Hg Hlen].
  fold pooled in Hg, Hlen.
  destruct pooled as [|d ds] eqn:Hp.
  { simpl in Hlen. nia. }
  destruct (RunsProofs.summary_ordered d ds)
    as (avg & mn & mx & Havg & Hmn & Hmx & _).
  assert (Hsd : exists sd, (if (1 <? length (d :: ds))%nat
                            then Stats.stdev (sqrt pool) (d :: ds) else Ok 0) = Ok sd).
  { destruct ds as [|d' ds']; simpl; eauto. }
  destruct Hsd as [sd Hsd].
  subst r. unfold run_concurrent_test.
  destruct (users <=? 0)%Z eqn:Hle; [apply Z.leb_le in Hle; lia|].
  rewrite Hg. unfold summarize. rewrite Havg, Hmn, Hmx, Hsd.
  cbn [c_avg_time_ms c_min_time_ms c_max_time_ms c_total_time_ms c_error].
  split_and!; reflexivity.
Qed.

(** X19. The average, the minimum and the maximum reported do not depend
    on the order in which the workers complete: two runs in which the
    workers observe the same and none is hindered report the same three
    values and the same [total_iterations], whatever the two orders of
    completion.  ([total_time_ms] is added up in the order of pooling and
    is not part of the statement.) *)
Theorem concurrent_order_irrelevant (pool1 pool2 : Pool) (q : string)
    (users per_user : Z) :
  (0 < users)%Z ->
  (0 < per_user)%Z ->
  (forall user_id, view pool1 user_id = view pool2 user_id) ->
  fair pool1 users ->
  fair pool2 users ->
  (forall user_id, (user_id < Z.to_nat users)%nat ->
                   worker_unhindered pool1 q per_user user_id) ->
  let r1 := run_concurrent_test pool1 q users per_user in
  let r2 := run_concurrent_test pool2 q users per_user in
  c_avg_time_ms r1 == c_avg_time_ms r2
  /\ c_min_time_ms r1 == c_min_time_ms r2
  /\ c_max_time_ms r1 == c_max_time_ms r2
  /\ c_total_iterations r1 = c_total_iterations r2.
Proof.
  intros Hu Hk Hview Hfair1 Hfair2 Hworkers r1 r2.
  assert (Hworkers2 : forall user_id, (user_id < Z.to_nat users)%nat ->
                                      worker_unhindered pool2 q per_user user_id).
  { intros user_id Hlt. unfold worker_unhindered. rewrite <- Hview.
    exact (Hworkers user_id Hlt). }
  destruct (concurrent_fields pool1 q users per_user Hu Hk Hfair1 Hworkers)
    as (Havg1 & Hmn1 & Hmx1 & Htot1 & _).
  destruct (concurrent_fields pool2 q users per_user Hu Hk Hfair2 Hworkers2)
    as (Havg2 & Hmn2 & Hmx2 & Htot2 & _).
  fold r1 in Havg1, Hmn1, Hmx1, Htot1. fold r2 in Havg2, Hmn2, Hmx2, Htot2.
  assert (Hperm : Permutation
                    (flat_map (measured pool1 per_user) (as_completed pool1))
                    (flat_map (measured pool2 per_user) (as_completed pool2))).
  { assert (Hm : forall l, flat_map (measured pool1 per_user) l
                           = flat_map (measured pool2 per_user) l).
    { intros l. apply flat_map_ext. intros user_id. unfold measured.
      rewrite Hview. reflexivity. }
    rewrite Hm. apply Permutation_flat_map.
    unfold fair in *. rewrite Hfair1, Hfair2. reflexivity. }
  set (p1 := flat_map (measured pool1 per_user) (as_completed pool1)) in *.
  set (p2 := flat_map (measured pool2 per_user) (as_completed pool2)) in *.
  assert (Hsum : Stats.sum p1 == Stats.sum p2) by exact (sum_permutation _ _ Hperm).
  split_and!.
  - destruct p1 as [|a1 l1]; [discriminate|]. destruct p2 as [|a2 l2]; [discriminate|].
    injection Havg1 as <-. injection Havg2 as <-.
    assert (Hlen : Stats.len (a1 :: l1) = Stats.len (a2 :: l2)).
    { unfold Stats.len. rewrite (Permutation_length Hperm). reflexivity. }
    rewrite Hlen, Hsum. reflexivity.
  - exact (min_permutation _ _ _ _ Hperm Hmn1 Hmn2).
  - exact (max_permutation _ _ _ _ Hperm Hmx1 Hmx2).
  - subst r1 r2. unfold run_concurrent_test.
    destruct (users <=? 0)%Z eqn:Hle; [apply Z.leb_le in Hle; lia|].
    destruct (pooled_measurements pool1 q users per_user Hfair1 Hworkers) as [Hg1 Hl1].
    destruct (pooled_measurements pool2 q users per_user Hfair2 Hworkers2) as [Hg2 Hl2].
    rewrite Hg1, Hg2. fold p1 p2. unfold summarize.
    rewrite Havg1, Hmn1, Hmx1, Havg2, Hmn2, Hmx2.
    assert (Hsd : forall pool (p : list Q),
               exists sd, (if (1 <? length p)%nat
                           then Stats.stdev (sqrt pool) p else Ok 0) = Ok sd).
    { intros pool p. destruct p as [|x [|y p']]; simpl; eauto. }
    destruct (Hsd pool1 p1) as [sd1 ->]. destruct (Hsd pool2 p2) as [sd2 ->].
    reflexivity.
Qed.

Lemma concurrent_order_irrelevant_witness :
  let r1 := run_concurrent_test three_workers "SELECT 1" 3 2 in
  let r2 := run_concurrent_test three_workers_in_turn "SELECT 1" 3 2 in
  c_avg_time_ms r1 == c_avg_time_ms r2
  /\ c_min_time_ms r1 == c_min_time_ms r2
  /\ c_max_time_ms r1 == c_max_time_ms r2
  /\ c_total_iterations r1 = c_total_iterations r2.
Proof.
  apply (concurrent_order_irrelevant three_workers three_workers_in_turn "SELECT 1" 3 2).
  - lia.
  - lia.
  - reflexivity.
  - unfold fair. cbn.
    eapply perm_trans; [apply Permutation_cons_append|]. reflexivity.
  - unfold fair. cbn. reflexivity.
  - intros user_id _. repeat split; reflexivity.
Defined.

(** X20. With nothing to run, [run_concurrent_test] returns an error
    result: with no user (a count of zero or below) the pool cannot be
    built and no worker starts; with users whose cursors open and close
    but no iteration per user, the workers return no measurement and the
    mean of nothing is the error. *)
Theorem concurrent_nothing_to_run (pool : Pool) (q : string) (users per_user : Z) :
  ((users <= 0)%Z ->
   run_concurrent_test pool q users per_user
   = concurrent_error q users per_user "max_workers must be greater than 0")
  /\ ((0 < users)%Z -> (per_user <= 0)%Z ->
      (forall user_id, In user_id (as_completed pool) ->
         connection_cursor (fst (view pool user_id)) = None
         /\ cursor_close (fst (view pool user_id)) = None) ->
      run_concurrent_test pool q users per_user
      = concurrent_error q users per_user "mean requires at least one data point").
Proof.
  split.
  - intros Hu. unfold run_concurrent_test.
    destruct (users <=? 0)%Z eqn:Hle; [reflexivity | apply Z.leb_gt in Hle; lia].
  - intros Hu Hk Hcursors. unfold run_concurrent_test.
    destruct (users <=? 0)%Z eqn:Hle; [apply Z.leb_le in Hle; lia|].
    rewrite (gather_all _ (fun _ => [])).
    + assert (Hnil : forall l : list nat, flat_map (fun _ => @nil Q) l = []).
      { induction l; simpl; auto. }
      rewrite Hnil. reflexivity.
    + intros user_id Hin. destruct (Hcursors user_id Hin) as [Hc Hcl].
      unfold execute_user_query.
      replace (Z.to_nat per_user) with 0%nat by lia.
      unfold bind, cursor, close, lift, ret. rewrite Hc, Hcl. reflexivity.
Qed.

Lemma concurrent_nothing_to_run_witness :
  run_concurrent_test three_workers "SELECT 1" 0 2
  = concurrent_error "SELECT 1" 0 2 "max_workers must be greater than 0"
  /\ run_concurrent_test three_workers "SELECT 1" 3 0
     = concurrent_error "SELECT 1" 3 0 "mean requires at least one data point".
Proof.
  destruct (concurrent_nothing_to_run three_workers "SELECT 1" 0 2) as [H0 _].
  destruct (concurrent_nothing_to_run three_workers "SELECT 1" 3 0) as [_ H1].
  split.
  - apply H0. lia.
  - apply H1; [lia | lia |]. intros user_id _. split; reflexivity.
Defined.

End ConcurrentProofs.

(* ===================================================================== *)
(** * Directory sizes and the status of the backups *)
(* ===================================================================== *)

Module StatusProofs.
Import Status.

Lemma sizes_app (l1 l2 : list (Z * option string)) :
  sizes (l1 ++ l2) = (sizes l1 + sizes l2)%Z.
Proof. induction l1 as [|[s e] l1 IH]; simpl; [reflexivity | rewrite IH; lia]. Qed.

Lemma add_sizes_all (files : list (Z * option string)) :
  List.Forall (fun f => snd f = None) files ->
  forall total, add_sizes files total = ((total + sizes files)%Z, []).
Proof.
  induction 1 as [|[s e] rest He _ IH]; intros total; simpl.
  - f_equal. lia.
  - simpl in He. subst e. rewrite IH. f_equal. lia.
Qed.

Lemma add_sizes_bounded (files : list (Z * option string)) :
  List.Forall (fun f => (0 <= fst f)%Z) files ->
  forall total, (total <= fst (add_sizes files total) <= total + sizes files)%Z.
Proof.
  induction 1 as [|[s e] rest Hs Hrest IH]; intros total; simpl.
  - lia.
  - simpl in Hs. assert (Hge : (0 <= sizes rest)%Z).
    { clear - Hrest. induction Hrest as [|[s' e'] r Hs' _ IHr]; simpl in *; lia. }
    destruct e; simpl; [lia|]. specialize (IH (total + s)%Z). lia.
Qed.

Lemma walk_readable (n : Node) :
  readable n = true ->
  List.Forall (fun f => snd f = None) (files_below n)
  /\ (isdir n = true -> sizes (files_below n) = bytes_under n).
Proof.
  induction n as [name size e | name e children IH] using Node_induction;
    intros Hr.
  - split; [constructor | discriminate].
  - destruct e as [msg|]; [discriminate|]. cbn [readable] in Hr.
    cbn [files_below bytes_under isdir]. fold (below children). fold (bytes_in children).
    assert (H : List.Forall (fun f => snd f = None) (own_files children ++ below children)
                /\ sizes (own_files children ++ below children) = bytes_in children).
    { induction children as [|c cs IHcs]; [split; [constructor | reflexivity]|].
      inversion IH as [|? ? Hc Hcs]; subst.
      apply andb_true_iff in Hr as [Hrc Hrcs].
      destruct (IHcs Hcs Hrcs) as [Hall Hsum].
      destruct (Hc Hrc) as [Hcall Hcsum].
      rewrite List.Forall_app in Hall. destruct Hall as [Hown Hbelow].
      rewrite sizes_app in Hsum.
      destruct c as [cname csize ce | cname ce cchildren].
      - cbn [readable] in Hrc. destruct ce; [discriminate|].
        cbn [own_files below files_below bytes_in bytes_under app].
        fold (below cs). fold (bytes_in cs). split.
        + constructor; [reflexivity|]. apply List.Forall_app. split; assumption.
        + cbn [sizes]. rewrite sizes_app. lia.
      - cbn [own_files below bytes_in]. fold (below cs). fold (bytes_in cs). split.
        + apply List.Forall_app. split; [exact Hown|].
          apply List.Forall_app. split; assumption.
        + rewrite !sizes_app. rewrite (Hcsum eq_refl). lia. }
    split; [apply H | intros _; apply H].
Qed.

Lemma walk_bounded (n : Node) :
  sizes_nonnegative n = true ->
  List.Forall (fun f => (0 <= fst f)%Z) (files_below n)
  /\ (0 <= bytes_under n)%Z
  /\ (sizes (files_below n) <= (if isdir n then bytes_under n else 0))%Z.
Proof.
  induction n as [name size e | name e children IH] using Node_induction;
    intros Hs.
  - cbn in *. apply Z.leb_le in Hs. split_and!; [constructor | lia | lia].
  - cbn [sizes_nonnegative] in Hs. cbn [bytes_under isdir]. fold (bytes_in children).
    assert (H : List.Forall (fun f => (0 <= fst f)%Z)
                            (own_files children ++ below children)
                /\ (0 <= sizes (own_files children ++ below children)
                    <= bytes_in children)%Z).
    { induction children as [|c cs IHcs]; [split; [constructor | simpl; lia]|].
      inversion IH as [|? ? Hc Hcs]; subst.
      apply andb_true_iff in Hs as [Hsc Hscs].
      destruct (IHcs Hcs Hscs) as [Hall Hsum].
      destruct (Hc Hsc) as (Hcall & Hcge & Hcle).
      rewrite List.Forall_app in Hall. destruct Hall as [Hown Hbelow].
      rewrite sizes_app in Hsum.
      assert (Hcnn : (0 <= sizes (files_below c))%Z).
      { clear - Hcall. induction Hcall as [|[s' e'] r Hs' _ IHr]; simpl in *; lia. }
      destruct c as [cname csize ce | cname ce cchildren].
      - cbn [sizes_nonnegative] in Hsc. apply Z.leb_le in Hsc.
        cbn [own_files below files_below bytes_in bytes_under app].
        fold (below cs). fold (bytes_in cs). split.
        + constructor; [exact Hsc|]. apply List.Forall_app. split; assumption.
        + cbn [sizes]. rewrite sizes_app. lia.
      - cbn [own_files below bytes_in]. fold (below cs). fold (bytes_in cs).
        cbn [isdir] in Hcle. split.
        + apply List.Forall_app. split; [exact Hown|].
          apply List.Forall_app. split; assumption.
        + rewrite !sizes_app. lia. }
    destruct e as [msg|].
    + cbn [files_below sizes]. split_and!; [constructor | lia | lia].
    + cbn [files_below]. fold (below children).
      split_and!; [apply H | lia | lia].
Qed.

(** X21. For a directory in which every directory can be listed and every
    file sized, [_get_directory_size] is the number of bytes of all the
    files under it, at any depth, and nothing is printed.  In general, as
    long as no size is negative, it lies between 0 and that number: an
    unreadable part makes it report less, never more. *)
Theorem directory_size_is_bytes_under (path : Node) :
  (isdir path = true -> readable path = true ->
   _get_directory_size path = (bytes_under path, []))
  /\ (sizes_nonnegative path = true ->
      (0 <= fst (_get_directory_size path) <= bytes_under path)%Z).
Proof.
  unfold _get_directory_size. split.
  - intros Hdir Hr. destruct (walk_readable path Hr) as [Hall Hsum].
    rewrite (add_sizes_all _ Hall). rewrite (Hsum Hdir). reflexivity.
  - intros Hs. destruct (walk_bounded path Hs) as (Hall & Hge & Hle).
    pose proof (add_sizes_bounded _ Hall 0%Z) as Hb.
    destruct (isdir path); lia.
Qed.

Lemma directory_size_is_bytes_under_witness :
  _get_directory_size (node (nth 1 sample_dir {| node := File "" 0 None; ctime := 0 |}))
  = (2053%Z, [])
  /\ (0 <= fst (_get_directory_size damaged) <= bytes_under damaged)%Z.
Proof.
  split.
  - apply (directory_size_is_bytes_under
             (node (nth 1 sample_dir {| node := File "" 0 None; ctime := 0 |})));
      reflexivity.
  - apply (directory_size_is_bytes_under damaged). reflexivity.
Defined.


Lemma backup_type_known (n : Node) (t : string) :
  backup_type n = Ok t ->
  List.In t ["oracle"; "sqlserver"; "filesystem"; "unknown"].
Proof.
  unfold backup_type. destruct (listdir n) as [names|msg]; [|discriminate].
  repeat match goal with
         | |- context [if ?b then _ else _] => destruct b
         end; intros H; injection H as <-; cbn [List.In]; tauto.
Qed.

Lemma collect_Ok (items : list Item) :
  forall found out r out',
    collect items found out = (Ok r, out') ->
    exists new,
      r = found ++ new
      /\ List.Forall2 describes (directories items) new
      /\ out' = out ++ concat (map (fun i => snd (_get_directory_size (node i)))
                                   (directories items)).
Proof.
  induction items as [|item rest IH]; intros found out r out' H; cbn [collect] in H.
  - injection H as <- <-. exists []. rewrite !app_nil_r. split_and!; [reflexivity|constructor|reflexivity].
  - unfold directories. cbn [List.filter]. fold (directories rest).
    destruct (isdir (node item)) eqn:Hdir.
    + destruct (_get_directory_size (node item)) as [size printed] eqn:Hsize.
      destruct (backup_type (node item)) as [type|msg] eqn:Htype; [|discriminate].
      destruct (IH _ _ _ _ H) as (new & -> & Hnew & ->).
      eexists (_ :: new). split_and!.
      * rewrite <- app_assoc. reflexivity.
      * constructor; [|exact Hnew].
        unfold describes. cbn. rewrite Hsize. split_and!; reflexivity || assumption.
      * cbn [map concat]. rewrite Hsize. cbn [snd]. rewrite <- app_assoc. reflexivity.
    + apply (IH _ _ _ _ H).
Qed.

Lemma collect_Raise (before : list Item) :
  forall found out item after msg,
    List.Forall (fun i => isdir (node i) = true -> exists t, backup_type (node i) = Ok t)
                before ->
    isdir (node item) = true ->
    backup_type (node item) = Raise msg ->
    fst (collect (before ++ item :: after) found out) = Raise msg.
Proof.
  induction before as [|i rest IH]; intros found out item after msg Hall Hdir Hraise.
  - cbn [app collect]. rewrite Hdir, Hraise.
    destruct (_get_directory_size (node item)). reflexivity.
  - inversion Hall as [|? ? Hi Hrest]; subst. cbn [app collect].
    destruct (isdir (node i)) eqn:Hd.
    + destruct (Hi eq_refl) as [t Ht]. rewrite Ht.
      destruct (_get_directory_size (node i)). apply IH; assumption.
    + apply IH; assumption.
Qed.

Lemma fold_left_add (l : list Z) (a : Z) :
  fold_left Z.add l a = (a + fold_right Z.add 0 l)%Z.
Proof.
  revert a. induction l as [|x l IH]; intros a; cbn [fold_left fold_right].
  - lia.
  - rewrite IH. lia.
Qed.

(** X22. When [get_backup_status] returns a status, its backups are the
    directories of [backup_dir], in listing order and one record each,
    with the name, the size [_get_directory_size] finds, the ctime and the
    type of that directory; plain files are left out.  [total_backups] is
    the number of directories, [total_size] the sum of the sizes recorded,
    and what is printed is what the size computations print.  If moreover
    every directory is readable throughout, nothing is printed and
    [total_size] is the number of bytes under all of them. *)
Theorem backup_status_lists_directories
    (items : list Item) (s : BackupStatus) (out : list string)
    (Hrun : get_backup_status items = (Ok s, out)) :
  List.Forall2 describes (directories items) (backups s)
  /\ total_backups s = Z.of_nat (length (directories items))
  /\ total_size s = fold_right Z.add 0%Z (map b_size (backups s))
  /\ out = concat (map (fun i => snd (_get_directory_size (node i))) (directories items))
  /\ (List.Forall (fun i => readable (node i) = true) (directories items) ->
      out = []
      /\ total_size s
         = fold_right Z.add 0%Z (map (fun i => bytes_under (node i)) (directories items))).
Proof.
  unfold get_backup_status in Hrun.
  destruct (collect items [] []) as [[found|msg] out'] eqn:Hc; [|discriminate].
  injection Hrun as <- <-. cbn [backups total_backups total_size].
  destruct (collect_Ok _ _ _ _ _ Hc) as (new & Hfound & Hnew & Hout).
  cbn [app] in Hfound, Hout. subst new.
  assert (Hsize : fold_left Z.add (map b_size found) 0%Z
                  = fold_right Z.add 0%Z (map b_size found)).
  { rewrite fold_left_add. lia. }
  split_and!.
  - exact Hnew.
  - rewrite (List.Forall2_length Hnew). reflexivity.
  - exact Hsize.
  - exact Hout.
  - intros Hread. rewrite Hsize, Hout. clear Hc Hout Hsize.
    induction Hnew as [|i b rest bs Hib _ IH]; [split; reflexivity|].
    inversion Hread as [|? ? Hi His]; subst.
    destruct (IH His) as [IHout IHsize].
    destruct Hib as (_ & Hb & _ & Htype).
    assert (Hdir : isdir (node i) = true).
    { destruct (node i); [discriminate Htype | reflexivity]. }
    destruct (walk_readable (node i) Hi) as [Hall Hsum].
    assert (Hi_size : _get_directory_size (node i) = (bytes_under (node i), [])).
    { unfold _get_directory_size. rewrite (add_sizes_all _ Hall), (Hsum Hdir).
      reflexivity. }
    cbn [map concat fold_right]. rewrite Hb, Hi_size, IHout, IHsize. split; reflexivity.
Qed.

Lemma backup_status_lists_directories_witness :
  exists s,
    get_backup_status sample_dir = (Ok s, [])
    /\ List.Forall2 describes (directories sample_dir) (backups s)
    /\ total_backups s = 3%Z
    /\ total_size s = 6279%Z.
Proof.
  destruct (get_backup_status sample_dir) as [[s|msg] out] eqn:Hrun;
    [|vm_compute in Hrun; discriminate Hrun].
  assert (Hout : out = []) by (vm_compute in Hrun; congruence).
  subst out. exists s.
  destruct (backup_status_lists_directories sample_dir s [] Hrun)
    as (Hd & Hn & _ & _ & Hread).
  split_and!; [reflexivity | exact Hd | exact Hn |].
  destruct Hread as [_ ->]; [|reflexivity].
  repeat constructor.
Defined.

Lemma filter_all {A} (p : A -> bool) (l : list A) :
  (forall x, List.In x l -> p x = true) -> List.filter p l = l.
Proof.
  induction l as [|x l IH]; intros H; cbn [List.filter]; [reflexivity|].
  rewrite (H x (or_introl eq_refl)). f_equal. apply IH. intros y Hy. apply H. right. exact Hy.
Qed.

Lemma filter_none {A} (l : list A) : List.filter (fun _ => false) l = [].
Proof. induction l; [reflexivity | assumption]. Qed.

Lemma length_filter_either {A} (p q : A -> bool) (l : list A) :
  (forall x, q x = true -> p x = false) ->
  length (List.filter (fun x => p x || q x) l)
  = (length (List.filter p l) + length (List.filter q l))%nat.
Proof.
  intros Hpq. induction l as [|x l IH]; cbn [List.filter]; [reflexivity|].
  destruct (q x) eqn:Hq.
  - rewrite (Hpq x Hq). cbn [orb length]. rewrite IH. lia.
  - rewrite orb_false_r. destruct (p x); cbn [length]; rewrite IH; lia.
Qed.

Lemma has_type_snoc (t : string) (l : list BackupInfo) (b : BackupInfo) :
  has_type t (l ++ [b]) = has_type t l || String.eqb (b_type b) t.
Proof. unfold has_type. rewrite existsb_app. cbn [existsb]. rewrite orb_false_r. reflexivity. Qed.

Lemma tally_snoc (count : string -> Z) (l : list BackupInfo) (b : BackupInfo) :
  tally count (l ++ [b]) = <[b_type b := count (b_type b)]> (tally count l).
Proof. unfold tally. rewrite fold_left_app. reflexivity. Qed.

Lemma tally_lookup (count : string -> Z) (l : list BackupInfo) (t : string) :
  tally count l !! t = if has_type t l then Some (count t) else None.
Proof.
  induction l as [|b l IH] using rev_ind; [reflexivity|].
  rewrite tally_snoc, has_type_snoc.
  destruct (String.eqb (b_type b) t) eqn:Hb.
  - apply String.eqb_eq in Hb. subst t. rewrite lookup_insert_eq, orb_true_r. reflexivity.
  - apply String.eqb_neq in Hb. rewrite lookup_insert_ne by exact Hb.
    rewrite orb_false_r. exact IH.
Qed.

Lemma count_types_tally (found : list BackupInfo) :
  count_types found = tally (fun t => Z.of_nat (length (of_type t found))) found.
Proof. reflexivity. Qed.

Lemma tally_sum (found l : list BackupInfo) :
  sum_values (tally (fun t => Z.of_nat (length (of_type t found))) l)
  = Z.of_nat (length (List.filter (fun x => has_type (b_type x) l) found)).
Proof.
  induction l as [|b l IH] using rev_ind.
  - cbn [has_type existsb]. rewrite filter_none. reflexivity.
  - rewrite tally_snoc.
    pose proof (tally_lookup (fun t => Z.of_nat (length (of_type t found))) l (b_type b))
      as Hlook.
    destruct (has_type (b_type b) l) eqn:Hhas.
    + rewrite insert_id by exact Hlook. rewrite IH. do 2 f_equal.
      apply List.filter_ext. intros x. rewrite has_type_snoc.
      destruct (String.eqb (b_type b) (b_type x)) eqn:Hx;
        [|symmetry; apply orb_false_r].
      apply String.eqb_eq in Hx. rewrite <- Hx, Hhas. reflexivity.
    + unfold sum_values. rewrite map_fold_insert_L; [| intros; lia | exact Hlook].
      fold (sum_values (tally (fun t => Z.of_nat (length (of_type t found))) l)).
      rewrite IH.
      rewrite (List.filter_ext (fun x => has_type (b_type x) (l ++ [b]))
                 (fun x => has_type (b_type x) l || String.eqb (b_type b) (b_type x)))
        by (intros x; apply has_type_snoc).
      rewrite length_filter_either.
      * unfold of_type.
        rewrite (List.filter_ext (fun x => String.eqb (b_type x) (b_type b))
                   (fun x => String.eqb (b_type b) (b_type x)))
          by (intros x; apply String.eqb_sym).
        lia.
      * intros x Hx. apply String.eqb_eq in Hx. rewrite <- Hx. exact Hhas.
Qed.

(** X23. In a status, [backup_types] has exactly the types of the backups
    listed as keys, each with the number of backups of that type; every
    key is one of oracle, sqlserver, filesystem and unknown, every count is
    at least 1, and the counts add up to [total_backups]. *)
Theorem backup_types_tally
    (items : list Item) (s : BackupStatus) (out : list string)
    (Hrun : get_backup_status items = (Ok s, out)) :
  (forall t, backup_types s !! t
             = if has_type t (backups s)
               then Some (Z.of_nat (length (of_type t (backups s))))
               else None)
  /\ (forall t k, backup_types s !! t = Some k ->
        (1 <= k)%Z
        /\ List.In t ["oracle"; "sqlserver"; "filesystem"; "unknown"])
  /\ sum_values (backup_types s) = total_backups s.
Proof.
  unfold get_backup_status in Hrun.
  destruct (collect items [] []) as [[found|msg] out'] eqn:Hc; [|discriminate].
  injection Hrun as <- <-. cbn [backups total_backups backup_types].
  rewrite count_types_tally.
  assert (Hlookup : forall t,
             tally (fun t => Z.of_nat (length (of_type t found))) found !! t
             = if has_type t found then Some (Z.of_nat (length (of_type t found))) else None).
  { intros t. apply tally_lookup. }
  split_and!.
  - exact Hlookup.
  - intros t k Hk. rewrite Hlookup in Hk.
    destruct (has_type t found) eqn:Hhas; [|discriminate]. injection Hk as <-.
    unfold has_type in Hhas. apply existsb_exists in Hhas as (b & Hb & Hbt).
    split.
    + assert (Hin : List.In b (of_type t found)).
      { unfold of_type. apply List.filter_In. split; assumption. }
      destruct (of_type t found); [destruct Hin | cbn [length]; lia].
    + apply String.eqb_eq in Hbt. subst t.
      destruct (collect_Ok _ _ _ _ _ Hc) as (new & Hfound & Hnew & _).
      cbn [app] in Hfound. subst new.
      clear - Hnew Hb. induction Hnew as [|i b' rest bs Hib _ IH]; [destruct Hb|].
      destruct Hb as [<-|Hb]; [|exact (IH Hb)].
      destruct Hib as (_ & _ & _ & Htype). exact (backup_type_known _ _ Htype).
  - rewrite tally_sum. do 2 f_equal. apply filter_all.
    intros x Hx. unfold has_type. apply existsb_exists. exists x.
    split; [exact Hx | apply String.eqb_refl].
Qed.

Lemma backup_types_tally_witness :
  exists s,
    fst (get_backup_status sample_dir) = Ok s
    /\ backup_types s !! "oracle" = Some 1%Z
    /\ backup_types s !! "sqlserver" = None
    /\ sum_values (backup_types s) = total_backups s.
Proof.
  destruct (get_backup_status sample_dir) as [[s|msg] out] eqn:Hrun;
    [|vm_compute in Hrun; discriminate Hrun].
  exists s.
  destruct (backup_types_tally sample_dir s out Hrun) as (Hlook & _ & Hsum).
  assert (Hs : backups s = match get_backup_status sample_dir with
                           | (Ok s', _) => backups s'
                           | _ => []
                           end) by (rewrite Hrun; reflexivity).
  split_and!; [reflexivity | | | exact Hsum].
  - rewrite Hlook, Hs. reflexivity.
  - rewrite Hlook, Hs. reflexivity.
Defined.

(** X24. [get_backup_status] returns a status exactly when every directory
    of [backup_dir] can be listed.  The first directory that cannot be
    makes the whole call return the error of its listing: no backup is
    reported, whatever the directories before and after it hold. *)
Theorem unlistable_backup_fails_status (items : list Item) :
  (List.Forall (fun i => exists names, listdir (node i) = Ok names) (directories items) ->
   exists s, fst (get_backup_status items) = Ok s)
  /\ (forall before item after msg,
        items = before ++ item :: after ->
        List.Forall (fun i => exists names, listdir (node i) = Ok names)
                    (directories before) ->
        isdir (node item) = true ->
        listdir (node item) = Raise msg ->
        fst (get_backup_status items) = Raise msg).
Proof.
  assert (Htype : forall l,
             List.Forall (fun i => exists names, listdir (node i) = Ok names) (directories l) ->
             List.Forall (fun i => isdir (node i) = true -> exists t, backup_type (node i) = Ok t) l).
  { induction l as [|i l IH]; [constructor|].
    unfold directories. cbn [List.filter]. fold (directories l). intros H.
    destruct (isdir (node i)) eqn:Hd.
    - inversion H as [|? ? [names Hn] Hl]; subst. constructor; [|exact (IH Hl)].
      intros _. unfold backup_type. rewrite Hn.
      repeat match goal with
             | |- context [if ?b then _ else _] => destruct b
             end; eexists; reflexivity.
    - constructor; [intros Hd'; rewrite Hd in Hd'; discriminate Hd' | exact (IH H)]. }
  split.
  - intros Hall. apply Htype in Hall. unfold get_backup_status.
    assert (H : forall found out, exists r, fst (collect items found out) = Ok r).
    { clear - Hall. induction Hall as [|i l Hi _ IH]; intros found out; cbn [collect].
      - eexists. reflexivity.
      - destruct (isdir (node i)); [|apply IH].
        destruct (Hi eq_refl) as [t ->]. destruct (_get_directory_size (node i)).
        apply IH. }
    destruct (H [] []) as [r Hr].
    destruct (collect items [] []) as [[found|msg] out]; [|discriminate Hr].
    eexists. reflexivity.
  - intros before item after msg -> Hbefore Hdir Hlist.
    apply Htype in Hbefore.
    assert (Hraise : backup_type (node item) = Raise msg).
    { unfold backup_type. rewrite Hlist. reflexivity. }
    pose proof (collect_Raise before [] [] item after msg Hbefore Hdir Hraise) as H.
    unfold get_backup_status.
    destruct (collect (before ++ item :: after) [] []) as [[found|msg'] out];
      [discriminate H | cbn [fst] in *; injection H as ->; reflexivity].
Qed.

Lemma unlistable_backup_fails_status_witness :
  fst (get_backup_status locked_dir) = Raise "Permission denied"
  /\ exists s, fst (get_backup_status sample_dir) = Ok s.
Proof.
  split.
  - apply (unlistable_backup_fails_status locked_dir)
      with (before := [nth 0 locked_dir {| node := File "" 0 None; ctime := 0 |}])
           (item := nth 1 locked_dir {| node := File "" 0 None; ctime := 0 |})
           (after := [nth 2 locked_dir {| node := File "" 0 None; ctime := 0 |}]).
    + reflexivity.
    + repeat constructor. eexists. reflexivity.
    + reflexivity.
    + reflexivity.
  - apply (unlistable_backup_fails_status sample_dir).
    repeat constructor; eexists; reflexivity.
Defined.

End StatusProofs.

(* ===================================================================== *)
(** * Backups, restores and the cron job *)
(* ===================================================================== *)

Module JobsProofs.
Import Backup BackupCases Jobs.

Ltac run_job H :=
  unfold bind, os_makedirs, os_path_exists, datetime_now, subprocess_run,
         Jobs._get_directory_size, _log_backup, Jobs._cleanup_old_backups,
         write_cron, remove_cron, ret, printed in H;
  cbn [dir log commands cron_file clock entries stdout fst snd] in H.

Ltac split_job H :=
  repeat (match type of H with
          | context [makedirs ?e ?p ?es] => destruct (makedirs e p es) eqn:?
          | context [run ?e ?a ?es] => destruct (run e a es) as [[?|?] ?] eqn:?
          | context [Status._get_directory_size ?n] =>
              destruct (Status._get_directory_size n) eqn:?
          | context [open_log ?e] => destruct (open_log e) eqn:?
          | context [open_cron ?e] => destruct (open_cron e) eqn:?
          | context [os_remove ?e] => destruct (os_remove e) eqn:?
          | context [exists_ ?e ?p] => destruct (exists_ e p) eqn:?
          | context [Backup._cleanup_old_backups ?t ?d ?st] =>
              destruct (Backup._cleanup_old_backups t d st) eqn:?
          end;
          cbn [dir log commands cron_file clock entries stdout fst snd negb] in H).

(** X25. Whatever happens, [backup_oracle_database] makes one entry in the
    log, and it is the dict it returns: when the log can be written the
    line appended is that dict's and nothing else is appended.  The dict
    reports success exactly when it carries no error, and then [expdp] was
    the one command run and it exited with code 0; in every case at most
    one command is run. *)
Theorem backup_logs_what_it_returns (env : Env) (config : Config)
    (connection_string : string) (backup_name : option string)
    (w w' : World) (info : Info)
    (Hrun : backup_oracle_database env config connection_string backup_name w
            = (info, w')) :
  log w' = (log w ++ match open_log env with
                     | None => [(dumps env info ++ newline)%string]
                     | Some _ => []
                     end)%list
  /\ (success info = true <-> error info = None)
  /\ (commands w' = commands w
      \/ exists argv, commands w' = (commands w ++ [argv])%list
                      /\ hd ""%string argv = "expdp"%string)
  /\ (success info = true ->
      exists argv es c,
        commands w' = (commands w ++ [argv])%list
        /\ fst (run env argv es) = Ok c
        /\ returncode c = 0%Z).
Proof.
  unfold backup_oracle_database, default_name in Hrun.
  destruct (not_ backup_name); run_job Hrun; split_job Hrun;
    injection Hrun as <- <-;
    cbn [dir log commands cron_file clock entries stdout success error];
    rewrite ?app_nil_r.
  all: split_and!; try reflexivity; try (left; reflexivity); try discriminate.
  all: try (split; discriminate).
  all: try (right; eexists; split; reflexivity).
  all: try (destruct (returncode _ =? 0)%Z; split; congruence).
  all: intros Hzero; apply Z.eqb_eq in Hzero;
    match goal with
    | E : run ?e ?a ?es = (Ok ?c, _) |- _ => exists a, es, c; rewrite E
    end;
    split_and!; [reflexivity | reflexivity | exact Hzero].
Qed.


Lemma backup_logs_what_it_returns_witness :
  exists info w',
    backup_oracle_database (host 1) settings "system/manager@orcl" (Some "nightly")
      (start three_backups) = (info, w')
    /\ success info = false
    /\ log w' = ["{success: false}" ++ newline]%string.
Proof.
  destruct (backup_oracle_database (host 1) settings "system/manager@orcl" (Some "nightly")
              (start three_backups)) as [info w'] eqn:Hrun.
  exists info, w'.
  destruct (backup_logs_what_it_returns _ _ _ _ _ _ _ Hrun) as (Hlog & _ & _ & _).
  assert (Hinfo : success info = false).
  { replace info with (fst (backup_oracle_database (host 1) settings "system/manager@orcl"
                              (Some "nightly") (start three_backups)))
      by (rewrite Hrun; reflexivity).
    vm_compute. reflexivity. }
  split_and!; [reflexivity | exact Hinfo |].
  rewrite Hlog. cbn [host open_log dumps start log app]. rewrite Hinfo. reflexivity.
Defined.





(** X27. [restore_oracle_database] never cleans up and logs only a restore
    that ran to its end.  When the backup's path does not exist, the
    answer is the "not found" failure and nothing at all has happened: no
    command, no log line, no reading of the clock.  Otherwise [impdp] is
    the one command run, on the path joined from [backup_dir] and the
    name, and [backup_dir] holds afterwards what the command left.  If the
    command raises, the answer is a bare failure with the exception's
    message and nothing is logged or printed; if it returns, success is
    "exit code 0", the error is the command's stderr exactly when it is
    not, and the dict returned is the one logged. *)
Theorem restore_logs_completed_runs_only (env : Env) (config : Config)
    (backup_name connection_string : string) (w w' : World) (info : Info)
    (Hrun : restore_oracle_database env config backup_name connection_string w
            = (info, w')) :
  let backup_path := path_join (backup_dir config) backup_name in
  let argv := impdp_command connection_string backup_path backup_name in
  if exists_ env backup_path then
    commands w' = (commands w ++ [argv])%list
    /\ entries (dir w') = snd (run env argv (entries (dir w)))
    /\ match fst (run env argv (entries (dir w))) with
       | Raise msg =>
           info = Failure msg /\ log w' = log w /\ stdout (dir w') = stdout (dir w)
       | Ok c =>
           success info = (returncode c =? 0)%Z
           /\ error info = (if (returncode c =? 0)%Z then None else Some (r_stderr c))
           /\ log w' = (log w ++ match open_log env with
                                 | None => [(dumps env info ++ newline)%string]
                                 | Some _ => []
                                 end)%list
       end
  else
    info = Failure ("Backup " ++ backup_name ++ " not found")%string /\ w' = w.
Proof.
  intros backup_path argv. subst backup_path argv.
  unfold restore_oracle_database in Hrun. run_job Hrun.
  destruct (exists_ env (path_join (backup_dir config) backup_name));
    cbn [negb] in Hrun.
  - destruct (run env _ (entries (dir w))) as [[c|msg] es] eqn:Hcommand;
      cbn [dir log commands cron_file clock entries stdout fst snd] in Hrun |- *.
    + destruct (open_log env); injection Hrun as <- <-;
        cbn [dir log commands entries success error];
        rewrite ?app_nil_r; split_and!; reflexivity.
    + injection Hrun as <- <-. cbn [dir log commands entries stdout].
      split_and!; reflexivity.
  - injection Hrun as <- <-. split; reflexivity.
Qed.

Lemma restore_logs_completed_runs_only_witness :
  (exists info w',
     restore_oracle_database no_command settings "nightly" "system/manager@orcl"
       (start three_backups) = (info, w')
     /\ info = Failure "No such file or directory"
     /\ log w' = [])
  /\ (exists info,
        restore_oracle_database (host 0) settings "weekly" "system/manager@orcl"
          (start three_backups) = (info, start three_backups)
        /\ info = Failure "Backup weekly not found").
Proof.
  split.
  - destruct (restore_oracle_database no_command settings "nightly" "system/manager@orcl"
                (start three_backups)) as [info w'] eqn:Hrun.
    exists info, w'.
    pose proof (restore_logs_completed_runs_only _ _ _ _ _ _ _ Hrun) as H.
    cbv beta zeta in H.
    change (exists_ no_command (path_join (backup_dir settings) "nightly")) with true in H.
    cbv iota in H. destruct H as (_ & _ & H).
    change (fst (run no_command
                   (impdp_command "system/manager@orcl"
                      (path_join (backup_dir settings) "nightly") "nightly")
                   (entries (dir (start three_backups)))))
      with (@Raise Completed "No such file or directory") in H.
    cbv iota in H. destruct H as (Hinfo & Hlog & _).
    split_and!; [reflexivity | exact Hinfo | exact Hlog].
  - destruct (restore_oracle_database (host 0) settings "weekly" "system/manager@orcl"
                (start three_backups)) as [info w'] eqn:Hrun.
    pose proof (restore_logs_completed_runs_only _ _ _ _ _ _ _ Hrun) as H.
    cbv beta zeta in H.
    change (exists_ (host 0) (path_join (backup_dir settings) "weekly")) with false in H.
    cbv iota in H. destruct H as [Hinfo Hw].
    exists info. rewrite <- Hw. split; [reflexivity | exact Hinfo].
Defined.

(** X28. [schedule_backup] reports success exactly when a type and a
    schedule are given, the cron file can be written, the [crontab]
    command can be started and the file removed again: the command's exit
    code plays no part.  After a success the job line returned is the one
    built from the configuration, [crontab] was the one command run and
    the temporary file is gone.  Without a type or a schedule nothing
    happens at all.  When the file has been written and the call fails
    later, the file stays behind with the job line in it. *)
Theorem schedule_ignores_exit_code (env : Env) (backup_config : BackupConfig)
    (w w' : World) (info : Info)
    (Hrun : schedule_backup env backup_config w = (info, w')) :
  (success info = true
   <-> not_ (type backup_config) = false
       /\ not_ (schedule backup_config) = false
       /\ open_cron env = None
       /\ (exists c, fst (run env ["crontab"; cron_path]%string (entries (dir w))) = Ok c)
       /\ os_remove env = None)
  /\ (success info = true ->
      info = Scheduled ("Backup scheduled with cron: " ++ get (schedule backup_config))%string
                       (cron_job backup_config)
      /\ commands w' = (commands w ++ [["crontab"; cron_path]%string])%list
      /\ cron_file w' = None)
  /\ (not_ (type backup_config) || not_ (schedule backup_config) = true ->
      info = Failure "Backup type and schedule are required" /\ w' = w)
  /\ (not_ (type backup_config) || not_ (schedule backup_config) = false ->
      open_cron env = None ->
      success info = false ->
      cron_file w' = Some (cron_job backup_config ++ newline)%string).
Proof.
  unfold schedule_backup in Hrun.
  destruct (not_ (type backup_config)); cbn [orb] in Hrun |- *;
    [|destruct (not_ (schedule backup_config)); cbn [orb] in Hrun |- *].
  1, 2: unfold ret in Hrun; injection Hrun as <- <-; cbn [success];
    (split_and!; [split; [discriminate | intros (? & ? & _); discriminate]
                 | discriminate | split; reflexivity | discriminate]).
  run_job Hrun.
  destruct (open_cron env) as [msg|];
    cbn [dir log commands cron_file clock entries stdout] in Hrun.
  { injection Hrun as <- <-. cbn [success].
    split_and!; try discriminate.
    split; [discriminate | intros (_ & _ & H & _); discriminate H]. }
  destruct (run env _ (entries (dir w))) as [[c|msg] es] eqn:Hcommand;
    cbn [dir log commands cron_file clock entries stdout fst] in Hrun |- *.
  - destruct (os_remove env) as [msg|];
      cbn [dir log commands cron_file clock entries stdout] in Hrun;
      injection Hrun as <- <-; cbn [success cron_file commands];
      split_and!; try discriminate; try reflexivity.
    + split; [discriminate | intros (_ & _ & _ & _ & H); discriminate H].
    + split; [intros _; split_and!; try reflexivity; exists c; reflexivity
             | reflexivity].
    + intros _. split_and!; reflexivity.
  - injection Hrun as <- <-. cbn [success cron_file commands].
    split_and!; try discriminate; try reflexivity.
    split; [discriminate | intros (_ & _ & _ & [c H] & _); discriminate H].
Qed.

Lemma schedule_ignores_exit_code_witness :
  exists info w',
    schedule_backup (host 1) nightly_sqlserver (start three_backups) = (info, w')
    /\ success info = true
    /\ cron_file w' = None.
Proof.
  destruct (schedule_backup (host 1) nightly_sqlserver (start three_backups))
    as [info w'] eqn:Hrun.
  exists info, w'.
  destruct (schedule_ignores_exit_code _ _ _ _ _ Hrun) as ([_ Hok] & Hthen & _).
  assert (Hsuccess : success info = true).
  { apply Hok. split_and!; try reflexivity. eexists. reflexivity. }
  destruct (Hthen Hsuccess) as (_ & _ & Hfile).
  split_and!; [reflexivity | exact Hsuccess | exact Hfile].
Defined.

End JobsProofs.
